(** * causallib.evaluation: fold-aware scoring and result aggregation

    A shallow embedding of [causallib/evaluation/metrics.py],
    [causallib/evaluation/weight_evaluator.py],
    [causallib/evaluation/results.py] and the curve functions of
    [causallib/evaluation/plots/helpers.py], and the properties of the
    scoring pipeline proved over it.

    Conventions of the embedding:
    - a Python exception is a value of [exn]; a call that may raise returns
      [result]; a call that may also emit warnings returns [M], the result
      paired with the warnings emitted, in order;
    - floats are real numbers ([R]); the not-a-number value is the separate
      cell [NaN];
    - a [dict] is an association list in insertion order whose keys are
      pairwise distinct;
    - a pandas Series is its name, its index labels and its values; a
      DataFrame is its level names, its column keys and its rows, each row a
      key (one label per index level) and one cell per column;
    - modules outside the sources are taken to import, and what the
      sources use of them is a parameter: the metric library, the two
      distances of [utils/stat_utils.py] and the scoring of an outcome
      model;
    - a function of a module under the sources can be called once that
      module is imported: it first raises what the import raises. *)

From Stdlib Require Import List String Ascii ZArith Reals Lra Lia Bool Sorted.
Import ListNotations.
Open Scope string_scope.
Open Scope list_scope.

(** ** Exceptions, results and warnings *)

Inductive exn : Type :=
| ValueError (msg : string)
| KeyError (key : string)
| IndexError
| TypeError (msg : string)
| AttributeError (attr : string)
| UnboundLocalError (var : string)
| IndexingError
| InvalidIndexError
| ImportError (name : string)
| AssertionError (msg : string).

Inductive result (A : Type) : Type :=
| Ok (a : A)
| Raise (e : exn).
Arguments Ok {A} a.
Arguments Raise {A} e.

Definition M (A : Type) : Type := (result A * list string)%type.

Definition ret {A} (a : A) : M A := (Ok a, []).
Definition raise {A} (e : exn) : M A := (Raise e, []).
Definition lift {A} (r : result A) : M A := (r, []).
Definition warn (msg : string) : M unit := (Ok tt, [msg]).

Definition bind {A B} (m : M A) (f : A -> M B) : M B :=
  match m with
  | (Ok a, w) => let (r, w') := f a in (r, w ++ w')
  | (Raise e, w) => (Raise e, w)
  end.

Definition rbind {A B} (r : result A) (f : A -> result B) : result B :=
  match r with
  | Ok a => f a
  | Raise e => Raise e
  end.

Declare Scope py_scope.
Delimit Scope py_scope with py.
Notation "x <- m ;; k" := (bind m (fun x => k))
  (at level 61, m at next level, right associativity) : py_scope.
Notation "m ;;; k" := (bind m (fun _ => k))
  (at level 61, right associativity) : py_scope.
Notation "x <~ r ;; k" := (rbind r (fun x => k))
  (at level 61, r at next level, right associativity) : py_scope.
Open Scope py_scope.

(** ** Dictionaries (insertion ordered) *)

Definition dict (V : Type) : Type := list (string * V).

Definition keys {V} (d : dict V) : list string := map fst d.

Fixpoint dict_get {V} (d : dict V) (k : string) : option V :=
  match d with
  | [] => None
  | (k', v) :: d' => if String.eqb k' k then Some v else dict_get d' k
  end.

(** [d[k] = v]: an existing key keeps its position, a new key goes last. *)
Fixpoint dict_set {V} (d : dict V) (k : string) (v : V) : dict V :=
  match d with
  | [] => [(k, v)]
  | (k', v') :: d' =>
      if String.eqb k' k then (k', v) :: d' else (k', v') :: dict_set d' k v
  end.

(** [d[k]] as an expression: [KeyError] on a missing key. *)
Definition dict_item {V} (d : dict V) (k : string) : result V :=
  match dict_get d k with
  | Some v => Ok v
  | None => Raise (KeyError k)
  end.

Definition str_in (s : string) (l : list string) : bool :=
  existsb (String.eqb s) l.

(** ** Labels, cells, series and frames *)

Inductive label : Type :=
| LStr (s : string)
| LInt (z : Z)
| LObj (repr : string).

Definition label_eqb (a b : label) : bool :=
  match a, b with
  | LStr s, LStr t => String.eqb s t
  | LInt x, LInt y => Z.eqb x y
  | LObj s, LObj t => String.eqb s t
  | _, _ => false
  end.

(** One entry of a (multi-level) index: one label per level. *)
Definition key : Type := list label.

Fixpoint key_eqb (a b : key) : bool :=
  match a, b with
  | [], [] => true
  | x :: a', y :: b' => label_eqb x y && key_eqb a' b'
  | _, _ => false
  end.

(** The value a metric produces: a float, not-a-number, or an array
    (confusion matrix, curve triple). *)
Inductive cell : Type :=
| Scalar (r : R)
| NaN
| Array (rs : list R).

(** [np.isscalar] *)
Definition isscalar (c : cell) : bool :=
  match c with
  | Array _ => false
  | _ => true
  end.

Record Series (V : Type) : Type := mkSeries {
  s_name : option label;
  s_index : list label;
  s_values : list V
}.
Arguments mkSeries {V} _ _ _.
Arguments s_name {V} _.
Arguments s_index {V} _.
Arguments s_values {V} _.

(** What is handed to a metric callable: an integer or a float series. *)
Inductive array : Type :=
| IntSeries (s : Series Z)
| FloatSeries (s : Series R).

(** [metric(y_true, prediction, sample_weight=...)] *)
Definition metric_func : Type := array -> array -> option array -> result cell.

Inductive dtype : Type := DFloat | DObject.

(** The [pd.Series] of scores a scorer returns. *)
Record ScoreSeries : Type := mkScoreSeries {
  ss_dtype : dtype;
  ss_items : dict cell
}.

Record DataFrame : Type := mkDataFrame {
  index_names : list (option label);
  column_names : list (option label);
  columns : list key;
  rows : list (key * list cell)
}.

(** Covariates: a float frame kept column by column. *)
Record Covariates : Type := mkCovariates {
  x_index : list label;
  x_columns : list (label * list R)
}.

(** ** Positional and boolean indexing *)

(** One position of [.iloc[...]] on an axis of length [n]: negative
    positions count from the end, anything else is out of bounds. *)
Definition iloc_position (n : nat) (p : Z) : result nat :=
  if (0 <=? p)%Z && (p <? Z.of_nat n)%Z then Ok (Z.to_nat p)
  else if (- Z.of_nat n <=? p)%Z && (p <? 0)%Z then Ok (Z.to_nat (Z.of_nat n + p))
  else Raise IndexError.

Fixpoint iloc_list {V} (l : list V) (idx : list Z) : result (list V) :=
  match idx with
  | [] => Ok []
  | p :: idx' =>
      i <~ iloc_position (List.length l) p ;;
      match nth_error l i with
      | None => Raise IndexError
      | Some v => vs <~ iloc_list l idx' ;; Ok (v :: vs)
      end
  end.

(** [s.iloc[idx]] *)
Definition series_iloc {V} (s : Series V) (idx : list Z) : result (Series V) :=
  ix <~ iloc_list (s_index s) idx ;;
  vs <~ iloc_list (s_values s) idx ;;
  Ok (mkSeries (s_name s) ix vs).

Fixpoint columns_iloc (cols : list (label * list R)) (idx : list Z)
    : result (list (label * list R)) :=
  match cols with
  | [] => Ok []
  | (c, vs) :: cols' =>
      vs' <~ iloc_list vs idx ;;
      rest <~ columns_iloc cols' idx ;;
      Ok ((c, vs') :: rest)
  end.

(** [X.iloc[idx]] *)
Definition frame_iloc (X : Covariates) (idx : list Z) : result Covariates :=
  ix <~ iloc_list (x_index X) idx ;;
  cols <~ columns_iloc (x_columns X) idx ;;
  Ok (mkCovariates ix cols).

Fixpoint labels_eqb (a b : list label) : bool :=
  match a, b with
  | [], [] => true
  | x :: a', y :: b' => label_eqb x y && labels_eqb a' b'
  | _, _ => false
  end.

(** The entries of a boolean indexer under the label [x], in order. *)
Fixpoint mask_lookup (index : list label) (mask : list bool) (x : label)
    : list bool :=
  match index, mask with
  | i :: index', b :: mask' =>
      if label_eqb i x then b :: mask_lookup index' mask' x
      else mask_lookup index' mask' x
  | _, _ => []
  end.

(** [indexer.take(indexer.index.get_indexer_for(index))]: for each label
    of [index], all the entries the indexer has under it; [None] when a
    label has no entry. *)
Fixpoint align_mask (mindex : list label) (mask : list bool)
    (index : list label) : option (list bool) :=
  match index with
  | [] => Some []
  | x :: index' =>
      match mask_lookup mindex mask x, align_mask mindex mask index' with
      | [], _ => None
      | _, None => None
      | bs, Some rest => Some (bs ++ rest)
      end
  end.

Fixpoint select {V} (l : list V) (mask : list bool) : list V :=
  match l, mask with
  | v :: l', b :: mask' => if b then v :: select l' mask' else select l' mask'
  | _, _ => []
  end.

(** The boolean indexer [mask] brought to the index of the indexed object:
    taken as it is when the two indexes are equal; otherwise realigned by
    label, which fails when a label of the index has no entry
    ([IndexingError]) and, with labels repeated in the indexer, when the
    realigned entries are more than the index has labels
    ([IndexError]). *)
Definition aligned_mask (index : list label) (mask : Series bool)
    : result (list bool) :=
  if labels_eqb (s_index mask) index then Ok (s_values mask)
  else
    match align_mask (s_index mask) (s_values mask) index with
    | None => Raise IndexingError
    | Some m =>
        if Nat.eqb (List.length m) (List.length index) then Ok m
        else Raise IndexError
    end.

(** [s.loc[mask]] with a boolean series *)
Definition loc_mask {V} (s : Series V) (mask : Series bool) : result (Series V) :=
  m <~ aligned_mask (s_index s) mask ;;
  Ok (mkSeries (s_name s) (select (s_index s) m) (select (s_values s) m)).

(** [a == group_level] *)
Definition series_eq (a : Series Z) (group_level : Z) : Series bool :=
  mkSeries (s_name a) (s_index a) (map (Z.eqb group_level) (s_values a)).

(** [~mask] *)
Definition series_not (mask : Series bool) : Series bool :=
  mkSeries (s_name mask) (s_index mask) (map negb (s_values mask)).

(** [np.sort(np.unique(a))] *)
Fixpoint insert_unique (z : Z) (l : list Z) : list Z :=
  match l with
  | [] => [z]
  | y :: l' =>
      if (z <? y)%Z then z :: l
      else if (z =? y)%Z then l
      else y :: insert_unique z l'
  end.

Definition sort_unique (l : list Z) : list Z := fold_right insert_unique [] l.

(** ** Distances between two weighted samples *)

(** [(x, y, wx, wy) -> scalar] *)
Definition distance_func : Type :=
  Series R -> Series R -> Series R -> Series R -> result cell.

(** [abs(...)] of a metric value *)
Definition cell_abs (c : cell) : cell :=
  match c with
  | Scalar r => Scalar (Rabs r)
  | NaN => NaN
  | Array rs => Array (map Rabs rs)
  end.

(** ** Concatenating frames *)

(** What a fold is scored to: a score table, or the pair of tables of a
    weight model. The aggregate of all folds has the same two shapes. *)
Inductive scores_obj : Type :=
| ScoreTable (t : DataFrame)
| WeightEvaluatorScores (prediction_scores covariate_balance : DataFrame).

Fixpoint key_in (c : key) (l : list key) : bool :=
  match l with
  | [] => false
  | d :: l' => key_eqb c d || key_in c l'
  end.

Fixpoint keys_unique (l : list key) : bool :=
  match l with
  | [] => true
  | c :: l' => negb (key_in c l') && keys_unique l'
  end.

Fixpoint keys_eqb (a b : list key) : bool :=
  match a, b with
  | [], [] => true
  | x :: a', y :: b' => key_eqb x y && keys_eqb a' b'
  | _, _ => false
  end.

Fixpoint position (c : key) (cols : list key) : option nat :=
  match cols with
  | [] => None
  | d :: cols' =>
      if key_eqb d c then Some O
      else match position c cols' with
           | Some i => Some (S i)
           | None => None
           end
  end.

(** The cell of a row under column [c]; a missing column reads as NaN. *)
Definition cell_at (cols : list key) (cells : list cell) (c : key) : cell :=
  match position c cols with
  | Some i => nth i cells NaN
  | None => NaN
  end.

(** A row laid out for the columns [to]: kept as it is when the columns
    are the same, otherwise reindexed, with NaN under the new columns. *)
Definition conform (from to : list key) (cells : list cell) : list cell :=
  if keys_eqb from to then cells else map (cell_at from cells) to.

(** The columns so far, followed by the new columns of [f]. *)
Definition union_step (acc : list key) (f : DataFrame) : list key :=
  acc ++ filter (fun c => negb (key_in c acc)) (columns f).

(** The union of the column indexes, in order of first appearance. *)
Definition union_columns (frames : list DataFrame) : list key :=
  fold_left union_step frames [].

(** The columns of a row-wise concatenation: the common columns when all
    frames have the same; otherwise their union, for which no frame may
    repeat a column. *)
Definition concat_columns_index (frames : list DataFrame) : result (list key) :=
  match frames with
  | [] => Raise (ValueError "No objects to concatenate")
  | f :: fs =>
      if forallb (fun g => keys_eqb (columns f) (columns g)) fs
      then Ok (columns f)
      else if forallb (fun g => keys_unique (columns g)) frames
      then Ok (union_columns frames)
      else Raise InvalidIndexError
  end.

Definition name_eqb (a b : option label) : bool :=
  match a, b with
  | None, None => true
  | Some x, Some y => label_eqb x y
  | _, _ => false
  end.

(** [get_unanimous_names]: level by level, the name that all the indexes
    have there, a level an index does not have counting as unnamed;
    unnamed where they differ. *)
Definition unanimous_names (l : list (list (option label)))
    : list (option label) :=
  match l with
  | [] => []
  | n :: l' =>
      map (fun i =>
             if forallb (fun m => name_eqb (nth i m None) (nth i n None)) l'
             then nth i n None else None)
          (seq 0 (fold_left Nat.max (map (@List.length (option label)) l) 0))
  end.

(** The row labels of a frame. *)
Definition frame_index (f : DataFrame) : list key := map fst (rows f).

Definition nlevels (f : DataFrame) : nat := List.length (index_names f).

(** The level names a row-wise concatenation puts under the level of the
    keys: those of the first frame when all frames have the same row
    labels; otherwise the names the frames agree on, for which their
    indexes must have the same number of levels. *)
Definition concat_index_names (frames : list DataFrame)
    : result (list (option label)) :=
  match frames with
  | [] => Ok []
  | f :: fs =>
      if forallb (fun g => keys_eqb (frame_index f) (frame_index g)) fs
      then Ok (index_names f)
      else if forallb (fun g => Nat.eqb (nlevels g) (nlevels f)) fs
      then Ok (unanimous_names (map index_names frames))
      else Raise (AssertionError
        "Cannot concat indices that do not have the same number of levels")
  end.

(** The error of [pd.concat] for an object that is neither a Series nor a
    DataFrame. *)
Definition not_concatenable (type_repr : string) : exn :=
  TypeError ("cannot concatenate object of type '" ++ type_repr
             ++ "'; only Series and DataFrame objs are valid")%string.

Definition as_frame (o : scores_obj) : result DataFrame :=
  match o with
  | ScoreTable t => Ok t
  | WeightEvaluatorScores _ _ =>
      Raise (not_concatenable
               "<class 'causallib.evaluation.metrics.WeightEvaluatorScores'>")
  end.

Fixpoint as_frames (objs : list (label * scores_obj))
    : result (list (label * DataFrame)) :=
  match objs with
  | [] => Ok []
  | (k, o) :: objs' =>
      f <~ as_frame o ;;
      fs <~ as_frames objs' ;;
      Ok ((k, f) :: fs)
  end.

(** The rows of frame [f] under the key [k], laid out for [cols]. *)
Definition keyed_rows (cols : list key) (kf : label * DataFrame)
    : list (key * list cell) :=
  map (fun r => (fst kf :: fst r, conform (columns (snd kf)) cols (snd r)))
      (rows (snd kf)).

(** [pd.concat(objs, axis="index", keys=..., names=[name])]: the objects
    come with their keys, which are those of a dictionary and so distinct.
    The types are checked first, then the levels of the row labels, and
    the rows are laid out for the combined columns last. *)
Definition pd_concat_index (objs : list (label * scores_obj)) (name : label)
    : result DataFrame :=
  match objs with
  | [] => Raise (ValueError "No objects to concatenate")
  | _ =>
      frames <~ as_frames objs ;;
      names <~ concat_index_names (map snd frames) ;;
      cols <~ concat_columns_index (map snd frames) ;;
      Ok (mkDataFrame
            (Some name :: names)
            (unanimous_names (map (fun kf => column_names (snd kf)) frames))
            cols
            (flat_map (keyed_rows cols) frames))
  end.

(** [range(len(l))] zipped with [l] *)
Fixpoint enumerate_from {A} (i : nat) (l : list A) : list (label * A) :=
  match l with
  | [] => []
  | x :: l' => (LInt (Z.of_nat i), x) :: enumerate_from (S i) l'
  end.

(** [pd.concat(tables, axis="columns", names=names)] for the tables of a
    dictionary that were all built over the index [index]: the rows stay,
    the columns of each table go under its key. *)
Definition pd_concat_columns (index : list key) (tables : list (label * DataFrame))
    (names : list (option label)) : result DataFrame :=
  match tables with
  | [] => Raise (ValueError "No objects to concatenate")
  | t :: _ =>
      Ok (mkDataFrame
            (index_names (snd t))
            names
            (flat_map (fun kt => map (cons (fst kt)) (columns (snd kt))) tables)
            (map (fun i =>
                    (nth i index [],
                     flat_map (fun kt => snd (nth i (rows (snd kt)) ([], []))) tables))
                 (seq 0 (List.length index))))
  end.

(** [df.xs(k, axis="columns", level=0)] for a key [k] that heads some
    column: the columns under [k], without their first level. *)
Definition xs_columns (df : DataFrame) (k : label) : DataFrame :=
  let keep := map (fun c => match c with
                            | l :: _ => label_eqb l k
                            | [] => false
                            end) (columns df) in
  mkDataFrame (index_names df) (tl (column_names df))
    (map (@tl label) (select (columns df) keep))
    (map (fun r => (fst r, select (snd r) keep)) (rows df)).

(** ** Predictions and estimators *)

(** [str | callable]: a key of the distance registry, or a distance
    function with its printed form. *)
Inductive metric_arg : Type :=
| MetricName (name : string)
| MetricCallable (repr : string) (f : distance_func).

Record WeightEvaluatorPredictions : Type := mkWeightEvaluatorPredictions {
  weight_by_treatment_assignment : Series R;
  weight_for_being_treated : option (Series R);
  treatment_assignment_pred : option (Series Z)
}.

(** The subclass adds two fields and no method. *)
Record PropensityEvaluatorPredictions : Type := mkPropensityEvaluatorPredictions {
  as_weight_predictions :> WeightEvaluatorPredictions;
  propensity : Series R;
  propensity_by_treatment_assignment : Series R
}.

(** The predictions of an outcome model on one fold: the predicted outcome
    under each treatment value, and whether the outcome is binary. *)
Record OutcomeEvaluatorPredictions : Type := mkOutcomeEvaluatorPredictions {
  prediction_by_treatment : list (Z * Series R);
  is_binary_outcome : bool
}.

(** A prediction object, by its runtime type. An object of any other type
    is known by the printed form of its type. *)
Inductive prediction : Type :=
| OutcomePrediction (p : OutcomeEvaluatorPredictions)
| PropensityPrediction (p : PropensityEvaluatorPredictions)
| WeightPrediction (p : WeightEvaluatorPredictions)
| OtherPrediction (type_repr : string).

(** A fitted model: the printed form of its type and the outcome of the
    three [isinstance] tests the results factory makes. *)
Record estimator : Type := mkEstimator {
  estimator_type_repr : string;
  is_PropensityEstimator : bool;
  is_WeightEstimator : bool;
  is_IndividualOutcomeEstimator : bool
}.

(** [models]: by phase, by fold, or a model itself. *)
Inductive models_arg : Type :=
| ModelsDict (d : dict (list estimator))
| ModelsList (l : list estimator)
| ModelsSingle (e : estimator).

Definition cv_folds : Type := list (list Z * list Z).

Inductive results_variant : Type :=
| PropensityEvaluationResults
| WeightEvaluationResults
| BinaryOutcomeEvaluationResults
| ContinuousOutcomeEvaluationResults.

Record EvaluationResults : Type := mkEvaluationResults {
  variant : results_variant;
  res_evaluated_metrics : scores_obj;
  res_models : models_arg;
  res_predictions : dict (list prediction);
  res_cv : cv_folds;
  res_X : Covariates;
  res_a : Series Z;
  res_y : Series R
}.

(** [l[i]] *)
Definition list_item {A} (l : list A) (i : nat) : result A :=
  match nth_error l i with
  | Some x => Ok x
  | None => Raise IndexError
  end.

(** ** Sample data *)

Definition sample_index : list label := [LInt 0; LInt 1; LInt 2; LInt 3].

(** Four samples, the first two treated. *)
Definition sample_a : Series Z :=
  mkSeries (Some (LStr "a")) sample_index [1; 1; 0; 0]%Z.

Definition sample_x : Series R :=
  mkSeries (Some (LStr "x0")) sample_index [1; 5; 0; 2]%R.

Definition sample_w : Series R :=
  mkSeries None sample_index [1; 1; 1; 1]%R.

Definition sample_X : Covariates :=
  mkCovariates sample_index
    [(LStr "x0", [1; 5; 0; 2]%R); (LStr "x1", [2; 0; 1; 3]%R)].

Definition sample_y : Series R :=
  mkSeries (Some (LStr "y")) sample_index [0; 1; 0; 1]%R.

(** Two folds: samples 0 and 2 against samples 1 and 3, and back. *)
Definition sample_cv : cv_folds :=
  [([0; 2]%Z, [1; 3]%Z); ([1; 3]%Z, [0; 2]%Z)].

(** A metric that is defined and a metric that fails validation. *)
Definition sample_metrics : dict metric_func :=
  [ ("accuracy", fun _ _ _ => Ok (Scalar 1));
    ("roc_auc", fun _ _ _ =>
       Raise (ValueError "Only one class present in y_true.")) ].

Definition sample_regression_metrics : dict metric_func :=
  [ ("mse", fun _ _ _ => Ok (Scalar 0));
    ("msle", fun _ _ _ =>
       Raise (ValueError "Targets contain negative values.")) ].

(** A stand-in for the metric library: every metric is 0. *)
Definition sample_sk (name : string) : metric_func :=
  fun _ _ _ => Ok (Scalar 0).

(** The predictions of a weight model on the samples [i] and [j]. *)
Definition sample_weight_prediction (i j : Z) : WeightEvaluatorPredictions :=
  mkWeightEvaluatorPredictions
    (mkSeries None [LInt i; LInt j] [2; 2]%R)
    (Some (mkSeries None [LInt i; LInt j] [2; 2]%R))
    (Some (mkSeries None [LInt i; LInt j] [1; 0]%Z)).

Definition sample_weight_predictions : dict (list prediction) :=
  [ ("train", [WeightPrediction (sample_weight_prediction 0 2);
               WeightPrediction (sample_weight_prediction 1 3)]);
    ("valid", [WeightPrediction (sample_weight_prediction 1 3);
               WeightPrediction (sample_weight_prediction 0 2)]) ].

(** Two score tables with the same metric. *)
Definition sample_table (v : R) : DataFrame :=
  mkDataFrame [None] [None] [[LStr "accuracy"]] [([LInt 0], [Scalar v])].




(** A table whose rows are labelled on two levels, and one that repeats a
    column. *)
Definition sample_deep_table : DataFrame :=
  mkDataFrame [None; None] [None] [[LStr "accuracy"]]
    [([LInt 0; LInt 0], [Scalar 1%R])].

Definition sample_repeated_table : DataFrame :=
  mkDataFrame [None] [None] [[LStr "roc_auc"]; [LStr "roc_auc"]]
    [([LInt 0], [Scalar 1%R; Scalar 1%R])].

(** A stand-in for the scoring of an outcome model. *)
Definition sample_outcome_metrics (p : OutcomeEvaluatorPredictions)
    (a : Series Z) (y : Series R) (m : option (dict metric_func))
    : M DataFrame :=
  ret (sample_table 0).

Definition sample_outcome_prediction (binary : bool) : prediction :=
  OutcomePrediction (mkOutcomeEvaluatorPredictions [] binary).

(** The predictions of an outcome model on two folds. *)
Definition sample_predictions : dict (list prediction) :=
  [ ("train", [sample_outcome_prediction false;
               sample_outcome_prediction false]);
    ("valid", [sample_outcome_prediction false;
               sample_outcome_prediction false]) ].

Definition sample_outcome_model : estimator :=
  mkEstimator "<class 'causallib.estimation.Standardization'>" false false true.

Definition sample_unknown_model : estimator :=
  mkEstimator "<class 'int'>" false false false.

(** A metric that fails otherwise than by validation, and one whose
    value is an array. *)
Definition sample_broken_metric : metric_func :=
  fun _ _ _ => Raise (TypeError "unsupported operand type(s)").

Definition sample_matrix_metric : metric_func :=
  fun _ _ _ => Ok (Array [1; 0; 0; 1]%R).

(** A distance that is never defined. *)
Definition sample_distance : distance_func := fun _ _ _ _ => Ok NaN.

(** Stand-ins for the two distances of [utils/stat_utils.py]: a signed
    one, the difference of the weighted totals of the two samples, and an
    unsigned one. *)
Definition weighted_total (x w : Series R) : R :=
  fold_right Rplus 0%R
    (map (fun p => (fst p * snd p)%R) (combine (s_values x) (s_values w))).

Definition sample_smd : distance_func :=
  fun x y wx wy => Ok (Scalar (weighted_total x wx - weighted_total y wy)).

Definition sample_ks : distance_func := fun _ _ _ _ => Ok (Scalar 0).

(** An assignment without samples, and one with three levels. *)
Definition sample_no_a : Series Z := mkSeries (Some (LStr "a")) [] [].

Definition sample_a3 : Series Z :=
  mkSeries (Some (LStr "a")) sample_index [2; 1; 0; 0]%Z.

(** ** The evaluation module *)

Section Evaluation.

(** [sklearn.metrics], by function name. The library is outside the
    repository; each function is an arbitrary metric callable. *)
Variable sk : string -> metric_func.

(** *** Metric registries *)

Definition NUMERICAL_CLASSIFICATION_METRICS : dict metric_func :=
  [ ("accuracy", sk "accuracy_score");
    ("precision", sk "precision_score");
    ("recall", sk "recall_score");
    ("f1", sk "f1_score");
    ("roc_auc", sk "roc_auc_score");
    ("avg_precision", sk "average_precision_score");
    ("hinge", sk "hinge_loss");
    ("matthews", sk "matthews_corrcoef");
    ("0_1", sk "zero_one_loss");
    ("brier", sk "brier_score_loss") ].

Definition NONNUMERICAL_CLASSIFICATION_METRICS : dict metric_func :=
  [ ("confusion_matrix", sk "confusion_matrix");
    ("roc_curve", sk "roc_curve");
    ("pr_curve", sk "precision_recall_curve") ].

(** [{**d1, **d2}] *)
Definition dict_merge {V} (d1 d2 : dict V) : dict V :=
  fold_left (fun d kv => dict_set d (fst kv) (snd kv)) d2 d1.

Definition CLASSIFICATION_METRICS : dict metric_func :=
  dict_merge NUMERICAL_CLASSIFICATION_METRICS NONNUMERICAL_CLASSIFICATION_METRICS.

Definition REGRESSION_METRICS : dict metric_func :=
  [ ("expvar", sk "explained_variance_score");
    ("mae", sk "mean_absolute_error");
    ("mse", sk "mean_squared_error");
    ("msle", sk "mean_squared_log_error");
    ("mdae", fun y_true y_pred _ => sk "median_absolute_error" y_true y_pred None);
    ("r2", sk "r2_score") ].

(** *** score_binary_prediction *)

(** The metrics that are evaluated on the continuous score. *)
Definition continuous_score_metrics : list string :=
  [ "hinge"; "brier"; "roc_curve"; "roc_auc"; "pr_curve"; "avg_precision" ].

(** The body of the loop over [metrics_to_evaluate.items()], with the
    [scores] dictionary built so far. *)
Fixpoint score_binary_loop (y_true : array) (y_pred_proba y_pred : option array)
    (sample_weight : option array) (items : dict metric_func)
    (scores : dict cell) : M (dict cell) :=
  match items with
  | [] => ret scores
  | (metric_name, metric_func) :: items' =>
      let prediction :=
        if str_in metric_name continuous_score_metrics
        then y_pred_proba else y_pred in
      match prediction with
      | None =>
          score_binary_loop y_true y_pred_proba y_pred sample_weight items' scores
      | Some prediction =>
          match metric_func y_true prediction sample_weight with
          | Ok v =>
              score_binary_loop y_true y_pred_proba y_pred sample_weight items'
                (dict_set scores metric_name v)
          | Raise (ValueError v) =>
              warn ("metric " ++ metric_name ++ " could not be evaluated")%string ;;;
              warn v ;;;
              score_binary_loop y_true y_pred_proba y_pred sample_weight items'
                (dict_set scores metric_name NaN)
          | Raise e => raise e
          end
      end
  end.

Definition score_binary_prediction (y_true : array)
    (y_pred_proba y_pred : option array) (sample_weight : option array)
    (metrics_to_evaluate : option (dict metric_func))
    (only_numeric_metric : bool) : M ScoreSeries :=
  let metrics_to_evaluate :=
    match metrics_to_evaluate with
    | None =>
        if only_numeric_metric
        then NUMERICAL_CLASSIFICATION_METRICS
        else CLASSIFICATION_METRICS
    | Some m => m
    end in
  scores <- score_binary_loop y_true y_pred_proba y_pred sample_weight
              metrics_to_evaluate [] ;;
  let dtype := if forallb isscalar (map snd scores) then DFloat else DObject in
  ret (mkScoreSeries dtype scores).

(** *** score_regression_prediction *)

Fixpoint score_regression_loop (y_true y_pred : array)
    (sample_weight : option array) (items : dict metric_func)
    (metrics : dict cell) : M (dict cell) :=
  match items with
  | [] => ret metrics
  | (metric_name, metric_func) :: items' =>
      match metric_func y_true y_pred sample_weight with
      | Ok v =>
          score_regression_loop y_true y_pred sample_weight items'
            (dict_set metrics metric_name v)
      | Raise (ValueError v) =>
          warn ("While evaluating " ++ metric_name ++ ": " ++ v)%string ;;;
          score_regression_loop y_true y_pred sample_weight items'
            (dict_set metrics metric_name NaN)
      | Raise e => raise e
      end
  end.

(** [metrics_to_evaluate or REGRESSION_METRICS]: [None] and the empty
    dictionary are both falsy. *)
Definition score_regression_prediction (y_true y_pred : array)
    (sample_weight : option array)
    (metrics_to_evaluate : option (dict metric_func)) : M (dict cell) :=
  let metrics_to_evaluate :=
    match metrics_to_evaluate with
    | None | Some [] => REGRESSION_METRICS
    | Some m => m
    end in
  score_regression_loop y_true y_pred sample_weight metrics_to_evaluate [].

(** *** _combine_fold_scores *)

(** The dictionary comprehension: the folds of each phase stacked under
    their positions. *)
Fixpoint concat_folds (scores : dict (list scores_obj))
    : result (list (label * scores_obj)) :=
  match scores with
  | [] => Ok []
  | (phase, scores_fold) :: scores' =>
      t <~ pd_concat_index (enumerate_from 0 scores_fold) (LStr "fold") ;;
      rest <~ concat_folds scores' ;;
      Ok ((LStr phase, ScoreTable t) :: rest)
  end.

Definition _combine_fold_scores (scores : dict (list scores_obj))
    : result DataFrame :=
  scores <~ concat_folds scores ;;
  pd_concat_index scores (LStr "phase").

(** *** _combine_weight_evaluator_fold_scores *)

(** [fold_score.prediction_scores] / [fold_score.covariate_balance]: the
    field of the named tuple. A DataFrame looks an attribute up among its
    columns; the columns of a score table are names of metrics, taken
    here to be other than the two field names, so that it has no such
    attribute. *)
Definition get_prediction_scores (o : scores_obj) : result scores_obj :=
  match o with
  | WeightEvaluatorScores ps _ => Ok (ScoreTable ps)
  | ScoreTable _ => Raise (AttributeError "prediction_scores")
  end.

Definition get_covariate_balance (o : scores_obj) : result scores_obj :=
  match o with
  | WeightEvaluatorScores _ cb => Ok (ScoreTable cb)
  | ScoreTable _ => Raise (AttributeError "covariate_balance")
  end.

Fixpoint list_mapM {A B} (f : A -> result B) (l : list A) : result (list B) :=
  match l with
  | [] => Ok []
  | x :: l' => y <~ f x ;; ys <~ list_mapM f l' ;; Ok (y :: ys)
  end.

(** [{phase: [f(fold_score) for fold_score in phase_scores] ...}] *)
Definition unfold_component (f : scores_obj -> result scores_obj)
    (scores : dict (list scores_obj)) : result (dict (list scores_obj)) :=
  list_mapM (fun kv => l <~ list_mapM f (snd kv) ;; Ok (fst kv, l)) scores.

Definition _combine_weight_evaluator_fold_scores
    (scores : dict (list scores_obj)) : result scores_obj :=
  prediction_scores_unfolded <~ unfold_component get_prediction_scores scores ;;
  prediction_scores <~ _combine_fold_scores prediction_scores_unfolded ;;
  covariate_balance_unfolded <~ unfold_component get_covariate_balance scores ;;
  covariate_balance <~ _combine_fold_scores covariate_balance_unfolded ;;
  Ok (WeightEvaluatorScores prediction_scores covariate_balance).

(** *** Covariate balance *)

(** [utils/stat_utils.py] is outside the sources: the two distances it
    defines are arbitrary functions of two weighted samples, and may
    raise. *)
Variable calc_weighted_standardized_mean_differences : distance_func.
Variable calc_weighted_ks2samp : distance_func.

Definition DISTRIBUTION_DISTANCE_METRICS : dict distance_func :=
  [ ("smd", fun x y wx wy =>
              calc_weighted_standardized_mean_differences x y wx wy);
    ("abs_smd", fun x y wx wy =>
              d <~ calc_weighted_standardized_mean_differences x y wx wy ;;
              Ok (cell_abs d));
    ("ks", fun x y wx wy => calc_weighted_ks2samp x y wx wy) ].

Definition calculate_distribution_distance_for_single_feature
    (x w : Series R) (a : Series Z) (group_level : Z) (metric : metric_arg)
    : result cell :=
  metric <~ match metric with
            | MetricCallable _ f => Ok f
            | MetricName name => dict_item DISTRIBUTION_DISTANCE_METRICS name
            end ;;
  let cur_treated_mask := series_eq a group_level in
  x_treated <~ loc_mask x cur_treated_mask ;;
  w_treated <~ loc_mask w cur_treated_mask ;;
  x_untreated <~ loc_mask x (series_not cur_treated_mask) ;;
  w_untreated <~ loc_mask w (series_not cur_treated_mask) ;;
  metric x_treated x_untreated w_treated w_untreated.

(** [df.loc[col_name, ["weighted", "unweighted"]] = cells]: every row
    labelled [col_name] is set. *)
Definition assign_row (rs : list (key * list cell)) (col_name : label)
    (cells : list cell) : list (key * list cell) :=
  map (fun r => if key_eqb (fst r) [col_name] then (fst r, cells) else r) rs.

(** The loop over [X.items()] for one treatment value. *)
Fixpoint balance_loop (index : list label) (cols : list (label * list R))
    (w : Series R) (a : Series Z) (treatment_value : Z) (metric : metric_arg)
    (table : list (key * list cell)) : result (list (key * list cell)) :=
  match cols with
  | [] => Ok table
  | (col_name, values) :: cols' =>
      let col_data := mkSeries (Some col_name) index values in
      weighted_distance <~
        calculate_distribution_distance_for_single_feature
          col_data w a treatment_value metric ;;
      unweighted_distance <~
        calculate_distribution_distance_for_single_feature
          col_data (mkSeries None (s_index w) (map (fun _ => 1%R) (s_index w)))
          a treatment_value metric ;;
      balance_loop index cols' w a treatment_value metric
        (assign_row table col_name [weighted_distance; unweighted_distance])
  end.

Definition balance_columns : list key := [[LStr "weighted"]; [LStr "unweighted"]].

(** The table of one treatment value: one row per column of [X]. *)
Definition distribution_distance_of_treatment (X : Covariates) (a : Series Z)
    (w : Series R) (metric : metric_arg) (treatment_value : Z)
    : result DataFrame :=
  table <~ balance_loop (x_index X) (x_columns X) w a treatment_value metric
             (map (fun c => ([fst c], [NaN; NaN])) (x_columns X)) ;;
  Ok (mkDataFrame [None] [None] balance_columns table).

Fixpoint balance_tables (X : Covariates) (a : Series Z) (w : Series R)
    (metric : metric_arg) (treatment_values : list Z)
    : result (list (label * DataFrame)) :=
  match treatment_values with
  | [] => Ok []
  | treatment_value :: rest =>
      t <~ distribution_distance_of_treatment X a w metric treatment_value ;;
      ts <~ balance_tables X a w metric rest ;;
      Ok ((LInt treatment_value, t) :: ts)
  end.

(** [a.name or "a"] *)
Definition name_or_a (a : Series Z) : label :=
  match s_name a with
  | Some (LStr "") | Some (LInt 0) | None => LStr "a"
  | Some l => l
  end.

Definition metric_label (metric : metric_arg) : label :=
  match metric with
  | MetricName name => LStr name
  | MetricCallable repr _ => LObj repr
  end.

(** [treatment_values.max()] *)
Definition values_max (l : list Z) : Z :=
  match l with
  | [] => 0%Z
  | z :: l' => fold_left Z.max l' z
  end.

Definition calculate_covariate_balance (X : Covariates) (a : Series Z)
    (w : Series R) (metric : metric_arg) : result DataFrame :=
  let treatment_values := sort_unique (s_values a) in
  results <~ balance_tables X a w metric treatment_values ;;
  results <~ pd_concat_columns (map (fun c => [fst c]) (x_columns X)) results
               [Some (name_or_a a); Some (metric_label metric)] ;;
  let results :=
    mkDataFrame [Some (LStr "covariate")] (column_names results)
                (columns results) (rows results) in
  if Nat.eqb (List.length treatment_values) 2
  then Ok (xs_columns results (LInt (values_max treatment_values)))
  else Ok results.

(** *** Importing the modules *)

(** [from module import name, ...], given the names the module binds: the
    first name it does not bind raises [ImportError]. *)
Fixpoint import_from (module_names names : list string) : result unit :=
  match names with
  | [] => Ok tt
  | name :: names' =>
      if str_in name module_names then import_from module_names names'
      else Raise (ImportError name)
  end.

(** The base classes [module.name, ...] of a class statement, evaluated in
    order: the first name the module does not bind raises
    [AttributeError]. *)
Fixpoint module_attributes (module_names names : list string) : result unit :=
  match names with
  | [] => Ok tt
  | name :: names' =>
      if str_in name module_names then module_attributes module_names names'
      else Raise (AttributeError name)
  end.

(** The names [metrics.py] binds at module level: what it imports, its
    constants and its functions. *)
Definition metrics_module : list string :=
  [ "np"; "pd"; "metrics"; "namedtuple";
    "calc_weighted_standardized_mean_differences"; "calc_weighted_ks2samp";
    "warnings"; "WeightEvaluatorScores";
    "_combine_weight_evaluator_fold_scores";
    "NUMERICAL_CLASSIFICATION_METRICS"; "NONNUMERICAL_CLASSIFICATION_METRICS";
    "CLASSIFICATION_METRICS"; "REGRESSION_METRICS";
    "score_cv"; "score_binary_prediction"; "score_regression_prediction";
    "_combine_fold_scores"; "score_estimation";
    "DISTRIBUTION_DISTANCE_METRICS"; "calculate_covariate_balance";
    "calculate_distribution_distance_for_single_feature" ].

(** The names [plots/mixins.py] binds at module level. *)
Definition mixins_module : list string :=
  [ "plots"; "WeightPlotterMixin"; "ClassificationPlotterMixin";
    "ContinuousOutcomePlotterMixin" ].

(** Importing [weight_evaluator.py]. Its imports of libraries and of
    modules outside the sources are taken to succeed; the last one is
    [from .metrics import Scorer, calculate_covariate_balance,
    WeightEvaluatorScores]. *)
Definition weight_evaluator_imports (metrics_names : list string)
    : result unit :=
  import_from metrics_names
    ["Scorer"; "calculate_covariate_balance"; "WeightEvaluatorScores"].

Definition import_weight_evaluator : result unit :=
  weight_evaluator_imports metrics_module.

(** Importing [results.py]. Its imports are of libraries and of modules
    outside the sources, and are taken to succeed; then the four class
    statements of the result variants evaluate their mixin bases. *)
Definition results_class_statements (mixins_names : list string)
    : result unit :=
  _ <~ module_attributes mixins_names
         ["WeightPlotterMixin"; "PlotAllMixin"] ;;
  _ <~ module_attributes mixins_names
         ["ClassificationPlotterMixin"; "PlotAllMixin"] ;;
  _ <~ module_attributes mixins_names
         ["ContinuousOutcomePlotterMixin"; "PlotAllMixin"] ;;
  module_attributes mixins_names
    ["ClassificationPlotterMixin"; "WeightPlotterMixin"; "PlotAllMixin"].

Definition import_results : result unit :=
  results_class_statements mixins_module.

(** *** WeightEvaluatorPredictions.calculate_metrics *)

(** [pd.DataFrame(series).T]: the scores as the single row, labelled 0, of
    a table with one column per metric. The conversion of the columns with
    [pd.to_numeric(errors="ignore")] that follows changes no value. *)
Definition series_to_row (s : ScoreSeries) : DataFrame :=
  mkDataFrame [None] [None]
    (map (fun kv => [LStr (fst kv)]) (ss_items s))
    [([LInt 0], map snd (ss_items s))].

(** A method of a class of [weight_evaluator.py]: it can be called once
    the module is imported, which depends on the names [metrics.py] binds.
    What follows the import is reached only if they include [Scorer]; its
    [score_binary_prediction] is then read as the scorer of [metrics.py]. *)
Definition calculate_metrics_given (metrics_names : list string)
    (self : WeightEvaluatorPredictions)
    (X : Covariates) (a_true : Series Z)
    (metrics_to_evaluate : option (dict metric_func)) : M scores_obj :=
  _ <- lift (weight_evaluator_imports metrics_names) ;;
  prediction_scores <-
    score_binary_prediction (IntSeries a_true)
      (option_map FloatSeries (weight_for_being_treated self))
      (option_map IntSeries (treatment_assignment_pred self))
      None metrics_to_evaluate true ;;
  let prediction_scores := series_to_row prediction_scores in
  covariate_balance <-
    lift (calculate_covariate_balance X a_true
            (weight_by_treatment_assignment self) (MetricName "abs_smd")) ;;
  let results := WeightEvaluatorScores prediction_scores covariate_balance in
  ret results.

Definition calculate_metrics :
    WeightEvaluatorPredictions -> Covariates -> Series Z ->
    option (dict metric_func) -> M scores_obj :=
  calculate_metrics_given metrics_module.

(** *** score_estimation *)

(** [outcome_evaluator.py] is outside the sources: its import is taken to
    succeed, and the scoring of an outcome prediction is an arbitrary
    computation of a score table. For any other prediction the function
    goes on to [from .weight_evaluator import ...], which runs that module,
    before it tests the type. *)
Variable outcome_calculate_metrics :
  OutcomeEvaluatorPredictions -> Series Z -> Series R ->
  option (dict metric_func) -> M DataFrame.

Definition score_estimation_given (metrics_names : list string)
    (prediction : prediction) (X : Covariates)
    (a_true : Series Z) (y_true : Series R)
    (metrics_to_evaluate : option (dict metric_func)) : M scores_obj :=
  match prediction with
  | OutcomePrediction p =>
      t <- outcome_calculate_metrics p a_true y_true metrics_to_evaluate ;;
      ret (ScoreTable t)
  | PropensityPrediction p =>
      _ <- lift (weight_evaluator_imports metrics_names) ;;
      calculate_metrics_given metrics_names p X a_true metrics_to_evaluate
  | WeightPrediction p =>
      _ <- lift (weight_evaluator_imports metrics_names) ;;
      calculate_metrics_given metrics_names p X a_true metrics_to_evaluate
  | OtherPrediction type_repr =>
      _ <- lift (weight_evaluator_imports metrics_names) ;;
      raise (ValueError ("Invalid type for prediciton: " ++ type_repr)%string)
  end.

Definition score_estimation :
    prediction -> Covariates -> Series Z -> Series R ->
    option (dict metric_func) -> M scores_obj :=
  score_estimation_given metrics_module.

(** *** score_cv *)

(** The slices of one fold, by phase. *)
Record fold_data : Type := mkFoldData {
  train_data : Covariates * Series Z * Series R;
  valid_data : Covariates * Series Z * Series R
}.

(** [data[phase]] *)
Definition data_item (data : fold_data) (phase : string)
    : result (Covariates * Series Z * Series R) :=
  if String.eqb phase "train" then Ok (train_data data)
  else if String.eqb phase "valid" then Ok (valid_data data)
  else Raise (KeyError phase).

Definition slice_fold (X : Covariates) (a : Series Z) (y : Series R)
    (train_idx valid_idx : list Z) : result fold_data :=
  Xt <~ frame_iloc X train_idx ;;
  at_ <~ series_iloc a train_idx ;;
  yt <~ series_iloc y train_idx ;;
  Xv <~ frame_iloc X valid_idx ;;
  av <~ series_iloc a valid_idx ;;
  yv <~ series_iloc y valid_idx ;;
  Ok (mkFoldData (Xt, at_, yt) (Xv, av, yv)).

(** [scores[phase].append(fold_scores)] *)
Definition dict_append {V} (d : dict (list V)) (k : string) (v : V)
    : result (dict (list V)) :=
  l <~ dict_item d k ;;
  Ok (dict_set d k (l ++ [v])).

(** The local variables the loops of [score_cv] update: the collected
    scores, and [fold_scores], which is unbound until a fold is scored. *)
Definition cv_state : Type := (dict (list scores_obj) * option scores_obj)%type.

Fixpoint score_cv_phases (predictions : dict (list prediction))
    (metrics_to_evaluate : option (dict metric_func)) (data : fold_data)
    (i : nat) (phases : list string) (st : cv_state) : M cv_state :=
  match phases with
  | [] => ret st
  | phase :: phases' =>
      fold <- lift (data_item data phase) ;;
      let '(X_fold, a_fold, y_fold) := fold in
      phase_predictions <- lift (dict_item predictions phase) ;;
      prediction <- lift (list_item phase_predictions i) ;;
      fold_scores <-
        score_estimation prediction X_fold a_fold y_fold metrics_to_evaluate ;;
      scores <- lift (dict_append (fst st) phase fold_scores) ;;
      score_cv_phases predictions metrics_to_evaluate data i phases'
        (scores, Some fold_scores)
  end.

Fixpoint score_cv_folds (predictions : dict (list prediction))
    (X : Covariates) (a : Series Z) (y : Series R)
    (metrics_to_evaluate : option (dict metric_func)) (phases : list string)
    (i : nat) (cv : cv_folds) (st : cv_state) : M cv_state :=
  match cv with
  | [] => ret st
  | (train_idx, valid_idx) :: cv' =>
      data <- lift (slice_fold X a y train_idx valid_idx) ;;
      st' <- score_cv_phases predictions metrics_to_evaluate data i phases st ;;
      score_cv_folds predictions X a y metrics_to_evaluate phases (S i) cv' st'
  end.

Definition score_cv (predictions : dict (list prediction)) (X : Covariates)
    (a : Series Z) (y : Series R) (cv : cv_folds)
    (metrics_to_evaluate : option (dict metric_func)) : M scores_obj :=
  let phases := keys predictions in
  let scores := map (fun phase => (phase, @nil scores_obj)) phases in
  st <- score_cv_folds predictions X a y metrics_to_evaluate phases 0 cv
          (scores, None) ;;
  let '(scores, fold_scores) := st in
  match fold_scores with
  | None => raise (UnboundLocalError "fold_scores")
  | Some (WeightEvaluatorScores _ _) =>
      lift (_combine_weight_evaluator_fold_scores scores)
  | Some (ScoreTable _) =>
      t <- lift (_combine_fold_scores scores) ;;
      ret (ScoreTable t)
  end.

(** *** EvaluationResults.make *)

(** [any(y.is_binary_outcome for y in x)]: stops at the first flagged
    fold; a prediction without the attribute raises when it is reached. *)
Fixpoint any_binary_outcome (x : list prediction) : result bool :=
  match x with
  | [] => Ok false
  | OutcomePrediction p :: x' =>
      if is_binary_outcome p then Ok true else any_binary_outcome x'
  | _ :: _ => Raise (AttributeError "is_binary_outcome")
  end.

(** [any(x and any(...) for x in predictions.values())] *)
Fixpoint any_phase_binary (values : list (list prediction)) : result bool :=
  match values with
  | [] => Ok false
  | x :: values' =>
      b <~ any_binary_outcome x ;;
      if b then Ok true else any_phase_binary values'
  end.

(** The first fitted model: [models["train"][0]] of a dictionary,
    [models[0]] of a list, otherwise [models] itself. *)
Definition first_fitted_model (models : models_arg) : result estimator :=
  match models with
  | ModelsDict d => l <~ dict_item d "train" ;; list_item l 0
  | ModelsList l => list_item l 0
  | ModelsSingle e => Ok e
  end.

(** A static method of a class of [results.py]: it can be called once
    the module is imported, which depends on the names [plots/mixins.py]
    binds. *)
Definition make_given (mixins_names : list string)
    (evaluated_metrics : scores_obj) (models : models_arg)
    (predictions : dict (list prediction)) (cv : cv_folds) (X : Covariates)
    (a : Series Z) (y : Series R) : result EvaluationResults :=
  _ <~ results_class_statements mixins_names ;;
  fitted_model <~ first_fitted_model models ;;
  let build v := mkEvaluationResults v evaluated_metrics models predictions cv X a y in
  if is_PropensityEstimator fitted_model then Ok (build PropensityEvaluationResults)
  else if is_WeightEstimator fitted_model then Ok (build WeightEvaluationResults)
  else if is_IndividualOutcomeEstimator fitted_model then
    b <~ any_phase_binary (map snd predictions) ;;
    if b then Ok (build BinaryOutcomeEvaluationResults)
    else Ok (build ContinuousOutcomeEvaluationResults)
  else
    Raise (ValueError
      ("Unable to find suitable results object for esimator of type "
         ++ estimator_type_repr fitted_model)%string).

Definition make :
    scores_obj -> models_arg -> dict (list prediction) -> cv_folds ->
    Covariates -> Series Z -> Series R -> result EvaluationResults :=
  make_given mixins_module.

(** ** plots/helpers.py *)

(** *** calculate_performance_curve_data_on_folds *)

(** [curve_metric(target, prediction, pos_label=..., sample_weight=...)]:
    the two coordinates of the curve and its thresholds. *)
Definition curve_func : Type :=
  array -> array -> option label -> option array ->
  result (list R * list R * list R).

(** An area metric as the function object it is: calling it, and its
    [__name__], which not every callable has. *)
Record area_func : Type := mkAreaFunc {
  area___name__ : option string;
  area_call : metric_func
}.

(** [zip(l1, l2, l3)]: as long as the shortest list. *)
Fixpoint zip3 {A B C} (l1 : list A) (l2 : list B) (l3 : list C)
    : list (A * B * C) :=
  match l1, l2, l3 with
  | x1 :: l1', x2 :: l2', x3 :: l3' => (x1, x2, x3) :: zip3 l1' l2' l3'
  | _, _, _ => []
  end.

(** The four lists the function returns, in the order of the [return]:
    areas, first and second coordinates, thresholds. *)
Definition curve_folds : Type :=
  (list cell * list (list R) * list (list R) * list (list R))%type.

(** [area_metric.__name__] *)
Definition get___name__ (area_metric : area_func) : result string :=
  match area___name__ area_metric with
  | Some name => Ok name
  | None => Raise (AttributeError "__name__")
  end.

(** The [try] around the area metric of one fold. *)
Definition area_of_fold (area_metric : area_func)
    (fold_target fold_prediction : array) (fold_weights : option array)
    : M cell :=
  match area_call area_metric fold_target fold_prediction fold_weights with
  | Ok area_fold => ret area_fold
  | Raise (ValueError v) =>
      name <- lift (get___name__ area_metric) ;;
      warn ("metric " ++ name ++ " could not be evaluated")%string ;;;
      warn v ;;;
      ret NaN
  | Raise e => raise e
  end.

(** The loop over the zipped folds, with the four lists built so far. *)
Fixpoint curve_folds_loop (area_metric : area_func) (curve_metric : curve_func)
    (pos_label : option label)
    (folds : list (array * array * option array)) (acc : curve_folds)
    : M curve_folds :=
  match folds with
  | [] => ret acc
  | (fold_prediction, fold_target, fold_weights) :: folds' =>
      curve <-
        lift (curve_metric fold_target fold_prediction pos_label fold_weights) ;;
      let '(first_ret_fold, second_ret_fold, threshold_fold) := curve in
      area_fold <-
        area_of_fold area_metric fold_target fold_prediction fold_weights ;;
      let '(area_folds, first_ret_folds, second_ret_folds, threshold_folds) :=
        acc in
      curve_folds_loop area_metric curve_metric pos_label folds'
        (area_folds ++ [area_fold], first_ret_folds ++ [first_ret_fold],
         second_ret_folds ++ [second_ret_fold],
         threshold_folds ++ [threshold_fold])
  end.

(** [[None] * len(folds_predictions) if sample_weights is None else
    sample_weights] *)
Definition weights_of_folds (folds_predictions : list array)
    (sample_weights : option (list array)) : list (option array) :=
  match sample_weights with
  | None => repeat None (List.length folds_predictions)
  | Some ws => map Some ws
  end.

(** The metrics are arguments; scikit-learn's [roc_auc_score] and
    [roc_curve] are their defaults. *)
Definition calculate_performance_curve_data_on_folds
    (folds_predictions folds_targets : list array)
    (sample_weights : option (list array))
    (area_metric : area_func) (curve_metric : curve_func)
    (pos_label : option label) : M curve_folds :=
  let sample_weights := weights_of_folds folds_predictions sample_weights in
  curve_folds_loop area_metric curve_metric pos_label
    (zip3 folds_predictions folds_targets sample_weights) ([], [], [], []).

(** *** calculate_roc_curve, calculate_pr_curve *)

(** What [curve_data] holds under a name: the dictionary of a curve, or
    the number [calculate_pr_curve] stores under "prevalence". *)
Inductive curve_entry (V : Type) : Type :=
| CurveDict (d : dict V)
| Number (r : R).
Arguments CurveDict {V} d.
Arguments Number {V} r.

(** Statements that change [curve_data] in place: the dictionary
    afterwards, and the error that stopped them, if any. *)
Definition in_place (S : Type) : Type := S -> S * option exn.

Definition and_then {S} (f g : in_place S) : in_place S :=
  fun s =>
    match f s with
    | (s', None) => g s'
    | (s', Some e) => (s', Some e)
    end.

Fixpoint for_each {S} (names : list string) (body : string -> in_place S)
    : in_place S :=
  match names with
  | [] => fun s => (s, None)
  | name :: names' => and_then (body name) (for_each names' body)
  end.

(** [d] without the key [k], as [d.pop(k)] leaves it. *)
Definition dict_remove {V} (d : dict V) (k : string) : dict V :=
  filter (fun kv => negb (String.eqb (fst kv) k)) d.

(** [curve_data[curve_name][new] = curve_data[curve_name].pop(old)]: the
    right-hand side is evaluated, and the key popped, before the
    assignment. The dictionaries of different curves are different
    objects. *)
Definition move_key {V} (curve_name new old : string)
    : in_place (dict (curve_entry V)) :=
  fun curve_data =>
    match dict_get curve_data curve_name with
    | Some (CurveDict d) =>
        match dict_get d old with
        | Some v =>
            (dict_set curve_data curve_name
               (CurveDict (dict_set (dict_remove d old) new v)), None)
        | None => (curve_data, Some (KeyError old))
        end
    | Some (Number _) => (curve_data, Some (AttributeError "pop"))
    | None => (curve_data, Some (KeyError curve_name))
    end.

(** The three assignments of a loop body. *)
Definition move_curve_keys {V} (first second area : string)
    (curve_name : string) : in_place (dict (curve_entry V)) :=
  and_then (move_key curve_name first "first_ret_value")
    (and_then (move_key curve_name second "second_ret_value")
              (move_key curve_name area "area")).

(** The function returns [curve_data] itself: the dictionary afterwards is
    its value when no error is raised. *)
Definition calculate_roc_curve {V} : in_place (dict (curve_entry V)) :=
  fun curve_data =>
    for_each (keys curve_data) (move_curve_keys "FPR" "TPR" "AUC") curve_data.

(** [targets.value_counts(normalize=True).loc[targets.max()]]: the share
    of the largest label; without targets the largest label is NaN, which
    is no key of the empty counts. *)
Definition prevalence_of (targets : Series Z) : result R :=
  match s_values targets with
  | [] => Raise (KeyError "nan")
  | vs =>
      Ok (INR (count_occ Z.eq_dec vs (values_max vs)) / INR (List.length vs))%R
  end.

Definition calculate_pr_curve {V} (targets : Series Z)
    : in_place (dict (curve_entry V)) :=
  fun curve_data =>
    and_then
      (for_each (keys curve_data) (move_curve_keys "Precision" "Recall" "AP"))
      (fun curve_data =>
         match prevalence_of targets with
         | Ok p => (dict_set curve_data "prevalence" (Number p), None)
         | Raise e => (curve_data, Some e)
         end)
      curve_data.

(** *** Sample curves *)

(** A curve metric that needs integer targets, and an area metric that
    fails validation. *)
Definition sample_curve : curve_func :=
  fun target _ _ _ =>
    match target with
    | IntSeries _ => Ok ([0; 1], [0; 1], [1; 0])%R
    | FloatSeries _ => Raise (ValueError "continuous format is not supported")
    end.

Definition sample_area : area_func :=
  mkAreaFunc (Some "roc_auc_score")
    (fun _ _ _ => Raise (ValueError "Only one class present in y_true.")).

(** The data of one curve on one fold. *)
Definition sample_curve_data : dict (curve_entry (list R)) :=
  [ ("unweighted",
     CurveDict [ ("first_ret_value", [0; 1]%R);
                 ("second_ret_value", [0; 1]%R);
                 ("Thresholds", [1; 0]%R);
                 ("area", [1]%R) ]) ].

(** *** Vocabulary of the statements *)

(** The metrics a call evaluates: the given ones, or the defaults. *)
Definition binary_metrics (metrics_to_evaluate : option (dict metric_func))
    (only_numeric_metric : bool) : dict metric_func :=
  match metrics_to_evaluate with
  | None =>
      if only_numeric_metric
      then NUMERICAL_CLASSIFICATION_METRICS
      else CLASSIFICATION_METRICS
  | Some m => m
  end.

Definition regression_metrics (metrics_to_evaluate : option (dict metric_func))
    : dict metric_func :=
  match metrics_to_evaluate with
  | None | Some [] => REGRESSION_METRICS
  | Some m => m
  end.

(** The input a metric of that name requires. *)
Definition required_input (metric_name : string)
    (y_pred_proba y_pred : option array) : option array :=
  if str_in metric_name continuous_score_metrics then y_pred_proba else y_pred.

(** What is recorded for a metric call: its value, or NaN when it failed. *)
Definition recorded (r : result cell) : cell :=
  match r with
  | Ok v => v
  | Raise _ => NaN
  end.

(** A failed validation is a [ValueError]. *)
Definition fails_validation_only (r : result cell) : Prop :=
  forall e, r = Raise e -> exists msg, e = ValueError msg.

(** The entries the loop of [score_binary_prediction] records, in order. *)
Definition binary_entries (y_true : array) (y_pred_proba y_pred : option array)
    (sample_weight : option array) (items : dict metric_func) : dict cell :=
  flat_map
    (fun kv =>
       match required_input (fst kv) y_pred_proba y_pred with
       | None => []
       | Some prediction =>
           [(fst kv, recorded (snd kv y_true prediction sample_weight))]
       end) items.

(** The warnings that loop emits, in order. *)
Definition binary_warnings (y_true : array) (y_pred_proba y_pred : option array)
    (sample_weight : option array) (items : dict metric_func) : list string :=
  flat_map
    (fun kv =>
       match required_input (fst kv) y_pred_proba y_pred with
       | None => []
       | Some prediction =>
           match snd kv y_true prediction sample_weight with
           | Raise (ValueError v) =>
               [("metric " ++ fst kv ++ " could not be evaluated")%string; v]
           | _ => []
           end
       end) items.

Definition regression_entries (y_true y_pred : array)
    (sample_weight : option array) (items : dict metric_func) : dict cell :=
  map (fun kv => (fst kv, recorded (snd kv y_true y_pred sample_weight))) items.

Definition regression_warnings (y_true y_pred : array)
    (sample_weight : option array) (items : dict metric_func) : list string :=
  flat_map
    (fun kv =>
       match snd kv y_true y_pred sample_weight with
       | Raise (ValueError v) =>
           [("While evaluating " ++ fst kv ++ ": " ++ v)%string]
       | _ => []
       end) items.

Definition input_supplied (y_pred_proba y_pred : option array)
    (metric_name : string) : bool :=
  match required_input metric_name y_pred_proba y_pred with
  | Some _ => true
  | None => false
  end.

(** Whether a fold's predictions are those of an outcome model. *)
Definition is_outcome_prediction (p : prediction) : bool :=
  match p with
  | OutcomePrediction _ => true
  | _ => false
  end.

(** Whether a fold's predictions are those of an outcome model flagged
    binary. *)
Definition flagged_binary (p : prediction) : bool :=
  match p with
  | OutcomePrediction q => is_binary_outcome q
  | _ => false
  end.

(** A container of models whose first fitted model is [m]: a dictionary
    with [m] first under "train", a list with [m] first, or [m] itself. *)
Definition holds_first (models : models_arg) (m : estimator) : Prop :=
  (exists d rest,
     models = ModelsDict d /\ dict_get d "train" = Some (m :: rest)) \/
  (exists rest, models = ModelsList (m :: rest)) \/
  models = ModelsSingle m.

(** The same distance with the two samples exchanged. *)
Definition swap_samples (f : distance_func) : distance_func :=
  fun x y wx wy => f y x wy wx.

(** The opposite of a metric value. *)
Definition cell_opp (c : cell) : cell :=
  match c with
  | Scalar r => Scalar (- r)
  | NaN => NaN
  | Array rs => Array (map Ropp rs)
  end.

Definition result_map {A B} (f : A -> B) (r : result A) : result B :=
  match r with
  | Ok a => Ok (f a)
  | Raise e => Raise e
  end.

(** [pd.Series(1, index=w.index)]: the weights of the unweighted
    comparison. *)
Definition unit_weights (w : Series R) : Series R :=
  mkSeries None (s_index w) (map (fun _ => 1%R) (s_index w)).

(** A column of [X] as [X.items()] yields it. *)
Definition column_series (X : Covariates) (c : label * list R) : Series R :=
  mkSeries (Some (fst c)) (x_index X) (snd c).

(** Score tables as the objects handed to the aggregation. *)
Definition as_score_tables (scores : dict (list DataFrame))
    : dict (list scores_obj) :=
  map (fun kv => (fst kv, map ScoreTable (snd kv))) scores.

Definition keyed_tables (l : list (label * DataFrame))
    : list (label * scores_obj) :=
  map (fun kt => (fst kt, ScoreTable (snd kt))) l.

(** All the tables of a mapping. *)
Definition tables_of (scores : dict (list DataFrame)) : list DataFrame :=
  flat_map snd scores.

(** The number of rows of all the tables of a mapping. *)
Definition row_count (scores : dict (list DataFrame)) : nat :=
  list_sum (map (fun t => List.length (rows t)) (tables_of scores)).

(** The rows of a mapping, each under its phase and the position of its
    fold, in the order of the mapping. *)
Definition labelled_rows (scores : dict (list DataFrame))
    : list (key * list cell) :=
  flat_map
    (fun kv =>
       flat_map
         (fun it => map (fun r => (LStr (fst kv) :: fst it :: fst r, snd r))
                        (rows (snd it)))
         (enumerate_from 0 (snd kv)))
    scores.

(** The columns of a concatenation that goes through. *)
Definition concat_columns (frames : list DataFrame) : list key :=
  match concat_columns_index frames with
  | Ok cols => cols
  | Raise _ => []
  end.

(** The level names of a concatenation that goes through. *)
Definition concat_names (frames : list DataFrame) : list (option label) :=
  match concat_index_names frames with
  | Ok names => names
  | Raise _ => []
  end.

(** The frame a concatenation that goes through produces. *)
Definition stacked (l : list (label * DataFrame)) (name : label) : DataFrame :=
  mkDataFrame
    (Some name :: concat_names (map snd l))
    (unanimous_names (map (fun kf => column_names (snd kf)) l))
    (concat_columns (map snd l))
    (flat_map (keyed_rows (concat_columns (map snd l))) l).

(** The per-phase frames of the first step of the aggregation. *)
Definition stacked_folds (scores : dict (list DataFrame))
    : list (label * DataFrame) :=
  map (fun kv =>
         (LStr (fst kv), stacked (enumerate_from 0 (snd kv)) (LStr "fold")))
      scores.

(** The indices of a fold that a phase is scored on. *)
Definition phase_indices (phase : string) (fold : list Z * list Z) : list Z :=
  if String.eqb phase "train" then fst fold else snd fold.

(** The scoring of fold [i] in one phase: the data sliced by the indices
    of the phase, the prediction [predictions[phase][i]], and the dispatch
    on its type. *)
Definition score_fold_phase (predictions : dict (list prediction))
    (X : Covariates) (a : Series Z) (y : Series R)
    (metrics_to_evaluate : option (dict metric_func))
    (i : nat) (fold : list Z * list Z) (phase : string) : M scores_obj :=
  X_fold <- lift (frame_iloc X (phase_indices phase fold)) ;;
  a_fold <- lift (series_iloc a (phase_indices phase fold)) ;;
  y_fold <- lift (series_iloc y (phase_indices phase fold)) ;;
  phase_predictions <- lift (dict_item predictions phase) ;;
  prediction <- lift (list_item phase_predictions i) ;;
  score_estimation prediction X_fold a_fold y_fold metrics_to_evaluate.

(** One more score at the end of each list of a dictionary. *)
Definition append_row {A} (d : dict (list A)) (rs : list A) : dict (list A) :=
  map (fun p => (fst (fst p), snd (fst p) ++ [snd p])) (combine d rs).

(** The successive appends of a sequence of (phase, score) pairs. *)
Fixpoint append_all {A} (d : dict (list A)) (l : list (string * A))
    : result (dict (list A)) :=
  match l with
  | [] => Ok d
  | (k, v) :: l' => d' <~ dict_append d k v ;; append_all d' l'
  end.

(** The last value assigned to a variable by a sequence of assignments. *)
Definition last_assigned {A} (o : option A) (rs : list A) : option A :=
  fold_left (fun _ s => Some s) rs o.

(** The aggregate of the collected scores, by the type of a fold's
    score. *)
Definition aggregate_for (fold_scores : scores_obj)
    (scores : dict (list scores_obj)) : result scores_obj :=
  match fold_scores with
  | WeightEvaluatorScores _ _ => _combine_weight_evaluator_fold_scores scores
  | ScoreTable _ => t <~ _combine_fold_scores scores ;; Ok (ScoreTable t)
  end.

(** The scores [score_cv] collects: under each phase, in the order of the
    phases, the score of each fold in that phase, in the order of the
    folds; and [last], the score of the last fold in the last phase. *)
Definition collected (predictions : dict (list prediction)) (X : Covariates)
    (a : Series Z) (y : Series R) (cv : cv_folds)
    (metrics_to_evaluate : option (dict metric_func))
    (scores : dict (list scores_obj)) (last : scores_obj) : Prop :=
  keys scores = keys predictions /\
  (forall k phase,
     nth_error (keys predictions) k = Some phase ->
     exists fold_scores,
       nth_error scores k = Some (phase, fold_scores) /\
       List.length fold_scores = List.length cv /\
       forall i fold,
         nth_error cv i = Some fold ->
         (phase = "train" \/ phase = "valid") /\
         exists s wi,
           nth_error fold_scores i = Some s /\
           score_fold_phase predictions X a y metrics_to_evaluate i fold phase
           = (Ok s, wi)) /\
  exists phase fold_scores,
    nth_error scores (List.length (keys predictions) - 1)
      = Some (phase, fold_scores) /\
    nth_error fold_scores (List.length cv - 1) = Some last.

(** A metric call that failed other than by validation. *)
Definition not_validation (e : exn) : Prop := forall msg, e <> ValueError msg.

(** The metrics of the binary scorer that are called, with their input. *)
Definition called_metric (y_pred_proba y_pred : option array)
    (items : dict metric_func) (n : string) (f : metric_func) (input : array)
    : Prop :=
  In (n, f) items /\ required_input n y_pred_proba y_pred = Some input.

(** Whether a metric call failed. *)
Definition call_failed (r : result cell) : bool :=
  match r with
  | Ok _ => false
  | Raise _ => true
  end.

(** The values of [x] at the samples whose assignment passes [test]. *)
Definition values_where {V} (test : Z -> bool) (x : list V) (a : list Z)
    : list V :=
  map fst (filter (fun p => test (snd p)) (combine x a)).

(** The table of one treatment value for covariates without columns. *)
Definition empty_balance_table : DataFrame :=
  mkDataFrame [None] [None] balance_columns [].

(** The columns of a balance table that keeps its levels: the weighted
    and the unweighted distance under each level. *)
Definition level_columns (levels : list Z) : list key :=
  flat_map (fun tv => [[LInt tv; LStr "weighted"]; [LInt tv; LStr "unweighted"]])
           levels.

(** The scores of a weight model as the objects handed to the
    aggregation, and their two components. *)
Definition as_weight_scores (scores : dict (list (DataFrame * DataFrame)))
    : dict (list scores_obj) :=
  map (fun kv =>
         (fst kv, map (fun p => WeightEvaluatorScores (fst p) (snd p)) (snd kv)))
      scores.

Definition prediction_score_tables (scores : dict (list (DataFrame * DataFrame)))
    : dict (list DataFrame) :=
  map (fun kv => (fst kv, map fst (snd kv))) scores.

Definition covariate_balance_tables (scores : dict (list (DataFrame * DataFrame)))
    : dict (list DataFrame) :=
  map (fun kv => (fst kv, map snd (snd kv))) scores.

(** The predictions cut after the first [n] folds of each phase. *)
Definition first_folds (n : nat) (predictions : dict (list prediction))
    : dict (list prediction) :=
  map (fun kv => (fst kv, firstn n (snd kv))) predictions.

(** The calls made on one zipped fold (prediction, target, weights). *)
Definition curve_of_fold (curve_metric : curve_func) (pos_label : option label)
    (f : array * array * option array)
    : result (list R * list R * list R) :=
  curve_metric (snd (fst f)) (fst (fst f)) pos_label (snd f).

Definition area_result (area_metric : area_func)
    (f : array * array * option array) : result cell :=
  area_call area_metric (snd (fst f)) (fst (fst f)) (snd f).

(** The warnings for the folds whose area could not be evaluated. *)
Definition area_warnings (area_metric : area_func)
    (folds : list (array * array * option array)) : list string :=
  flat_map
    (fun f =>
       match area_result area_metric f, area___name__ area_metric with
       | Raise (ValueError v), Some name =>
           [("metric " ++ name ++ " could not be evaluated")%string; v]
       | _, _ => []
       end) folds.

(** The four lists with the values of further folds at their ends. *)
Definition extend_folds (acc : curve_folds) (areas : list cell)
    (curves : list (list R * list R * list R)) : curve_folds :=
  let '(area_folds, first_ret_folds, second_ret_folds, threshold_folds) := acc in
  (area_folds ++ areas,
   first_ret_folds ++ map (fun c => fst (fst c)) curves,
   second_ret_folds ++ map (fun c => snd (fst c)) curves,
   threshold_folds ++ map snd curves).

(** The dictionary [d'] of a curve after its three keys were moved to
    the names [first], [second] and [area]: the values are under the new
    names, the old names are gone, every other key is as it was. *)
Definition moved_keys {V} (first second area : string) (d d' : dict V) : Prop :=
  dict_get d "first_ret_value" <> None /\
  dict_get d "second_ret_value" <> None /\
  dict_get d "area" <> None /\
  dict_get d' first = dict_get d "first_ret_value" /\
  dict_get d' second = dict_get d "second_ret_value" /\
  dict_get d' area = dict_get d "area" /\
  dict_get d' "first_ret_value" = None /\
  dict_get d' "second_ret_value" = None /\
  dict_get d' "area" = None /\
  forall k,
    ~ In k [first; second; area;
            "first_ret_value"; "second_ret_value"; "area"] ->
    dict_get d' k = dict_get d k.

(** A call that raises on the first curve and leaves [curve_data] as it
    was. *)
Definition stops_at_once {V} (curve_data : dict (curve_entry V))
    (r : dict (curve_entry V) * option exn) : Prop :=
  r = (curve_data, Some (KeyError "first_ret_value")) \/
  r = (curve_data, Some (AttributeError "pop")).

(** A concatenation that goes through: the levels of the row labels fit
    and the columns combine. *)
Definition concat_defined (frames : list DataFrame) : Prop :=
  (exists names, concat_index_names frames = Ok names) /\
  (exists cols, concat_columns_index frames = Ok cols).

(** * Properties *)

(** ** The result and warning monad *)

Lemma bind_warn {A} (msg : string) (k : M A) :
  bind (warn msg) (fun _ => k) = (fst k, msg :: snd k).
Proof. unfold bind, warn. destruct k as [r w]. reflexivity. Qed.

Lemma bind_ok_inv {A B} (m : M A) (f : A -> M B) (b : B) (w : list string) :
  bind m f = (Ok b, w) ->
  exists a w1 w2, m = (Ok a, w1) /\ f a = (Ok b, w2) /\ w = w1 ++ w2.
Proof.
  unfold bind. destruct m as [[x|e] w1]; [|discriminate].
  destruct (f x) as [r w2] eqn:E. intros H. inversion H; subst.
  exists x, w1, w2. auto.
Qed.

Lemma bind_ok {A B} (m : M A) (f : A -> M B) a w1 b w2 :
  m = (Ok a, w1) -> f a = (Ok b, w2) -> bind m f = (Ok b, w1 ++ w2).
Proof. intros -> H. unfold bind. rewrite H. reflexivity. Qed.

Lemma bind_lift_ok {A B} (r : result A) (f : A -> M B) a :
  r = Ok a -> bind (lift r) f = f a.
Proof. intros ->. unfold bind, lift. destruct (f a). reflexivity. Qed.

Lemma rbind_ok_inv {A B} (r : result A) (f : A -> result B) (b : B) :
  rbind r f = Ok b -> exists x, r = Ok x /\ f x = Ok b.
Proof. destruct r as [x|e]; [|discriminate]. intros H. now exists x. Qed.

(** ** Dictionaries *)

Lemma dict_set_fresh {V} (d : dict V) k v :
  ~ In k (keys d) -> dict_set d k v = d ++ [(k, v)].
Proof.
  induction d as [|[k' v'] d IH]; simpl; intros H; [reflexivity|].
  destruct (String.eqb_spec k' k) as [->|Hne].
  - exfalso. apply H. now left.
  - rewrite IH; [reflexivity|]. intros Hin. apply H. now right.
Qed.

Lemma dict_merge_fresh {V} (l d : dict V) :
  NoDup (keys (d ++ l)) -> dict_merge d l = d ++ l.
Proof.
  revert d. induction l as [|[k v] l IH]; intros d H; simpl.
  - now rewrite app_nil_r.
  - unfold dict_merge in *. simpl.
    unfold keys in H. rewrite map_app in H. simpl in H.
    pose proof (NoDup_remove_2 _ _ _ H) as Hk.
    rewrite dict_set_fresh.
    + rewrite IH.
      * now rewrite <- app_assoc.
      * unfold keys. rewrite <- app_assoc. simpl. now rewrite map_app.
    + intros Hin. apply Hk. apply in_or_app. now left.
Qed.

Lemma dict_get_In {V} (d : dict V) k v :
  NoDup (keys d) -> In (k, v) d -> dict_get d k = Some v.
Proof.
  induction d as [|[k' v'] d IH]; simpl; intros Hnd Hin; [contradiction|].
  inversion Hnd as [|? ? Hk Hnd']; subst.
  destruct Hin as [Heq|Hin].
  - inversion Heq; subst. now rewrite String.eqb_refl.
  - destruct (String.eqb_spec k' k) as [->|Hne].
    + exfalso. apply Hk. unfold keys. apply in_map_iff. now exists (k, v).
    + now apply IH.
Qed.

Lemma dict_get_None {V} (d : dict V) k :
  ~ In k (keys d) -> dict_get d k = None.
Proof.
  induction d as [|[k' v'] d IH]; simpl; intros H; [reflexivity|].
  destruct (String.eqb_spec k' k) as [->|Hne].
  - exfalso. apply H. now left.
  - apply IH. intros Hin. apply H. now right.
Qed.

(** ** The scoring loops *)

Section BinaryLoop.

Variables (y_true : array) (y_pred_proba y_pred sample_weight : option array).

#[local] Abbreviation loop :=
  (score_binary_loop y_true y_pred_proba y_pred sample_weight).
#[local] Abbreviation entries :=
  (binary_entries y_true y_pred_proba y_pred sample_weight).
#[local] Abbreviation warnings :=
  (binary_warnings y_true y_pred_proba y_pred sample_weight).

Lemma score_binary_loop_cons n f (items : dict metric_func) scores :
  loop ((n, f) :: items) scores =
  match required_input n y_pred_proba y_pred with
  | None => loop items scores
  | Some p =>
      match f y_true p sample_weight with
      | Ok v => loop items (dict_set scores n v)
      | Raise (ValueError v) =>
          (fst (loop items (dict_set scores n NaN)),
           ("metric " ++ n ++ " could not be evaluated")%string
             :: v :: snd (loop items (dict_set scores n NaN)))
      | Raise e => raise e
      end
  end.
Proof.
  cbn [score_binary_loop]. unfold required_input.
  destruct (if str_in n continuous_score_metrics then y_pred_proba else y_pred);
    [|reflexivity].
  destruct (f y_true a sample_weight) as [v|[]]; try reflexivity.
  now rewrite !bind_warn.
Qed.

Lemma binary_entries_cons n f (items : dict metric_func) :
  entries ((n, f) :: items) =
  match required_input n y_pred_proba y_pred with
  | None => entries items
  | Some p => (n, recorded (f y_true p sample_weight)) :: entries items
  end.
Proof.
  unfold binary_entries. cbn [flat_map fst snd].
  now destruct (required_input n y_pred_proba y_pred).
Qed.

Lemma binary_warnings_cons n f (items : dict metric_func) :
  warnings ((n, f) :: items) =
  match required_input n y_pred_proba y_pred with
  | None => warnings items
  | Some p =>
      match f y_true p sample_weight with
      | Raise (ValueError v) =>
          ("metric " ++ n ++ " could not be evaluated")%string
            :: v :: warnings items
      | _ => warnings items
      end
  end.
Proof.
  unfold binary_warnings. cbn [flat_map fst snd].
  destruct (required_input n y_pred_proba y_pred); [|reflexivity].
  now destruct (f y_true a sample_weight) as [v|[]].
Qed.

(** A run of the loop that ends normally has recorded exactly the entries
    of the metrics whose input is there, and warned for the failed ones. *)
Lemma score_binary_loop_inv (items : dict metric_func) :
  forall scores out w,
    loop items scores = (Ok out, w) ->
    out = dict_merge scores (entries items) /\ w = warnings items.
Proof.
  induction items as [|[n f] items IH]; intros scores out w H.
  - inversion H; subst. split; reflexivity.
  - rewrite score_binary_loop_cons in H.
    rewrite binary_entries_cons, binary_warnings_cons.
    destruct (required_input n y_pred_proba y_pred) as [p|]; [|now apply IH].
    destruct (f y_true p sample_weight) as [v|e].
    + apply IH in H. exact H.
    + destruct e; try discriminate.
      destruct (loop items (dict_set scores n NaN)) as [r w'] eqn:El.
      cbn [fst snd] in H. inversion H; subst.
      apply IH in El. destruct El as [-> ->]. split; reflexivity.
Qed.

(** When the metrics fail by validation only, the loop ends normally. *)
Lemma score_binary_loop_total (items : dict metric_func) :
  (forall n f p, In (n, f) items ->
     required_input n y_pred_proba y_pred = Some p ->
     fails_validation_only (f y_true p sample_weight)) ->
  forall scores, exists out w, loop items scores = (Ok out, w).
Proof.
  induction items as [|[n f] items IH]; intros Hval scores.
  - eexists _, _. reflexivity.
  - assert (Hval' : forall n f p, In (n, f) items ->
              required_input n y_pred_proba y_pred = Some p ->
              fails_validation_only (f y_true p sample_weight)).
    { intros n' f' p' Hin. apply Hval. now right. }
    rewrite score_binary_loop_cons.
    specialize (Hval n f).
    destruct (required_input n y_pred_proba y_pred) as [p|]; [|now apply IH].
    destruct (f y_true p sample_weight) as [v|e] eqn:Ef; [now apply IH|].
    destruct (Hval p (or_introl eq_refl) eq_refl e Ef) as [msg ->].
    destruct (IH Hval' (dict_set scores n NaN)) as (out & w & ->).
    eexists _, _. reflexivity.
Qed.

Lemma binary_entries_keys (items : dict metric_func) :
  keys (entries items) = filter (input_supplied y_pred_proba y_pred) (keys items).
Proof.
  induction items as [|[n f] items IH]; [reflexivity|].
  rewrite binary_entries_cons. cbn [keys map fst filter].
  unfold input_supplied at 1.
  unfold keys in IH |- *.
  destruct (required_input n y_pred_proba y_pred); cbn [map fst];
    now rewrite IH.
Qed.

Lemma binary_entries_In (items : dict metric_func) n f p :
  In (n, f) items -> required_input n y_pred_proba y_pred = Some p ->
  In (n, recorded (f y_true p sample_weight)) (entries items).
Proof.
  induction items as [|[n' f'] items IH]; intros Hin Hp; [contradiction|].
  rewrite binary_entries_cons. destruct Hin as [Heq|Hin].
  - inversion Heq; subst. rewrite Hp. now left.
  - destruct (required_input n' y_pred_proba y_pred); [right|]; now apply IH.
Qed.

End BinaryLoop.

Section RegressionLoop.

Variables (y_true y_pred : array) (sample_weight : option array).

#[local] Abbreviation loop := (score_regression_loop y_true y_pred sample_weight).
#[local] Abbreviation entries := (regression_entries y_true y_pred sample_weight).
#[local] Abbreviation warnings := (regression_warnings y_true y_pred sample_weight).

Lemma score_regression_loop_cons n f (items : dict metric_func) metrics :
  loop ((n, f) :: items) metrics =
  match f y_true y_pred sample_weight with
  | Ok v => loop items (dict_set metrics n v)
  | Raise (ValueError v) =>
      (fst (loop items (dict_set metrics n NaN)),
       ("While evaluating " ++ n ++ ": " ++ v)%string
         :: snd (loop items (dict_set metrics n NaN)))
  | Raise e => raise e
  end.
Proof.
  cbn [score_regression_loop].
  destruct (f y_true y_pred sample_weight) as [v|[]]; try reflexivity.
  now rewrite bind_warn.
Qed.

Lemma regression_warnings_cons n f (items : dict metric_func) :
  warnings ((n, f) :: items) =
  match f y_true y_pred sample_weight with
  | Raise (ValueError v) =>
      ("While evaluating " ++ n ++ ": " ++ v)%string :: warnings items
  | _ => warnings items
  end.
Proof.
  unfold regression_warnings. cbn [flat_map fst snd].
  now destruct (f y_true y_pred sample_weight) as [v|[]].
Qed.

Lemma score_regression_loop_inv (items : dict metric_func) :
  forall metrics out w,
    loop items metrics = (Ok out, w) ->
    out = dict_merge metrics (entries items) /\ w = warnings items.
Proof.
  induction items as [|[n f] items IH]; intros metrics out w H.
  - inversion H; subst. split; reflexivity.
  - rewrite score_regression_loop_cons in H.
    rewrite regression_warnings_cons.
    unfold regression_entries, dict_merge.
    cbn [map fold_left fst snd].
    destruct (f y_true y_pred sample_weight) as [v|e].
    + apply IH in H. exact H.
    + destruct e; try discriminate.
      destruct (loop items (dict_set metrics n NaN)) as [r w'] eqn:El.
      cbn [fst snd] in H. inversion H; subst.
      apply IH in El. destruct El as [-> ->]. split; reflexivity.
Qed.

Lemma score_regression_loop_total (items : dict metric_func) :
  (forall n f, In (n, f) items ->
     fails_validation_only (f y_true y_pred sample_weight)) ->
  forall metrics, exists out w, loop items metrics = (Ok out, w).
Proof.
  induction items as [|[n f] items IH]; intros Hval metrics.
  - eexists _, _. reflexivity.
  - assert (Hval' : forall n f, In (n, f) items ->
              fails_validation_only (f y_true y_pred sample_weight)).
    { intros n' f' Hin. apply (Hval n'). now right. }
    rewrite score_regression_loop_cons.
    specialize (Hval n f (or_introl eq_refl)).
    destruct (f y_true y_pred sample_weight) as [v|e] eqn:Ef; [now apply IH|].
    destruct (Hval e eq_refl) as [msg ->].
    destruct (IH Hval' (dict_set metrics n NaN)) as (out & w & ->).
    eexists _, _. reflexivity.
Qed.

End RegressionLoop.


(** ** score_binary_prediction and score_regression_prediction *)

Lemma binary_warnings_In y_true y_pred_proba y_pred sample_weight
    (items : dict metric_func) n f p msg :
  In (n, f) items -> required_input n y_pred_proba y_pred = Some p ->
  f y_true p sample_weight = Raise (ValueError msg) ->
  In ("metric " ++ n ++ " could not be evaluated")%string
     (binary_warnings y_true y_pred_proba y_pred sample_weight items) /\
  In msg (binary_warnings y_true y_pred_proba y_pred sample_weight items).
Proof.
  intros Hin Hp Hf. unfold binary_warnings.
  split; apply in_flat_map; exists (n, f); (split; [exact Hin|]);
    cbn [fst snd]; rewrite Hp, Hf; simpl; auto.
Qed.

Lemma regression_warnings_In y_true y_pred sample_weight
    (items : dict metric_func) n f msg :
  In (n, f) items ->
  f y_true y_pred sample_weight = Raise (ValueError msg) ->
  In ("While evaluating " ++ n ++ ": " ++ msg)%string
     (regression_warnings y_true y_pred sample_weight items).
Proof.
  intros Hin Hf. unfold regression_warnings.
  apply in_flat_map. exists (n, f). split; [exact Hin|].
  cbn [fst snd]. rewrite Hf. now left.
Qed.

Lemma dict_merge_nil {V} (l : dict V) :
  NoDup (keys l) -> dict_merge [] l = l.
Proof. intros H. now apply (dict_merge_fresh l []). Qed.

Lemma binary_entries_NoDup y_true y_pred_proba y_pred sample_weight
    (items : dict metric_func) :
  NoDup (keys items) ->
  NoDup (keys (binary_entries y_true y_pred_proba y_pred sample_weight items)).
Proof. intros H. rewrite binary_entries_keys. now apply NoDup_filter. Qed.

(** What a normal return of [score_binary_prediction] holds. *)
Lemma score_binary_prediction_inv y_true y_pred_proba y_pred sample_weight
    metrics_to_evaluate only_numeric_metric s w :
  NoDup (keys (binary_metrics metrics_to_evaluate only_numeric_metric)) ->
  score_binary_prediction y_true y_pred_proba y_pred sample_weight
    metrics_to_evaluate only_numeric_metric = (Ok s, w) ->
  ss_items s =
    binary_entries y_true y_pred_proba y_pred sample_weight
      (binary_metrics metrics_to_evaluate only_numeric_metric) /\
  w = binary_warnings y_true y_pred_proba y_pred sample_weight
        (binary_metrics metrics_to_evaluate only_numeric_metric).
Proof.
  intros Hnd H. unfold score_binary_prediction in H.
  fold (binary_metrics metrics_to_evaluate only_numeric_metric) in H.
  apply bind_ok_inv in H. destruct H as (out & w1 & w2 & Hl & Hr & ->).
  apply score_binary_loop_inv in Hl. destruct Hl as [-> ->].
  inversion Hr; subst. cbn [ss_items]. rewrite app_nil_r.
  split; [|reflexivity].
  apply dict_merge_nil. now apply binary_entries_NoDup.
Qed.

Lemma score_binary_prediction_total y_true y_pred_proba y_pred sample_weight
    metrics_to_evaluate only_numeric_metric :
  (forall n f p,
     In (n, f) (binary_metrics metrics_to_evaluate only_numeric_metric) ->
     required_input n y_pred_proba y_pred = Some p ->
     fails_validation_only (f y_true p sample_weight)) ->
  exists s w,
    score_binary_prediction y_true y_pred_proba y_pred sample_weight
      metrics_to_evaluate only_numeric_metric = (Ok s, w).
Proof.
  intros Hval. unfold score_binary_prediction.
  fold (binary_metrics metrics_to_evaluate only_numeric_metric).
  destruct (score_binary_loop_total _ _ _ _ _ Hval []) as (out & w & Hl).
  eexists _, _. eapply bind_ok; [exact Hl|reflexivity].
Qed.

Lemma regression_entries_keys y_true y_pred sample_weight
    (items : dict metric_func) :
  keys (regression_entries y_true y_pred sample_weight items) = keys items.
Proof.
  unfold regression_entries, keys. rewrite map_map. reflexivity.
Qed.

Lemma score_regression_prediction_inv y_true y_pred sample_weight
    metrics_to_evaluate out w :
  NoDup (keys (regression_metrics metrics_to_evaluate)) ->
  score_regression_prediction y_true y_pred sample_weight metrics_to_evaluate
    = (Ok out, w) ->
  out = regression_entries y_true y_pred sample_weight
          (regression_metrics metrics_to_evaluate) /\
  w = regression_warnings y_true y_pred sample_weight
        (regression_metrics metrics_to_evaluate).
Proof.
  intros Hnd H. unfold score_regression_prediction in H.
  fold (regression_metrics metrics_to_evaluate) in H.
  apply score_regression_loop_inv in H. destruct H as [-> ->].
  split; [|reflexivity].
  apply dict_merge_nil. now rewrite regression_entries_keys.
Qed.

(** C2. [score_binary_prediction] evaluates the metrics named hinge, brier,
    roc_curve, roc_auc, pr_curve and avg_precision on [y_pred_proba] and
    every other metric on [y_pred]. A metric whose required input is [None]
    is left out of the returned scores and is never called, so it cannot
    make the call fail; every metric whose required input was supplied is
    in the returned scores, with its value or with NaN, in the order of the
    metric set. The call returns whenever the metrics that are called fail
    by validation only. *)
Theorem score_binary_prediction_routing
    (y_true : array) (y_pred_proba y_pred sample_weight : option array)
    (metrics_to_evaluate : option (dict metric_func))
    (only_numeric_metric : bool) :
  NoDup (keys (binary_metrics metrics_to_evaluate only_numeric_metric)) ->
  (forall n, required_input n y_pred_proba y_pred =
             if str_in n ["hinge"; "brier"; "roc_curve"; "roc_auc"; "pr_curve";
                          "avg_precision"]
             then y_pred_proba else y_pred) /\
  (forall s w,
     score_binary_prediction y_true y_pred_proba y_pred sample_weight
       metrics_to_evaluate only_numeric_metric = (Ok s, w) ->
     (forall n f,
        In (n, f) (binary_metrics metrics_to_evaluate only_numeric_metric) ->
        dict_get (ss_items s) n =
          match required_input n y_pred_proba y_pred with
          | None => None
          | Some input => Some (recorded (f y_true input sample_weight))
          end) /\
     keys (ss_items s) =
       filter (input_supplied y_pred_proba y_pred)
         (keys (binary_metrics metrics_to_evaluate only_numeric_metric))) /\
  ((forall n f input,
      In (n, f) (binary_metrics metrics_to_evaluate only_numeric_metric) ->
      required_input n y_pred_proba y_pred = Some input ->
      fails_validation_only (f y_true input sample_weight)) ->
   exists s w,
     score_binary_prediction y_true y_pred_proba y_pred sample_weight
       metrics_to_evaluate only_numeric_metric = (Ok s, w)).
Proof.
  intros Hnd. split; [reflexivity|]. split.
  - intros s w H.
    destruct (score_binary_prediction_inv _ _ _ _ _ _ _ _ Hnd H) as [Hs _].
    rewrite Hs. split; [|apply binary_entries_keys].
    intros n f Hin.
    destruct (required_input n y_pred_proba y_pred) as [p|] eqn:Hp.
    + apply dict_get_In; [now apply binary_entries_NoDup|].
      now apply binary_entries_In.
    + apply dict_get_None. rewrite binary_entries_keys.
      intros Hf. apply filter_In in Hf. destruct Hf as [_ Hf].
      unfold input_supplied in Hf. rewrite Hp in Hf. discriminate.
  - apply score_binary_prediction_total.
Qed.

(** C3. Neither scorer raises when metrics fail validation: when the
    metrics that are called fail with a [ValueError] only, whatever the
    input, [score_binary_prediction] and [score_regression_prediction]
    return; each failed metric is recorded as NaN and warned about, and
    every other metric is recorded with its value. *)
Theorem scorers_absorb_validation_failures
    (y_true : array) (y_pred_proba y_pred sample_weight : option array)
    (metrics_to_evaluate : option (dict metric_func))
    (only_numeric_metric : bool)
    (r_true r_pred : array) (r_weight : option array)
    (r_metrics : option (dict metric_func)) :
  NoDup (keys (binary_metrics metrics_to_evaluate only_numeric_metric)) ->
  NoDup (keys (regression_metrics r_metrics)) ->
  (forall n f input,
     In (n, f) (binary_metrics metrics_to_evaluate only_numeric_metric) ->
     required_input n y_pred_proba y_pred = Some input ->
     fails_validation_only (f y_true input sample_weight)) ->
  (forall n f,
     In (n, f) (regression_metrics r_metrics) ->
     fails_validation_only (f r_true r_pred r_weight)) ->
  (exists s w,
     score_binary_prediction y_true y_pred_proba y_pred sample_weight
       metrics_to_evaluate only_numeric_metric = (Ok s, w) /\
     forall n f input,
       In (n, f) (binary_metrics metrics_to_evaluate only_numeric_metric) ->
       required_input n y_pred_proba y_pred = Some input ->
       match f y_true input sample_weight with
       | Ok v => dict_get (ss_items s) n = Some v
       | Raise e =>
           dict_get (ss_items s) n = Some NaN /\
           In ("metric " ++ n ++ " could not be evaluated")%string w /\
           forall msg, e = ValueError msg -> In msg w
       end) /\
  (exists out w,
     score_regression_prediction r_true r_pred r_weight r_metrics
       = (Ok out, w) /\
     forall n f,
       In (n, f) (regression_metrics r_metrics) ->
       match f r_true r_pred r_weight with
       | Ok v => dict_get out n = Some v
       | Raise e =>
           dict_get out n = Some NaN /\
           forall msg, e = ValueError msg ->
             In ("While evaluating " ++ n ++ ": " ++ msg)%string w
       end).
Proof.
  intros Hnd Hndr Hval Hvalr. split.
  - destruct (score_binary_prediction_total _ _ _ _ _ _ Hval) as (s & w & H).
    exists s, w. split; [exact H|].
    destruct (score_binary_prediction_inv _ _ _ _ _ _ _ _ Hnd H) as [Hs ->].
    rewrite Hs. intros n f p Hin Hp.
    assert (Hget : dict_get
              (binary_entries y_true y_pred_proba y_pred sample_weight
                 (binary_metrics metrics_to_evaluate only_numeric_metric)) n
            = Some (recorded (f y_true p sample_weight))).
    { apply dict_get_In; [now apply binary_entries_NoDup|].
      now apply binary_entries_In. }
    pose proof (Hval n f p Hin Hp) as Hv.
    destruct (f y_true p sample_weight) as [v|e] eqn:Hf; [exact Hget|].
    destruct (Hv e eq_refl) as [msg ->].
    destruct (binary_warnings_In _ _ _ _ _ _ _ _ _ Hin Hp Hf) as [H1 H2].
    split; [exact Hget|]. split; [exact H1|].
    intros msg' Heq. inversion Heq; subst. exact H2.
  - unfold score_regression_prediction.
    fold (regression_metrics r_metrics).
    destruct (score_regression_loop_total _ _ _ _ Hvalr []) as (out & w & H).
    exists out, w. split; [exact H|].
    assert (H' : score_regression_prediction r_true r_pred r_weight r_metrics
                 = (Ok out, w)) by exact H.
    destruct (score_regression_prediction_inv _ _ _ _ _ _ Hndr H') as [-> ->].
    intros n f Hin.
    assert (Hget : dict_get
              (regression_entries r_true r_pred r_weight
                 (regression_metrics r_metrics)) n
            = Some (recorded (f r_true r_pred r_weight))).
    { apply dict_get_In; [now rewrite regression_entries_keys|].
      unfold regression_entries. apply in_map_iff. now exists (n, f). }
    pose proof (Hvalr n f Hin) as Hv.
    destruct (f r_true r_pred r_weight) as [v|e] eqn:Hf; [exact Hget|].
    destruct (Hv e eq_refl) as [msg ->].
    split; [exact Hget|].
    intros msg' Heq. inversion Heq; subst.
    now apply (regression_warnings_In _ _ _ _ n f).
Qed.

(** ** EvaluationResults.make *)

(** C7. [results.py] cannot be imported: the class statements of the four
    result variants name the base [mixins.PlotAllMixin], which
    [plots/mixins.py] does not bind, and binding it is all that is
    missing. So no call of [make] selects a variant: whatever the models
    and the predictions, reaching [make] raises [AttributeError]. *)
Theorem make_returns_no_variant
    (evaluated_metrics : scores_obj) (models : models_arg)
    (predictions : dict (list prediction)) (cv : cv_folds) (X : Covariates)
    (a : Series Z) (y : Series R) :
  import_results = Raise (AttributeError "PlotAllMixin") /\
  results_class_statements ("PlotAllMixin" :: mixins_module) = Ok tt /\
  make evaluated_metrics models predictions cv X a y
    = Raise (AttributeError "PlotAllMixin").
Proof. repeat split. Qed.

(** ** Unrecognized types *)

(** C9. A prediction object of an unrecognized type does not reach the
    [ValueError] that names its type: [score_estimation] first imports
    [weight_evaluator.py], whose import of [Scorer] from [metrics.py]
    fails, and raises that [ImportError], with no score and no warning.
    A fitted model of an unrecognized type does not reach the
    [ValueError] of [make] either, since [results.py] cannot be
    imported. *)
Theorem unrecognized_type_raises
    (type_repr : string) (X : Covariates) (a_true : Series Z)
    (y_true : Series R) (metrics_to_evaluate : option (dict metric_func))
    (evaluated_metrics : scores_obj) (models : models_arg)
    (predictions : dict (list prediction)) (cv : cv_folds) :
  score_estimation (OtherPrediction type_repr) X a_true y_true
    metrics_to_evaluate
    = (Raise (ImportError "Scorer"), []) /\
  make evaluated_metrics models predictions cv X a_true y_true
    = Raise (AttributeError "PlotAllMixin").
Proof. split; reflexivity. Qed.

(** *** Once the modules are imported *)

(** With [results.py] imported, that is, with the mixin bound, [make] is
    the selection that its body describes. *)

Lemma any_binary_outcome_spec (x : list prediction) :
  forallb is_outcome_prediction x = true ->
  any_binary_outcome x = Ok (existsb flagged_binary x).
Proof.
  induction x as [|p x IH]; [reflexivity|].
  cbn [forallb existsb any_binary_outcome].
  destruct p as [q| | |]; cbn [is_outcome_prediction flagged_binary];
    try discriminate.
  intros H. destruct (is_binary_outcome q); [reflexivity|]. now apply IH.
Qed.

Lemma any_phase_binary_spec (values : list (list prediction)) :
  forallb (forallb is_outcome_prediction) values = true ->
  any_phase_binary values = Ok (existsb (existsb flagged_binary) values).
Proof.
  induction values as [|x values IH]; [reflexivity|].
  cbn [forallb existsb any_phase_binary]. intros H.
  apply andb_prop in H. destruct H as [Hx Hv].
  rewrite (any_binary_outcome_spec x Hx). cbn [rbind].
  destruct (existsb flagged_binary x); [reflexivity|]. now apply IH.
Qed.

Lemma first_fitted_model_holds (models : models_arg) (m : estimator) :
  first_fitted_model models = Ok m <-> holds_first models m.
Proof.
  unfold holds_first. split.
  - destruct models as [d|l|e]; cbn [first_fitted_model]; intros H.
    + left. unfold dict_item in H.
      destruct (dict_get d "train") as [[|m' rest]|] eqn:E;
        try discriminate.
      inversion H; subst. now exists d, rest.
    + right. left. destruct l as [|m' rest]; [discriminate|].
      inversion H; subst. now exists rest.
    + right. right. now inversion H.
  - intros [(d & rest & -> & Hd)|[(rest & ->)| ->]];
      cbn [first_fitted_model]; [|reflexivity|reflexivity].
    unfold dict_item. now rewrite Hd.
Qed.

Lemma make_once_imported (mixins_names : list string)
    (evaluated_metrics : scores_obj) (models : models_arg)
    (predictions : dict (list prediction)) (cv : cv_folds) (X : Covariates)
    (a : Series Z) (y : Series R) (fitted_model : estimator) :
  results_class_statements mixins_names = Ok tt ->
  holds_first models fitted_model ->
  let build v :=
    mkEvaluationResults v evaluated_metrics models predictions cv X a y in
  let made := make_given mixins_names evaluated_metrics models predictions
                cv X a y in
  (is_PropensityEstimator fitted_model = true ->
   made = Ok (build PropensityEvaluationResults)) /\
  (is_PropensityEstimator fitted_model = false ->
   is_WeightEstimator fitted_model = true ->
   made = Ok (build WeightEvaluationResults)) /\
  (is_PropensityEstimator fitted_model = false ->
   is_WeightEstimator fitted_model = false ->
   is_IndividualOutcomeEstimator fitted_model = true ->
   forallb (forallb is_outcome_prediction) (map snd predictions) = true ->
   ((exists phase folds p,
       In (phase, folds) predictions /\ In p folds /\ flagged_binary p = true)
    -> made = Ok (build BinaryOutcomeEvaluationResults)) /\
   (~ (exists phase folds p,
         In (phase, folds) predictions /\ In p folds /\
         flagged_binary p = true)
    -> made = Ok (build ContinuousOutcomeEvaluationResults))) /\
  (is_PropensityEstimator fitted_model = false ->
   is_WeightEstimator fitted_model = false ->
   is_IndividualOutcomeEstimator fitted_model = false ->
   made = Raise (ValueError
            ("Unable to find suitable results object for esimator of type "
               ++ estimator_type_repr fitted_model)%string)).
Proof.
  intros Himp Hm build made. subst made.
  apply first_fitted_model_holds in Hm.
  unfold make_given. rewrite Himp, Hm. cbn [rbind].
  split; [|split; [|split]].
  - intros ->. reflexivity.
  - intros -> ->. reflexivity.
  - intros -> -> -> Hall. rewrite (any_phase_binary_spec _ Hall). cbn [rbind].
    assert (Hex : (exists phase folds p,
                     In (phase, folds) predictions /\ In p folds /\
                     flagged_binary p = true)
                  <-> existsb (existsb flagged_binary) (map snd predictions)
                      = true).
    { rewrite existsb_exists. split.
      - intros (phase & folds & p & Hin & Hp & Hf). exists folds. split.
        + apply in_map_iff. now exists (phase, folds).
        + apply existsb_exists. now exists p.
      - intros (folds & Hin & Hf). apply in_map_iff in Hin.
        destruct Hin as ([phase folds'] & Heq & Hin). cbn in Heq. subst.
        apply existsb_exists in Hf. destruct Hf as (p & Hp & Hf).
        now exists phase, folds, p. }
    destruct (existsb (existsb flagged_binary) (map snd predictions)).
    + split; [reflexivity|]. intros H. exfalso. apply H. now apply Hex.
    + split; [|reflexivity]. intros H. apply Hex in H. discriminate.
  - intros -> -> ->. reflexivity.
Qed.

(** With [weight_evaluator.py] imported, an object of an unrecognized
    type reaches the error that names its type, and the predictions of a
    weight or a propensity model are scored by their [calculate_metrics]. *)
Lemma score_estimation_once_imported (metrics_names : list string)
    (X : Covariates) (a_true : Series Z) (y_true : Series R)
    (metrics_to_evaluate : option (dict metric_func)) :
  weight_evaluator_imports metrics_names = Ok tt ->
  (forall type_repr,
     score_estimation_given metrics_names (OtherPrediction type_repr) X
       a_true y_true metrics_to_evaluate
     = (Raise (ValueError
                 ("Invalid type for prediciton: " ++ type_repr)%string), [])) /\
  (forall p,
     score_estimation_given metrics_names (WeightPrediction p) X a_true
       y_true metrics_to_evaluate
     = calculate_metrics_given metrics_names p X a_true metrics_to_evaluate) /\
  (forall p,
     score_estimation_given metrics_names (PropensityPrediction p) X a_true
       y_true metrics_to_evaluate
     = calculate_metrics_given metrics_names p X a_true metrics_to_evaluate).
Proof.
  intros Himp. cbn [score_estimation_given]. rewrite Himp.
  repeat split; intros p; unfold bind, lift;
    now destruct (calculate_metrics_given metrics_names p X a_true
                    metrics_to_evaluate).
Qed.

(** ** score_cv *)

(** C10. With an empty list of folds [score_cv] returns no aggregate: the
    loop body never runs, [fold_scores] is unbound at the final type test,
    and the call raises the unbound-variable error. *)
Theorem score_cv_no_folds_unbound
    (predictions : dict (list prediction)) (X : Covariates) (a : Series Z)
    (y : Series R) (metrics_to_evaluate : option (dict metric_func)) :
  score_cv predictions X a y [] metrics_to_evaluate
    = (Raise (UnboundLocalError "fold_scores"), []).
Proof. reflexivity. Qed.

(** ** Equality tests on labels and keys *)

Lemma label_eqb_eq (a b : label) : label_eqb a b = true <-> a = b.
Proof.
  destruct a, b; cbn; try (split; [discriminate|intros H; inversion H]).
  - rewrite String.eqb_eq. split; [now intros ->|now inversion 1].
  - rewrite Z.eqb_eq. split; [now intros ->|now inversion 1].
  - rewrite String.eqb_eq. split; [now intros ->|now inversion 1].
Qed.






(** ** Treatment levels *)

Lemma insert_unique_In z l v :
  In v (insert_unique z l) <-> v = z \/ In v l.
Proof.
  induction l as [|y l IH]; simpl.
  - intuition.
  - destruct (Z.ltb_spec z y).
    + simpl. intuition.
    + destruct (Z.eqb_spec z y).
      * subst. simpl. intuition.
      * simpl. rewrite IH. intuition.
Qed.

Lemma sort_unique_In l v : In v (sort_unique l) <-> In v l.
Proof.
  induction l as [|z l IH]; simpl; [reflexivity|].
  rewrite insert_unique_In, IH. intuition.
Qed.

Lemma insert_unique_HdRel y z l :
  (y < z)%Z -> HdRel Z.lt y l -> HdRel Z.lt y (insert_unique z l).
Proof.
  intros Hyz H. destruct l as [|x l]; simpl.
  - now constructor.
  - inversion H; subst.
    destruct (Z.ltb_spec z x); [now constructor|].
    destruct (Z.eqb_spec z x); now constructor.
Qed.

Lemma insert_unique_Sorted z l :
  Sorted Z.lt l -> Sorted Z.lt (insert_unique z l).
Proof.
  induction l as [|y l IH]; simpl; intros H.
  - repeat constructor.
  - inversion H; subst.
    destruct (Z.ltb_spec z y).
    + constructor; [exact H|now constructor].
    + destruct (Z.eqb_spec z y); [exact H|].
      constructor; [now apply IH|].
      apply insert_unique_HdRel; [lia|assumption].
Qed.

Lemma sort_unique_Sorted l : Sorted Z.lt (sort_unique l).
Proof.
  induction l as [|z l IH]; simpl; [constructor|].
  now apply insert_unique_Sorted.
Qed.

(** Exactly two treatment levels: they are distinct, the second is the
    larger, and every assignment is one of them. *)
Lemma two_levels (values : list Z) lo hi :
  sort_unique values = [lo; hi] ->
  (lo < hi)%Z /\ forall v, In v values -> v = lo \/ v = hi.
Proof.
  intros H. split.
  - pose proof (sort_unique_Sorted values) as Hs. rewrite H in Hs.
    inversion Hs as [|? ? _ Hd]; subst. now inversion Hd.
  - intros v Hv. apply sort_unique_In in Hv. rewrite H in Hv.
    simpl in Hv. intuition.
Qed.

Lemma values_max_two lo hi : (lo < hi)%Z -> values_max [lo; hi] = hi.
Proof. intros H. cbn. lia. Qed.

(** ** One level against the rest *)

Lemma series_not_involutive (m : Series bool) :
  series_not (series_not m) = m.
Proof.
  destruct m as [n i v]. unfold series_not. cbn. f_equal.
  rewrite map_map. rewrite <- (map_id v) at 2.
  apply map_ext. intros b. now destruct b.
Qed.

(** With two levels the samples of one level are the rest of the other. *)
Lemma series_eq_other_level (a : Series Z) lo hi :
  sort_unique (s_values a) = [lo; hi] ->
  series_eq a lo = series_not (series_eq a hi).
Proof.
  intros H. destruct (two_levels _ _ _ H) as [Hlt Hin].
  unfold series_eq, series_not. cbn. f_equal.
  rewrite map_map. apply map_ext_in. intros v Hv.
  destruct (Hin v Hv) as [->| ->].
  - rewrite Z.eqb_refl. destruct (Z.eqb_spec hi lo); [lia|reflexivity].
  - rewrite Z.eqb_refl. destruct (Z.eqb_spec lo hi); [lia|reflexivity].
Qed.

Lemma mask_lookup_not index mask x :
  mask_lookup index (map negb mask) x = map negb (mask_lookup index mask x).
Proof.
  revert mask. induction index as [|i index IH]; intros [|b mask]; cbn;
    try reflexivity.
  destruct (label_eqb i x); cbn; now rewrite IH.
Qed.

Lemma align_mask_not mindex mask index :
  align_mask mindex (map negb mask) index
  = option_map (map negb) (align_mask mindex mask index).
Proof.
  induction index as [|x index IH]; cbn; [reflexivity|].
  rewrite mask_lookup_not, IH.
  destruct (mask_lookup mindex mask x) as [|b bs]; cbn; [reflexivity|].
  destruct (align_mask mindex mask index); cbn; [|reflexivity].
  now rewrite map_app.
Qed.

Lemma aligned_mask_not index (m : Series bool) :
  aligned_mask index (series_not m)
  = result_map (map negb) (aligned_mask index m).
Proof.
  unfold aligned_mask, series_not. cbn [s_index s_values].
  destruct (labels_eqb (s_index m) index); [reflexivity|].
  rewrite align_mask_not.
  destruct (align_mask (s_index m) (s_values m) index) as [bs|]; cbn;
    [|reflexivity].
  rewrite length_map.
  now destruct (Nat.eqb (List.length bs) (List.length index)).
Qed.

(** Taking the complement of the indexer fails exactly when taking the
    indexer fails, and with the same error. *)
Lemma loc_mask_not_cases {V} (s : Series V) (m : Series bool) :
  (exists r r', loc_mask s m = Ok r /\ loc_mask s (series_not m) = Ok r') \/
  (exists e, loc_mask s m = Raise e /\ loc_mask s (series_not m) = Raise e).
Proof.
  unfold loc_mask. rewrite aligned_mask_not.
  destruct (aligned_mask (s_index s) m); cbn; [left|right]; eauto.
Qed.

(** The distance of one level is the distance of the other level with the
    two samples exchanged. *)
Lemma distance_other_level (x w : Series R) (a : Series Z) lo hi repr f :
  sort_unique (s_values a) = [lo; hi] ->
  calculate_distribution_distance_for_single_feature x w a lo
    (MetricCallable repr f)
  = calculate_distribution_distance_for_single_feature x w a hi
      (MetricCallable repr (swap_samples f)).
Proof.
  intros H. unfold calculate_distribution_distance_for_single_feature.
  cbn [rbind]. rewrite (series_eq_other_level a lo hi H).
  rewrite series_not_involutive.
  destruct (loc_mask_not_cases x (series_eq a hi))
    as [(xt & xu & -> & ->)|(e & -> & ->)]; [|reflexivity].
  destruct (loc_mask_not_cases w (series_eq a hi))
    as [(wt & wu & -> & ->)|(e & -> & ->)]; reflexivity.
Qed.

Lemma distance_ext (x w : Series R) (a : Series Z) level repr repr' f g :
  (forall x y wx wy, f x y wx wy = g x y wx wy) ->
  calculate_distribution_distance_for_single_feature x w a level
    (MetricCallable repr f)
  = calculate_distribution_distance_for_single_feature x w a level
      (MetricCallable repr' g).
Proof.
  intros Hfg. unfold calculate_distribution_distance_for_single_feature.
  cbn [rbind].
  destruct (loc_mask x (series_eq a level)); [|reflexivity].
  destruct (loc_mask w (series_eq a level)); [|reflexivity].
  destruct (loc_mask x (series_not (series_eq a level))); [|reflexivity].
  destruct (loc_mask w (series_not (series_eq a level))); [|reflexivity].
  cbn [rbind]. apply Hfg.
Qed.

Lemma distance_post (x w : Series R) (a : Series Z) level repr repr' f
    (h : cell -> cell) :
  calculate_distribution_distance_for_single_feature x w a level
    (MetricCallable repr' (fun x y wx wy => result_map h (f x y wx wy)))
  = result_map h
      (calculate_distribution_distance_for_single_feature x w a level
         (MetricCallable repr f)).
Proof.
  unfold calculate_distribution_distance_for_single_feature. cbn [rbind].
  destruct (loc_mask x (series_eq a level)); [|reflexivity].
  destruct (loc_mask w (series_eq a level)); [|reflexivity].
  destruct (loc_mask x (series_not (series_eq a level))); [|reflexivity].
  destruct (loc_mask w (series_not (series_eq a level))); reflexivity.
Qed.

(** ** Exchanging the two samples of a distance *)

Lemma cell_abs_opp (c : cell) : cell_abs (cell_opp c) = cell_abs c.
Proof.
  destruct c as [r| |rs]; cbn; [now rewrite Rabs_Ropp|reflexivity|].
  f_equal. rewrite map_map. apply map_ext. intros r. apply Rabs_Ropp.
Qed.

Lemma registry_smd (x w : Series R) (a : Series Z) level :
  calculate_distribution_distance_for_single_feature x w a level
    (MetricName "smd")
  = calculate_distribution_distance_for_single_feature x w a level
      (MetricCallable "smd" calc_weighted_standardized_mean_differences).
Proof. reflexivity. Qed.

Lemma registry_abs_smd (x w : Series R) (a : Series Z) level :
  calculate_distribution_distance_for_single_feature x w a level
    (MetricName "abs_smd")
  = result_map cell_abs
      (calculate_distribution_distance_for_single_feature x w a level
         (MetricName "smd")).
Proof.
  rewrite registry_smd.
  rewrite <- (distance_post x w a level "smd" "abs_smd"
                calc_weighted_standardized_mean_differences cell_abs).
  reflexivity.
Qed.

Lemma registry_ks (x w : Series R) (a : Series Z) level :
  calculate_distribution_distance_for_single_feature x w a level
    (MetricName "ks")
  = calculate_distribution_distance_for_single_feature x w a level
      (MetricCallable "ks" calc_weighted_ks2samp).
Proof. reflexivity. Qed.

(** C8. With exactly two treatment levels, the distance of a covariate
    computed for one level is the distance computed for the other level
    with the two samples exchanged, whatever the distance function; for
    the registry this is the same function of [stat_utils] called on the
    exchanged samples. The two levels therefore agree under a distance
    that does not change when its samples are exchanged, but a signed
    distance, as [smd] is, gives the two levels opposite values, and only
    its absolute value, [abs_smd], agrees. *)
Theorem two_level_distances
    (x w : Series R) (a : Series Z) (lo hi : Z) :
  sort_unique (s_values a) = [lo; hi] ->
  (forall repr f,
     calculate_distribution_distance_for_single_feature x w a lo
       (MetricCallable repr f)
     = calculate_distribution_distance_for_single_feature x w a hi
         (MetricCallable repr (swap_samples f))) /\
  calculate_distribution_distance_for_single_feature x w a lo
    (MetricName "smd")
  = calculate_distribution_distance_for_single_feature x w a hi
      (MetricCallable "smd"
         (swap_samples calc_weighted_standardized_mean_differences)) /\
  calculate_distribution_distance_for_single_feature x w a lo
    (MetricName "ks")
  = calculate_distribution_distance_for_single_feature x w a hi
      (MetricCallable "ks" (swap_samples calc_weighted_ks2samp)) /\
  ((forall x y wx wy,
      calc_weighted_standardized_mean_differences y x wy wx
      = result_map cell_opp
          (calc_weighted_standardized_mean_differences x y wx wy)) ->
   calculate_distribution_distance_for_single_feature x w a lo
     (MetricName "smd")
   = result_map cell_opp
       (calculate_distribution_distance_for_single_feature x w a hi
          (MetricName "smd")) /\
   calculate_distribution_distance_for_single_feature x w a lo
     (MetricName "abs_smd")
   = calculate_distribution_distance_for_single_feature x w a hi
       (MetricName "abs_smd")) /\
  ((forall x y wx wy,
      calc_weighted_ks2samp y x wy wx = calc_weighted_ks2samp x y wx wy) ->
   calculate_distribution_distance_for_single_feature x w a lo
     (MetricName "ks")
   = calculate_distribution_distance_for_single_feature x w a hi
       (MetricName "ks")).
Proof.
  intros H.
  assert (Hsmd : (forall x y wx wy,
                    calc_weighted_standardized_mean_differences y x wy wx
                    = result_map cell_opp
                        (calc_weighted_standardized_mean_differences
                           x y wx wy)) ->
                 calculate_distribution_distance_for_single_feature x w a lo
                   (MetricName "smd")
                 = result_map cell_opp
                     (calculate_distribution_distance_for_single_feature
                        x w a hi (MetricName "smd"))).
  { intros Hs.
    rewrite !registry_smd, (distance_other_level x w a lo hi _ _ H).
    rewrite <- (distance_post x w a hi "smd" "smd"
                  calc_weighted_standardized_mean_differences cell_opp).
    apply distance_ext. intros x' y' wx wy. unfold swap_samples. apply Hs. }
  split; [|split; [|split; [|split]]].
  - intros repr f. now apply distance_other_level.
  - rewrite registry_smd. now apply distance_other_level.
  - rewrite registry_ks. now apply distance_other_level.
  - intros Hs. split; [now apply Hsmd|].
    rewrite !registry_abs_smd, (Hsmd Hs).
    destruct (calculate_distribution_distance_for_single_feature x w a hi
                (MetricName "smd")) as [v|e]; [|reflexivity].
    cbn [result_map]. now rewrite cell_abs_opp.
  - intros Hk.
    rewrite !registry_ks, (distance_other_level x w a lo hi _ _ H).
    apply distance_ext. intros x' y' wx wy. unfold swap_samples. apply Hk.
Qed.

(** ** calculate_covariate_balance *)

Lemma assign_row_keys rs c cells :
  map fst (assign_row rs c cells) = map fst rs.
Proof.
  unfold assign_row. rewrite map_map. apply map_ext.
  intros r. now destruct (key_eqb (fst r) [c]).
Qed.

Lemma assign_row_width rs c cells n :
  List.length cells = n ->
  Forall (fun r => List.length (snd r) = n) rs ->
  Forall (fun r => List.length (snd r) = n) (assign_row rs c cells).
Proof.
  intros Hc H. unfold assign_row. apply Forall_map.
  eapply Forall_impl; [|exact H]. intros r Hr.
  now destruct (key_eqb (fst r) [c]).
Qed.

Lemma balance_loop_shape index cols w a tv metric :
  forall table table',
    balance_loop index cols w a tv metric table = Ok table' ->
    map fst table' = map fst table /\
    (Forall (fun r => List.length (snd r) = 2) table ->
     Forall (fun r => List.length (snd r) = 2) table').
Proof.
  induction cols as [|[c vs] cols IH]; intros table table' H; cbn in H.
  - inversion H; subst. auto.
  - destruct (calculate_distribution_distance_for_single_feature
                _ w a tv metric) as [wd|]; [|discriminate].
    destruct (calculate_distribution_distance_for_single_feature
                _ _ a tv metric) as [ud|]; [|discriminate].
    cbn [rbind] in H. apply IH in H. destruct H as [Hk Hw].
    rewrite assign_row_keys in Hk. split; [exact Hk|].
    intros Hf. apply Hw. now apply assign_row_width.
Qed.

Lemma balance_loop_total index cols w a tv metric :
  (forall c, In c cols ->
     (exists v, calculate_distribution_distance_for_single_feature
                  (mkSeries (Some (fst c)) index (snd c)) w a tv metric = Ok v) /\
     (exists v, calculate_distribution_distance_for_single_feature
                  (mkSeries (Some (fst c)) index (snd c)) (unit_weights w)
                  a tv metric = Ok v)) ->
  forall table, exists table',
    balance_loop index cols w a tv metric table = Ok table'.
Proof.
  induction cols as [|[c vs] cols IH]; intros H table; cbn.
  - eexists. reflexivity.
  - destruct (H (c, vs) (or_introl eq_refl)) as [[wd Hwd] [ud Hud]].
    cbn [fst snd] in Hwd, Hud. rewrite Hwd. cbn [rbind].
    unfold unit_weights in Hud. rewrite Hud. cbn [rbind].
    apply IH. intros c' Hin. apply H. now right.
Qed.

(** The table of one treatment value has the two balance columns and one
    row, of two cells, per column of [X]. *)
Lemma distribution_distance_of_treatment_shape X a w metric tv t :
  distribution_distance_of_treatment X a w metric tv = Ok t ->
  index_names t = [None] /\ columns t = balance_columns /\
  map fst (rows t) = map (fun c => [fst c]) (x_columns X) /\
  Forall (fun r => List.length (snd r) = 2) (rows t).
Proof.
  unfold distribution_distance_of_treatment. intros H.
  destruct (balance_loop _ _ _ _ _ _ _) as [table|] eqn:E; [|discriminate].
  inversion H; subst. cbn.
  apply balance_loop_shape in E. destruct E as [Hk Hw].
  rewrite map_map in Hk. cbn in Hk.
  split; [reflexivity|]. split; [reflexivity|]. split; [exact Hk|].
  apply Hw. apply Forall_map. apply Forall_forall. reflexivity.
Qed.

Lemma map_nth_seq {A B} (g : A -> B) (l : list A) (d : A) :
  map (fun i => g (nth i l d)) (seq 0 (List.length l)) = map g l.
Proof.
  induction l as [|x l IH]; [reflexivity|].
  cbn [List.length seq map nth]. f_equal.
  rewrite <- seq_shift, map_map. exact IH.
Qed.

Lemma rows_rebuilt (rs : list (key * list cell)) (index : list key) :
  map fst rs = index ->
  map (fun i => (nth i index [], snd (nth i rs ([], []))))
      (seq 0 (List.length index)) = rs.
Proof.
  intros <-. rewrite length_map.
  transitivity (map (fun r : key * list cell => r) rs); [|apply map_id].
  rewrite <- (map_nth_seq (fun r => r) rs ([], [])).
  apply map_ext. intros i.
  change (@nil label) with (fst (@nil label, @nil cell)).
  rewrite map_nth. cbn [fst]. now destruct (nth i rs ([], [])).
Qed.

Lemma select_drop_first (cl ch : list cell) :
  List.length cl = 2 -> List.length ch = 2 ->
  select (cl ++ ch ++ []) [false; false; true; true] = ch.
Proof.
  destruct cl as [|c1 [|c2 [|]]]; try discriminate.
  destruct ch as [|d1 [|d2 [|]]]; try discriminate.
  reflexivity.
Qed.

(** With two levels, the result is the table of the larger level. *)
Lemma calculate_covariate_balance_two X a w metric lo hi t_lo t_hi :
  sort_unique (s_values a) = [lo; hi] ->
  distribution_distance_of_treatment X a w metric lo = Ok t_lo ->
  distribution_distance_of_treatment X a w metric hi = Ok t_hi ->
  calculate_covariate_balance X a w metric
  = Ok (mkDataFrame [Some (LStr "covariate")] [Some (metric_label metric)]
          balance_columns (rows t_hi)).
Proof.
  intros Hl Hlo Hhi. destruct (two_levels _ _ _ Hl) as [Hlt _].
  unfold calculate_covariate_balance. rewrite Hl.
  cbn [balance_tables]. rewrite Hlo, Hhi. cbn [rbind].
  unfold pd_concat_columns. cbn [rbind List.length Nat.eqb].
  rewrite (values_max_two lo hi Hlt).
  destruct (distribution_distance_of_treatment_shape _ _ _ _ _ _ Hlo)
    as (_ & Hclo & Hklo & Hwlo).
  destruct (distribution_distance_of_treatment_shape _ _ _ _ _ _ Hhi)
    as (_ & Hchi & Hkhi & Hwhi).
  unfold xs_columns. cbn [columns column_names index_names rows fst snd tl].
  cbn [flat_map fst snd]. rewrite Hclo, Hchi. unfold balance_columns.
  cbn [map app].
  cbn [label_eqb]. rewrite Z.eqb_refl.
  destruct (Z.eqb_spec lo hi) as [Heq|_]; [lia|].
  cbn [select map tl]. f_equal. f_equal.
  rewrite map_map. cbn [fst snd].
  etransitivity; [|exact (rows_rebuilt (rows t_hi) _ Hkhi)].
  rewrite length_map.
  apply map_ext_in. intros i Hi. apply in_seq in Hi. f_equal.
  apply select_drop_first.
  - assert (Hn : (i < List.length (rows t_lo))%nat).
    { rewrite <- (length_map fst), Hklo, length_map. lia. }
    rewrite Forall_forall in Hwlo. apply Hwlo. now apply nth_In.
  - assert (Hn : (i < List.length (rows t_hi))%nat).
    { rewrite <- (length_map fst), Hkhi, length_map. lia. }
    rewrite Forall_forall in Hwhi. apply Hwhi. now apply nth_In.
Qed.

Lemma calculate_covariate_balance_two_inv X a w metric lo hi df :
  sort_unique (s_values a) = [lo; hi] ->
  calculate_covariate_balance X a w metric = Ok df ->
  exists t_lo t_hi,
    distribution_distance_of_treatment X a w metric lo = Ok t_lo /\
    distribution_distance_of_treatment X a w metric hi = Ok t_hi.
Proof.
  intros Hl H. unfold calculate_covariate_balance in H. rewrite Hl in H.
  cbn [balance_tables] in H.
  destruct (distribution_distance_of_treatment X a w metric lo) as [t_lo|];
    [|discriminate].
  destruct (distribution_distance_of_treatment X a w metric hi) as [t_hi|];
    [|discriminate].
  now exists t_lo, t_hi.
Qed.

Lemma distribution_distance_of_treatment_total X a w metric tv :
  (forall c, In c (x_columns X) ->
     (exists v, calculate_distribution_distance_for_single_feature
                  (column_series X c) w a tv metric = Ok v) /\
     (exists v, calculate_distribution_distance_for_single_feature
                  (column_series X c) (unit_weights w) a tv metric = Ok v)) ->
  exists t, distribution_distance_of_treatment X a w metric tv = Ok t.
Proof.
  intros H. unfold distribution_distance_of_treatment.
  destruct (balance_loop_total (x_index X) (x_columns X) w a tv metric H
              (map (fun c => ([fst c], [NaN; NaN])) (x_columns X)))
    as [table ->].
  eexists. reflexivity.
Qed.

Lemma label_eqb_refl (l : label) : label_eqb l l = true.
Proof. now apply label_eqb_eq. Qed.

Lemma labels_eqb_refl (l : list label) : labels_eqb l l = true.
Proof.
  induction l as [|x l IH]; [reflexivity|].
  cbn. now rewrite label_eqb_refl.
Qed.

Lemma loc_mask_aligned {V} (s : Series V) (m : Series bool) :
  s_index m = s_index s -> exists r, loc_mask s m = Ok r.
Proof.
  intros H. unfold loc_mask, aligned_mask.
  rewrite H, labels_eqb_refl. eexists. reflexivity.
Qed.

Lemma calculate_covariate_balance_two_total X a w metric lo hi :
  sort_unique (s_values a) = [lo; hi] ->
  (forall treatment_value c,
     In treatment_value [lo; hi] -> In c (x_columns X) ->
     (exists v, calculate_distribution_distance_for_single_feature
                  (column_series X c) w a treatment_value metric = Ok v) /\
     (exists v, calculate_distribution_distance_for_single_feature
                  (column_series X c) (unit_weights w) a treatment_value
                  metric = Ok v)) ->
  exists df, calculate_covariate_balance X a w metric = Ok df.
Proof.
  intros Hl Hd.
  destruct (distribution_distance_of_treatment_total X a w metric lo)
    as [t_lo Hlo].
  { intros c Hc. apply Hd; [now left|exact Hc]. }
  destruct (distribution_distance_of_treatment_total X a w metric hi)
    as [t_hi Hhi].
  { intros c Hc. apply Hd; [right; now left|exact Hc]. }
  eexists. now apply (calculate_covariate_balance_two _ _ _ _ lo hi t_lo t_hi).
Qed.

(** C5. With exactly two distinct treatment levels,
    [calculate_covariate_balance] returns the table computed for the larger
    level alone: its columns are "weighted" and "unweighted", without the
    treatment level above them, and it has one row per covariate column of
    [X], labelled by the column. It returns whenever the distances of the
    columns, weighted and unweighted, are computed for both levels. *)
Theorem covariate_balance_two_levels
    (X : Covariates) (a : Series Z) (w : Series R) (metric : metric_arg) :
  List.length (sort_unique (s_values a)) = 2%nat ->
  let treatment_values := sort_unique (s_values a) in
  (forall df,
     calculate_covariate_balance X a w metric = Ok df ->
     (exists t,
        distribution_distance_of_treatment X a w metric
          (values_max treatment_values) = Ok t /\
        rows df = rows t) /\
     columns df = [[LStr "weighted"]; [LStr "unweighted"]] /\
     map fst (rows df) = map (fun c => [fst c]) (x_columns X) /\
     List.length (rows df) = List.length (x_columns X) /\
     Forall (fun r => List.length (snd r) = 2%nat) (rows df)) /\
  ((forall treatment_value c,
      In treatment_value treatment_values -> In c (x_columns X) ->
      (exists v, calculate_distribution_distance_for_single_feature
                   (column_series X c) w a treatment_value metric = Ok v) /\
      (exists v, calculate_distribution_distance_for_single_feature
                   (column_series X c) (unit_weights w) a treatment_value
                   metric = Ok v)) ->
   exists df, calculate_covariate_balance X a w metric = Ok df).
Proof.
  intros Hlen tvs. subst tvs.
  destruct (sort_unique (s_values a)) as [|lo [|hi [|]]] eqn:Hl;
    try discriminate.
  destruct (two_levels _ _ _ Hl) as [Hlt _]. split.
  - intros df H.
    destruct (calculate_covariate_balance_two_inv _ _ _ _ _ _ _ Hl H)
      as (t_lo & t_hi & Hlo & Hhi).
    rewrite (calculate_covariate_balance_two _ _ _ _ _ _ _ _ Hl Hlo Hhi) in H.
    inversion H; subst. cbn [rows columns].
    destruct (distribution_distance_of_treatment_shape _ _ _ _ _ _ Hhi)
      as (_ & _ & Hk & Hw).
    rewrite (values_max_two lo hi Hlt).
    split; [now exists t_hi|]. split; [reflexivity|]. split; [exact Hk|].
    split; [|exact Hw].
    rewrite <- (length_map fst), Hk. apply length_map.
  - now apply calculate_covariate_balance_two_total.
Qed.

(** ** WeightEvaluatorPredictions.calculate_metrics *)

(** C4. [weight_evaluator.py] cannot be imported: it imports [Scorer]
    from [metrics.py], which binds no such name (the scorer is the module's
    function [score_binary_prediction]), and binding it is all that is
    missing. So [calculate_metrics] returns no pair: whatever the bundle,
    reaching it raises [ImportError], with no score and no warning. *)
Theorem calculate_metrics_import_fails
    (self : WeightEvaluatorPredictions) (X : Covariates) (a_true : Series Z)
    (metrics_to_evaluate : option (dict metric_func)) :
  import_weight_evaluator = Raise (ImportError "Scorer") /\
  weight_evaluator_imports ("Scorer" :: metrics_module) = Ok tt /\
  calculate_metrics self X a_true metrics_to_evaluate
    = (Raise (ImportError "Scorer"), []).
Proof. repeat split. Qed.

(** With [weight_evaluator.py] imported, [calculate_metrics] returns the
    pair of the binary-prediction score, computed with [a_true] as the
    true labels, [weight_for_being_treated] as the continuous score and
    [treatment_assignment_pred] as the discrete prediction and laid out as
    a table of one row, and of the covariate-balance table computed with
    [weight_by_treatment_assignment] as the weights. *)
Lemma calculate_metrics_once_imported (metrics_names : list string)
    (self : WeightEvaluatorPredictions) (X : Covariates) (a_true : Series Z)
    (metrics_to_evaluate : option (dict metric_func)) :
  weight_evaluator_imports metrics_names = Ok tt ->
  let scored :=
    score_binary_prediction (IntSeries a_true)
      (option_map FloatSeries (weight_for_being_treated self))
      (option_map IntSeries (treatment_assignment_pred self))
      None metrics_to_evaluate true in
  let balanced :=
    calculate_covariate_balance X a_true
      (weight_by_treatment_assignment self) (MetricName "abs_smd") in
  (forall s w cb,
     scored = (Ok s, w) -> balanced = Ok cb ->
     calculate_metrics_given metrics_names self X a_true metrics_to_evaluate
       = (Ok (WeightEvaluatorScores (series_to_row s) cb), w)) /\
  (forall r w,
     calculate_metrics_given metrics_names self X a_true metrics_to_evaluate
       = (Ok r, w) ->
     exists s cb,
       scored = (Ok s, w) /\ balanced = Ok cb /\
       r = WeightEvaluatorScores (series_to_row s) cb).
Proof.
  intros Himp scored balanced. split.
  - intros s w cb Hs Hb. unfold calculate_metrics_given.
    fold scored. fold balanced. rewrite Himp, Hs, Hb.
    cbn. now rewrite app_nil_r.
  - intros r w H. unfold calculate_metrics_given in H.
    fold scored in H. fold balanced in H. rewrite Himp in H.
    apply bind_ok_inv in H. destruct H as (u & w0 & w0' & Hu & H & ->).
    unfold lift in Hu. inversion Hu; subst.
    apply bind_ok_inv in H. destruct H as (s & w1 & w2 & Hs & H & ->).
    apply bind_ok_inv in H. destruct H as (cb & w3 & w4 & Hb & H & ->).
    unfold lift in Hb. inversion Hb; subst. inversion H; subst.
    exists s, cb. cbn. now rewrite !app_nil_r.
Qed.

(** ** Concatenation of frames *)

Lemma as_frames_keyed_tables (l : list (label * DataFrame)) :
  as_frames (keyed_tables l) = Ok l.
Proof.
  induction l as [|[k t] l IH]; [reflexivity|].
  cbn. unfold keyed_tables in IH. rewrite IH. reflexivity.
Qed.

(** A concatenation of tables goes through exactly when the levels of
    their row labels fit and their columns can be combined, and then gives
    the stacked frame. *)
Lemma pd_concat_index_tables (l : list (label * DataFrame)) name :
  pd_concat_index (keyed_tables l) name
  = names <~ concat_index_names (map snd l) ;;
    cols <~ concat_columns_index (map snd l) ;; Ok (stacked l name).
Proof.
  destruct l as [|kt l]; [reflexivity|].
  unfold pd_concat_index.
  change (keyed_tables (kt :: l))
    with ((fst kt, ScoreTable (snd kt)) :: keyed_tables l).
  change ((fst kt, ScoreTable (snd kt)) :: keyed_tables l)
    with (keyed_tables (kt :: l)).
  rewrite as_frames_keyed_tables. cbn [rbind].
  unfold stacked, concat_names, concat_columns.
  destruct (concat_index_names (map snd (kt :: l))); [|reflexivity].
  cbn [rbind].
  now destruct (concat_columns_index (map snd (kt :: l))).
Qed.

Lemma pd_concat_index_defined (l : list (label * DataFrame)) name :
  concat_defined (map snd l) ->
  pd_concat_index (keyed_tables l) name = Ok (stacked l name).
Proof.
  intros [[names Hn] [cols Hc]].
  now rewrite pd_concat_index_tables, Hn, Hc.
Qed.

Lemma pd_concat_index_defined_inv (l : list (label * DataFrame)) name t :
  pd_concat_index (keyed_tables l) name = Ok t ->
  concat_defined (map snd l).
Proof.
  rewrite pd_concat_index_tables. intros H.
  apply rbind_ok_inv in H. destruct H as (names & Hn & H).
  apply rbind_ok_inv in H. destruct H as (cols & Hc & _).
  split; eauto.
Qed.

Lemma enumerate_from_keyed {A B} (f : A -> B) (l : list A) i :
  enumerate_from i (map f l)
  = map (fun kt => (fst kt, f (snd kt))) (enumerate_from i l).
Proof.
  revert i. induction l as [|x l IH]; intros i; [reflexivity|].
  cbn. now rewrite IH.
Qed.

Lemma enumerate_from_snd {A} (l : list A) i :
  map snd (enumerate_from i l) = l.
Proof.
  revert i. induction l as [|x l IH]; intros i; [reflexivity|].
  cbn. now rewrite IH.
Qed.


(** The first step of the aggregation, on tables. *)
Lemma concat_folds_tables (scores : dict (list DataFrame)) :
  (forall kv, In kv scores -> concat_defined (snd kv)) ->
  concat_folds (as_score_tables scores) = Ok (keyed_tables (stacked_folds scores)).
Proof.
  induction scores as [|[p ts] scores IH]; intros H; [reflexivity|].
  cbn [as_score_tables map fst snd concat_folds].
  rewrite (enumerate_from_keyed ScoreTable ts 0).
  fold (keyed_tables (enumerate_from 0 ts)).
  rewrite pd_concat_index_defined.
  2:{ rewrite enumerate_from_snd. exact (H (p, ts) (or_introl eq_refl)). }
  cbn [rbind].
  fold (as_score_tables scores). rewrite IH.
  - reflexivity.
  - intros kv Hin. apply H. now right.
Qed.

Lemma concat_folds_tables_inv (scores : dict (list DataFrame)) objs :
  concat_folds (as_score_tables scores) = Ok objs ->
  forall kv, In kv scores -> concat_defined (snd kv).
Proof.
  revert objs. induction scores as [|[p ts] scores IH]; intros objs H kv Hin;
    [contradiction|].
  cbn [as_score_tables map fst snd concat_folds] in H.
  rewrite (enumerate_from_keyed ScoreTable ts 0) in H.
  fold (keyed_tables (enumerate_from 0 ts)) in H.
  apply rbind_ok_inv in H. destruct H as (t & Ht & H).
  apply pd_concat_index_defined_inv in Ht.
  rewrite enumerate_from_snd in Ht.
  apply rbind_ok_inv in H. destruct H as (objs' & E' & _).
  fold (as_score_tables scores) in E'.
  destruct Hin as [<-|Hin]; [exact Ht|].
  now apply (IH objs').
Qed.

(** The aggregation of tables: when the concatenation goes through at
    both steps, the phases stacked over the stacked folds. *)
Lemma combine_fold_scores_tables (scores : dict (list DataFrame)) :
  (forall kv, In kv scores -> concat_defined (snd kv)) ->
  concat_defined (map snd (stacked_folds scores)) ->
  _combine_fold_scores (as_score_tables scores)
  = Ok (stacked (stacked_folds scores) (LStr "phase")).
Proof.
  intros H1 H2. unfold _combine_fold_scores.
  rewrite (concat_folds_tables scores H1). cbn [rbind].
  now apply pd_concat_index_defined.
Qed.

(** *** The level names of a concatenation *)





(** *** The columns of a concatenation *)








(** *** Rows laid out for other columns *)







(** *** The rows of the aggregate *)

Lemma map_flat_map {A B C} (g : B -> C) (f : A -> list B) (l : list A) :
  map g (flat_map f l) = flat_map (fun x => map g (f x)) l.
Proof.
  induction l as [|x l IH]; [reflexivity|].
  cbn. now rewrite map_app, IH.
Qed.

Lemma flat_map_map {A B C} (f : B -> list C) (g : A -> B) (l : list A) :
  flat_map f (map g l) = flat_map (fun x => f (g x)) l.
Proof.
  induction l as [|x l IH]; [reflexivity|].
  cbn. now rewrite IH.
Qed.



(** The rows of the stacked phases, in terms of the rows of the tables:
    each row under its phase and fold, laid out for the columns of its
    phase and then for the columns of the aggregate. *)
Lemma stacked_phases_rows (scores : dict (list DataFrame)) :
  rows (stacked (stacked_folds scores) (LStr "phase"))
  = flat_map
      (fun kv =>
         flat_map
           (fun it =>
              map (fun r =>
                     (LStr (fst kv) :: fst it :: fst r,
                      conform (concat_columns (snd kv))
                        (concat_columns (map snd (stacked_folds scores)))
                        (conform (columns (snd it)) (concat_columns (snd kv))
                           (snd r))))
                  (rows (snd it)))
           (enumerate_from 0 (snd kv)))
      scores.
Proof.
  cbn [stacked rows].
  set (cols := concat_columns (map snd (stacked_folds scores))).
  unfold stacked_folds. rewrite flat_map_map.
  apply flat_map_ext. intros [p ts].
  unfold keyed_rows at 1. cbn [fst snd columns rows stacked].
  rewrite enumerate_from_snd, map_flat_map.
  apply flat_map_ext. intros it.
  unfold keyed_rows. rewrite map_map. reflexivity.
Qed.

Lemma enumerated_rows_length {B} (g : label -> key * list cell -> B)
    (ts : list DataFrame) i :
  List.length
    (flat_map (fun it => map (g (fst it)) (rows (snd it))) (enumerate_from i ts))
  = list_sum (map (fun t => List.length (rows t)) ts).
Proof.
  revert i. induction ts as [|t ts IH]; intros i; [reflexivity|].
  cbn [enumerate_from flat_map map list_sum fst snd].
  now rewrite length_app, length_map, IH.
Qed.

Lemma list_sum_map_flat_map {A B} (h : B -> nat) (g : A -> list B)
    (l : list A) :
  list_sum (map h (flat_map g l))
  = list_sum (map (fun x => list_sum (map h (g x))) l).
Proof.
  induction l as [|x l IH]; [reflexivity|].
  simpl. now rewrite map_app, list_sum_app, IH.
Qed.

Lemma labelled_rows_length (scores : dict (list DataFrame)) :
  List.length (labelled_rows scores) = row_count scores.
Proof.
  unfold labelled_rows, row_count, tables_of.
  rewrite length_flat_map, list_sum_map_flat_map. f_equal.
  apply map_ext. intros [p ts].
  apply (enumerated_rows_length
           (fun i r => (LStr p :: i :: fst r, snd r)) ts 0).
Qed.

Lemma stacked_phases_keys (scores : dict (list DataFrame)) :
  map fst (rows (stacked (stacked_folds scores) (LStr "phase")))
  = map fst (labelled_rows scores).
Proof.
  rewrite stacked_phases_rows. unfold labelled_rows.
  rewrite !map_flat_map. apply flat_map_ext. intros kv.
  rewrite !map_flat_map. apply flat_map_ext. intros it.
  now rewrite !map_map.
Qed.



(** *** _combine_fold_scores *)





Lemma combine_fold_scores_tables_inv (scores : dict (list DataFrame)) out :
  _combine_fold_scores (as_score_tables scores) = Ok out ->
  scores <> [] /\
  (forall kv, In kv scores -> concat_defined (snd kv)) /\
  concat_defined (map snd (stacked_folds scores)) /\
  out = stacked (stacked_folds scores) (LStr "phase").
Proof.
  intros H. split; [intros ->; discriminate|].
  pose proof H as H'. unfold _combine_fold_scores in H'.
  apply rbind_ok_inv in H'. destruct H' as (objs & Hobjs & Hout).
  pose proof (concat_folds_tables_inv scores objs Hobjs) as H1.
  rewrite (concat_folds_tables scores H1) in Hobjs.
  inversion Hobjs; subst objs.
  pose proof (pd_concat_index_defined_inv _ _ _ Hout) as H2.
  split; [exact H1|]. split; [exact H2|].
  rewrite (combine_fold_scores_tables scores H1 H2) in H. now inversion H.
Qed.


(** ** The loops of score_cv *)

Lemma dict_append_mid {A} (pre post : dict (list A)) k l v :
  ~ In k (keys pre) ->
  dict_append (pre ++ (k, l) :: post) k v = Ok (pre ++ (k, l ++ [v]) :: post).
Proof.
  intros Hk. unfold dict_append, dict_item.
  assert (Hget : dict_get (pre ++ (k, l) :: post) k = Some l).
  { induction pre as [|[k' l'] pre IH]; cbn.
    - now rewrite String.eqb_refl.
    - destruct (String.eqb_spec k' k) as [->|Hne].
      + exfalso. apply Hk. now left.
      + apply IH. intros Hin. apply Hk. now right. }
  rewrite Hget. cbn [rbind]. f_equal. clear Hget.
  induction pre as [|[k' l'] pre IH]; cbn.
  - now rewrite String.eqb_refl.
  - destruct (String.eqb_spec k' k) as [->|Hne].
    + exfalso. apply Hk. now left.
    + f_equal. apply IH. intros Hin. apply Hk. now right.
Qed.

(** Appending one score per key, in the order of the keys, adds one score
    to each list. *)
Lemma append_all_row {A} (post : dict (list A)) :
  forall (pre : dict (list A)) (rs : list A),
    NoDup (keys (pre ++ post)) ->
    List.length rs = List.length post ->
    append_all (pre ++ post) (combine (keys post) rs)
    = Ok (pre ++ append_row post rs).
Proof.
  induction post as [|[k l] post IH]; intros pre rs Hnd Hlen.
  - destruct rs; [reflexivity|discriminate].
  - destruct rs as [|v rs]; [discriminate|].
    cbn [keys map fst combine append_all].
    rewrite dict_append_mid.
    + cbn [rbind].
      change (pre ++ (k, l ++ [v]) :: post)
        with (pre ++ [(k, l ++ [v])] ++ post).
      rewrite app_assoc. fold (keys post). rewrite IH.
      * rewrite <- app_assoc. reflexivity.
      * rewrite <- app_assoc. cbn [app].
        unfold keys in *. rewrite map_app in *. exact Hnd.
      * now inversion Hlen.
    + unfold keys in Hnd. rewrite map_app in Hnd. cbn in Hnd.
      apply NoDup_remove_2 in Hnd. intros Hin. apply Hnd.
      apply in_or_app. now left.
Qed.

Lemma append_row_keys {A} (d : dict (list A)) (rs : list A) :
  List.length rs = List.length d -> keys (append_row d rs) = keys d.
Proof.
  revert rs. induction d as [|[k l] d IH]; intros [|v rs] H;
    try discriminate; [reflexivity|].
  cbn. f_equal. apply IH. now inversion H.
Qed.

Lemma append_row_nth {A} (d : dict (list A)) (rs : list A) k phase l s :
  nth_error d k = Some (phase, l) -> nth_error rs k = Some s ->
  nth_error (append_row d rs) k = Some (phase, l ++ [s]).
Proof.
  revert rs k. induction d as [|[k' l'] d IH]; intros [|v rs] [|k] Hd Hr;
    cbn in *; try discriminate.
  - now inversion Hd; inversion Hr.
  - now apply IH.
Qed.

(** The lists after the rows [rss] have been appended, one row per fold:
    list [k] has gained entry [k] of each row, in order. *)
Lemma append_rows_nth {A} (rss : list (list A)) :
  forall (d : dict (list A)) k phase l,
    (forall rs, In rs rss -> List.length rs = List.length d) ->
    nth_error d k = Some (phase, l) ->
    exists col,
      nth_error (fold_left append_row rss d) k = Some (phase, l ++ col) /\
      List.length col = List.length rss /\
      forall j rs, nth_error rss j = Some rs ->
        nth_error col j = nth_error rs k.
Proof.
  induction rss as [|rs rss IH]; intros d k phase l Hlen Hd.
  - exists []. rewrite app_nil_r. split; [exact Hd|]. split; [reflexivity|].
    intros [|j] rs H; discriminate.
  - assert (Hk : (k < List.length rs)%nat).
    { rewrite (Hlen rs (or_introl eq_refl)).
      apply nth_error_Some. now rewrite Hd. }
    destruct (nth_error rs k) as [s|] eqn:Hs;
      [|apply nth_error_None in Hs; lia].
    cbn [fold_left].
    destruct (IH (append_row d rs) k phase (l ++ [s])) as (col & Hn & Hl & Hc).
    + intros rs' Hin. rewrite (Hlen rs' (or_intror Hin)).
      rewrite <- (length_map fst (append_row d rs)).
      fold (keys (append_row d rs)). rewrite append_row_keys.
      * unfold keys. now rewrite length_map.
      * now apply Hlen; left.
    + now apply append_row_nth.
    + exists (s :: col). rewrite <- app_assoc in Hn. split; [exact Hn|].
      split; [cbn; now rewrite Hl|].
      intros [|j] rs' H; cbn in H |- *.
      * inversion H; subst. now rewrite Hs.
      * now apply Hc.
Qed.

Lemma append_rows_keys {A} (rss : list (list A)) :
  forall (d : dict (list A)),
    (forall rs, In rs rss -> List.length rs = List.length d) ->
    keys (fold_left append_row rss d) = keys d.
Proof.
  induction rss as [|rs rss IH]; intros d Hlen; [reflexivity|].
  cbn [fold_left].
  assert (Hk : keys (append_row d rs) = keys d).
  { apply append_row_keys. apply Hlen. now left. }
  rewrite IH; [exact Hk|].
  intros rs' Hin. rewrite (Hlen rs' (or_intror Hin)).
  rewrite <- (length_map fst (append_row d rs)), <- (length_map fst d).
  fold (keys (append_row d rs)) (keys d). now rewrite Hk.
Qed.

Lemma lift_ok_inv {A} (r : result A) (x : A) (w : list string) :
  lift r = (Ok x, w) -> r = Ok x /\ w = [].
Proof. unfold lift. intros H. now inversion H. Qed.

Lemma slice_fold_inv X a y train_idx valid_idx data :
  slice_fold X a y train_idx valid_idx = Ok data ->
  exists Xt at_ yt Xv av yv,
    frame_iloc X train_idx = Ok Xt /\ series_iloc a train_idx = Ok at_ /\
    series_iloc y train_idx = Ok yt /\
    frame_iloc X valid_idx = Ok Xv /\ series_iloc a valid_idx = Ok av /\
    series_iloc y valid_idx = Ok yv /\
    data = mkFoldData (Xt, at_, yt) (Xv, av, yv).
Proof.
  unfold slice_fold. intros H.
  apply rbind_ok_inv in H. destruct H as (Xt & HXt & H).
  apply rbind_ok_inv in H. destruct H as (at_ & Hat & H).
  apply rbind_ok_inv in H. destruct H as (yt & Hyt & H).
  apply rbind_ok_inv in H. destruct H as (Xv & HXv & H).
  apply rbind_ok_inv in H. destruct H as (av & Hav & H).
  apply rbind_ok_inv in H. destruct H as (yv & Hyv & H).
  inversion H; subst. now exists Xt, at_, yt, Xv, av, yv.
Qed.

(** Scoring a phase on the slices that [score_cv] prepared for a fold is
    scoring it on the data sliced by the indices of the phase. *)
Lemma phase_step predictions X a y m i train_idx valid_idx data phase
    X_fold a_fold y_fold :
  slice_fold X a y train_idx valid_idx = Ok data ->
  data_item data phase = Ok (X_fold, a_fold, y_fold) ->
  (phase = "train" \/ phase = "valid") /\
  score_fold_phase predictions X a y m i (train_idx, valid_idx) phase
  = (phase_predictions <- lift (dict_item predictions phase) ;;
     prediction <- lift (list_item phase_predictions i) ;;
     score_estimation prediction X_fold a_fold y_fold m).
Proof.
  intros Hs Hd. apply slice_fold_inv in Hs.
  destruct Hs as (Xt & at_ & yt & Xv & av & yv
                  & HXt & Hat & Hyt & HXv & Hav & Hyv & ->).
  unfold data_item in Hd. unfold score_fold_phase, phase_indices.
  destruct (String.eqb_spec phase "train") as [->|Hnt].
  - cbn in Hd. inversion Hd; subst. split; [now left|].
    cbn [fst]. rewrite HXt, Hat, Hyt.
    now rewrite !(bind_lift_ok _ _ _ eq_refl).
  - destruct (String.eqb_spec phase "valid") as [->|Hnv]; [|discriminate].
    cbn in Hd. inversion Hd; subst. split; [now right|].
    cbn [snd]. rewrite HXv, Hav, Hyv.
    now rewrite !(bind_lift_ok _ _ _ eq_refl).
Qed.

(** What one pass over the phases has done when it ends normally: each
    phase, which is "train" or "valid", was scored on its slice of the
    fold, the scores were appended in the order of the phases, and
    [fold_scores] holds the last of them. *)
Lemma score_cv_phases_inv predictions X a y m i train_idx valid_idx data :
  slice_fold X a y train_idx valid_idx = Ok data ->
  forall phases st st' w,
    score_cv_phases predictions m data i phases st = (Ok st', w) ->
    exists rs,
      Forall2
        (fun phase s =>
           (phase = "train" \/ phase = "valid") /\
           exists wi,
             score_fold_phase predictions X a y m i (train_idx, valid_idx) phase
             = (Ok s, wi))
        phases rs /\
      append_all (fst st) (combine phases rs) = Ok (fst st') /\
      snd st' = last_assigned (snd st) rs.
Proof.
  intros Hs. induction phases as [|phase phases IH]; intros st st' w H.
  - cbn in H. inversion H; subst. exists []. repeat split. constructor.
  - cbn [score_cv_phases] in H.
    apply bind_ok_inv in H. destruct H as ([[Xf af] yf] & w1 & w2 & Hd & H & ->).
    apply lift_ok_inv in Hd. destruct Hd as [Hd ->].
    apply bind_ok_inv in H. destruct H as (pp & w3 & w4 & Hpp & H & ->).
    apply lift_ok_inv in Hpp. destruct Hpp as [Hpp ->].
    apply bind_ok_inv in H. destruct H as (pr & w5 & w6 & Hpr & H & ->).
    apply lift_ok_inv in Hpr. destruct Hpr as [Hpr ->].
    apply bind_ok_inv in H. destruct H as (fs & w7 & w8 & Hfs & H & ->).
    apply bind_ok_inv in H. destruct H as (sc & w9 & w10 & Hsc & H & ->).
    apply lift_ok_inv in Hsc. destruct Hsc as [Hsc ->].
    apply IH in H. destruct H as (rs & Hrs & Happ & Hlast).
    cbn [fst snd] in Happ, Hlast.
    exists (fs :: rs). split; [|split].
    + constructor; [|exact Hrs].
      destruct (phase_step predictions X a y m i _ _ _ _ _ _ _ Hs Hd)
        as [Hph ->].
      split; [exact Hph|]. exists w7.
      rewrite (bind_lift_ok _ _ _ Hpp), (bind_lift_ok _ _ _ Hpr).
      exact Hfs.
    + cbn [combine append_all]. rewrite Hsc. exact Happ.
    + exact Hlast.
Qed.

Lemma Forall2_length_eq {A B} (P : A -> B -> Prop) l l' :
  Forall2 P l l' -> List.length l' = List.length l.
Proof. induction 1; cbn; congruence. Qed.

Lemma Forall2_nth_error_l {A B} (P : A -> B -> Prop) l l' k x :
  Forall2 P l l' -> nth_error l k = Some x ->
  exists y, nth_error l' k = Some y /\ P x y.
Proof.
  intros H. revert k. induction H as [|u v l l' Huv H IH]; intros [|k] Hk;
    cbn in Hk; try discriminate.
  - inversion Hk; subst. now exists v.
  - now apply IH.
Qed.

(** What the loop over the folds has done when it ends normally. *)
Lemma score_cv_folds_inv predictions X a y m phases :
  NoDup phases ->
  forall cv i st st' w,
    keys (fst st) = phases ->
    score_cv_folds predictions X a y m phases i cv st = (Ok st', w) ->
    exists rss,
      List.length rss = List.length cv /\
      (forall rs, In rs rss -> List.length rs = List.length phases) /\
      (forall j fold rs,
         nth_error cv j = Some fold -> nth_error rss j = Some rs ->
         Forall2
           (fun phase s =>
              (phase = "train" \/ phase = "valid") /\
              exists wi,
                score_fold_phase predictions X a y m (i + j) fold phase
                = (Ok s, wi))
           phases rs) /\
      fst st' = fold_left append_row rss (fst st) /\
      snd st' = fold_left last_assigned rss (snd st).
Proof.
  intros Hnd. induction cv as [|[train_idx valid_idx] cv IH];
    intros i st st' w Hk H.
  - cbn in H. inversion H; subst. exists []. repeat split.
    + intros rs [].
    + intros [|j] fold rs Hc; discriminate.
  - cbn [score_cv_folds] in H.
    apply bind_ok_inv in H. destruct H as (data & w1 & w2 & Hd & H & ->).
    apply lift_ok_inv in Hd. destruct Hd as [Hd ->].
    apply bind_ok_inv in H. destruct H as (st1 & w3 & w4 & H1 & H & ->).
    destruct (score_cv_phases_inv _ _ _ _ _ _ _ _ _ Hd _ _ _ _ H1)
      as (rs & Hrs & Happ & Hlast).
    pose proof (Forall2_length_eq _ _ _ Hrs) as Hlen.
    assert (Hrow : fst st1 = append_row (fst st) rs).
    { rewrite <- Hk in Happ.
      pose proof (append_all_row (fst st) [] rs) as Hrow.
      cbn [app] in Hrow. rewrite Hrow in Happ.
      - now inversion Happ.
      - now rewrite Hk.
      - rewrite Hlen, <- Hk. unfold keys. now rewrite length_map. }
    assert (Hk1 : keys (fst st1) = phases).
    { rewrite Hrow, append_row_keys; [exact Hk|].
      rewrite Hlen, <- Hk. unfold keys. now rewrite length_map. }
    destruct (IH (S i) st1 st' w4 Hk1 H) as (rss & Hl & Hw & Hj & Hf & Hs).
    exists (rs :: rss). split; [cbn; now rewrite Hl|]. split; [|split; [|split]].
    + intros rs' [<-|Hin]; [exact Hlen|now apply Hw].
    + intros [|j] fold rs' Hc Hr; cbn in Hc, Hr.
      * inversion Hc; inversion Hr; subst. now rewrite Nat.add_0_r.
      * replace (i + S j)%nat with (S i + j)%nat by lia. now apply Hj.
    + cbn [fold_left]. now rewrite <- Hrow.
    + cbn [fold_left]. now rewrite <- Hlast.
Qed.

Lemma last_assigned_last {A} (rs : list A) (o : option A) :
  rs <> [] -> last_assigned o rs = nth_error rs (List.length rs - 1).
Proof.
  revert o. induction rs as [|s rs IH]; intros o H; [congruence|].
  unfold last_assigned in *. cbn [fold_left].
  destruct rs as [|s' rs]; [reflexivity|].
  rewrite IH; [|discriminate]. cbn [List.length].
  replace (S (S (List.length rs)) - 1)%nat with (S (List.length rs)) by lia.
  cbn. now rewrite Nat.sub_0_r.
Qed.

Lemma last_assigned_rows_none {A} (rss : list (list A)) :
  (forall rs, In rs rss -> rs = []) ->
  fold_left last_assigned rss None = None.
Proof.
  induction rss as [|rs rss IH]; intros H; [reflexivity|].
  cbn [fold_left]. rewrite (H rs (or_introl eq_refl)). cbn.
  apply IH. intros rs' Hin. apply H. now right.
Qed.

Lemma last_assigned_rows {A} (rss : list (list A)) :
  forall o,
    rss <> [] -> (forall rs, In rs rss -> rs <> []) ->
    exists rs,
      nth_error rss (List.length rss - 1) = Some rs /\
      fold_left last_assigned rss o = nth_error rs (List.length rs - 1).
Proof.
  induction rss as [|rs rss IH]; intros o Hne Hrs; [congruence|].
  cbn [fold_left].
  destruct rss as [|rs' rss].
  - exists rs. split; [reflexivity|]. cbn.
    apply last_assigned_last. apply Hrs. now left.
  - destruct (IH (last_assigned o rs)) as (r & Hn & Hf); [discriminate| |].
    + intros r Hin. apply Hrs. now right.
    + exists r. split; [|exact Hf].
      cbn [List.length] in Hn |- *.
      replace (S (S (List.length rss)) - 1)%nat
        with (S (List.length rss)) by lia.
      replace (S (List.length rss) - 1)%nat with (List.length rss) in Hn by lia.
      exact Hn.
Qed.

(** What the loops have collected when they end normally. *)
Lemma score_cv_folds_collected predictions X a y cv m scores fs w :
  NoDup (keys predictions) ->
  score_cv_folds predictions X a y m (keys predictions) 0 cv
    (map (fun phase => (phase, @nil scores_obj)) (keys predictions), None)
    = (Ok (scores, fs), w) ->
  match fs with
  | None => cv = [] \/ keys predictions = []
  | Some last => collected predictions X a y cv m scores last
  end.
Proof.
  intros Hnd Hl.
  set (phases := keys predictions) in *.
  set (scores0 := map (fun phase => (phase, @nil scores_obj)) phases) in *.
  assert (Hk0 : keys scores0 = phases).
  { unfold scores0, keys. rewrite map_map. apply map_id. }
  assert (Hlen0 : List.length scores0 = List.length phases).
  { unfold scores0. apply length_map. }
  destruct (score_cv_folds_inv predictions X a y m phases Hnd
              cv 0%nat (scores0, None) (scores, fs) w Hk0 Hl)
    as (rss & Hlen & Hw & Hj & Hsc & Hfs).
  cbn [fst snd] in Hsc, Hfs.
  assert (Hw0 : forall rs, In rs rss -> List.length rs = List.length scores0).
  { intros rs Hin. rewrite Hlen0. now apply Hw. }
  assert (Hkeys : keys scores = phases).
  { rewrite Hsc, append_rows_keys; assumption. }
  destruct fs as [last|].
  2:{ destruct cv as [|fold0 cv']; [now left|right].
      destruct phases as [|phase0 phases'] eqn:Ep; [reflexivity|exfalso].
      destruct (last_assigned_rows rss None) as (rs & Hn & Hf).
      - destruct rss; discriminate.
      - intros rs Hin Hrs. apply Hw in Hin. subst rs. discriminate.
      - rewrite <- Hfs in Hf. symmetry in Hf. apply nth_error_None in Hf.
        apply nth_error_In, Hw in Hn. cbn in Hn. lia. }
  assert (Hph : phases <> []).
  { intros Hp. rewrite (last_assigned_rows_none rss) in Hfs; [discriminate|].
    intros rs Hin. apply Hw in Hin. rewrite Hp in Hin.
    now destruct rs. }
  assert (Hrss : rss <> []).
  { intros ->. discriminate. }
  destruct (last_assigned_rows rss None Hrss) as (rs_last & Hn & Hf).
  { intros rs Hin Hrs. apply Hw in Hin. subst rs.
    destruct phases; [congruence|discriminate]. }
  rewrite <- Hfs in Hf.
  assert (Hcol : forall k phase,
            nth_error phases k = Some phase ->
            exists col,
              nth_error scores k = Some (phase, col) /\
              List.length col = List.length rss /\
              forall j rs, nth_error rss j = Some rs ->
                nth_error col j = nth_error rs k).
  { intros k phase Hp.
    destruct (append_rows_nth rss scores0 k phase [] Hw0) as (col & Hc).
    - unfold scores0.
      now apply (map_nth_error (fun phase => (phase, @nil scores_obj))).
    - exists col. now rewrite Hsc. }
  split; [exact Hkeys|]. split.
  - intros k phase Hp.
    destruct (Hcol k phase Hp) as (col & Hc & Hcl & Hcj).
    exists col. split; [exact Hc|]. split; [congruence|].
    intros i fold Hi.
    destruct (nth_error rss i) as [rs|] eqn:Hrs.
    + pose proof (Hj i fold rs Hi Hrs) as HF. cbn [Nat.add] in HF.
      destruct (Forall2_nth_error_l _ _ _ _ _ HF Hp)
        as (s & Hs & Hphase & wi & Hsf).
      split; [exact Hphase|]. exists s, wi. split; [|exact Hsf].
      now rewrite (Hcj i rs Hrs).
    + apply nth_error_None in Hrs.
      assert (i < List.length cv)%nat by (apply nth_error_Some; congruence).
      lia.
  - assert (Hlast_phase : exists phase,
              nth_error phases (List.length phases - 1) = Some phase).
    { destruct (nth_error phases (List.length phases - 1)) eqn:E;
        [eauto|].
      apply nth_error_None in E. destruct phases; [congruence|cbn in E; lia]. }
    destruct Hlast_phase as [phase Hp].
    destruct (Hcol _ phase Hp) as (col & Hc & Hcl & Hcj).
    exists phase, col. split; [exact Hc|].
    rewrite <- Hlen. rewrite (Hcj _ rs_last Hn).
    rewrite <- (Hw rs_last); [exact (eq_sym Hf)|].
    now apply (nth_error_In rss (List.length rss - 1)).
Qed.

(** The last step of [score_cv]: the aggregate for the type of
    [fold_scores], or the unbound variable. *)
Lemma score_cv_unfold predictions X a y cv m :
  score_cv predictions X a y cv m
  = (st <- score_cv_folds predictions X a y m (keys predictions) 0 cv
             (map (fun phase => (phase, @nil scores_obj)) (keys predictions),
              None) ;;
     match snd st with
     | None => raise (UnboundLocalError "fold_scores")
     | Some last => lift (aggregate_for last (fst st))
     end).
Proof.
  unfold score_cv, bind.
  destruct (score_cv_folds predictions X a y m (keys predictions) 0 cv _)
    as [[[scores [[t|ps cb]|]]|e] w];
    cbn [fst snd aggregate_for]; try reflexivity.
  unfold lift. now destruct (_combine_fold_scores scores).
Qed.





(** ** More on the two scorers *)

Section ScorerEdges.

Variables (y_true : array) (sample_weight : option array).

(** X1. With neither the continuous score nor the discrete prediction, no
    metric is called: whatever the metrics, [score_binary_prediction]
    returns the empty float series and warns about nothing. *)
Theorem score_binary_prediction_no_input
    (metrics_to_evaluate : option (dict metric_func))
    (only_numeric_metric : bool) :
  score_binary_prediction y_true None None sample_weight metrics_to_evaluate
    only_numeric_metric
  = (Ok (mkScoreSeries DFloat []), []).
Proof.
  unfold score_binary_prediction.
  fold (binary_metrics metrics_to_evaluate only_numeric_metric).
  assert (H : forall items scores,
            score_binary_loop y_true None None sample_weight items scores
            = (Ok scores, [])).
  { induction items as [|[n f] items IH]; intros scores; [reflexivity|].
    rewrite score_binary_loop_cons.
    replace (required_input n None None) with (@None array);
      [apply IH|].
    unfold required_input. now destruct (str_in n continuous_score_metrics). }
  rewrite H. reflexivity.
Qed.

Lemma score_binary_loop_app y_pred_proba y_pred (pre rest : dict metric_func) :
  forall scores mid w1,
    score_binary_loop y_true y_pred_proba y_pred sample_weight pre scores
      = (Ok mid, w1) ->
    score_binary_loop y_true y_pred_proba y_pred sample_weight (pre ++ rest)
      scores
    = (fst (score_binary_loop y_true y_pred_proba y_pred sample_weight rest mid),
       w1 ++ snd (score_binary_loop y_true y_pred_proba y_pred sample_weight
                    rest mid)).
Proof.
  induction pre as [|[n f] pre IH]; intros scores mid w1 H.
  - cbn in H. inversion H; subst. cbn [app].
    now destruct (score_binary_loop _ _ _ _ rest mid).
  - cbn [app]. rewrite score_binary_loop_cons in H |- *.
    destruct (required_input n y_pred_proba y_pred) as [p|]; [|now apply IH].
    destruct (f y_true p sample_weight) as [v|e]; [now apply IH|].
    destruct e; try discriminate.
    destruct (score_binary_loop _ _ _ _ pre (dict_set scores n NaN))
      as [r w'] eqn:E.
    cbn [fst snd] in H. inversion H; subst.
    rewrite (IH _ _ _ E). reflexivity.
Qed.

Lemma score_regression_loop_app y_pred (pre rest : dict metric_func) :
  forall metrics mid w1,
    score_regression_loop y_true y_pred sample_weight pre metrics
      = (Ok mid, w1) ->
    score_regression_loop y_true y_pred sample_weight (pre ++ rest) metrics
    = (fst (score_regression_loop y_true y_pred sample_weight rest mid),
       w1 ++ snd (score_regression_loop y_true y_pred sample_weight rest mid)).
Proof.
  induction pre as [|[n f] pre IH]; intros metrics mid w1 H.
  - cbn in H. inversion H; subst. cbn [app].
    now destruct (score_regression_loop _ _ _ rest mid).
  - cbn [app]. rewrite score_regression_loop_cons in H |- *.
    destruct (f y_true y_pred sample_weight) as [v|e]; [now apply IH|].
    destruct e; try discriminate.
    destruct (score_regression_loop _ _ _ pre (dict_set metrics n NaN))
      as [r w'] eqn:E.
    cbn [fst snd] in H. inversion H; subst.
    rewrite (IH _ _ _ E). reflexivity.
Qed.

End ScorerEdges.

Lemma binary_entries_In_inv y_true y_pred_proba y_pred sample_weight
    (items : dict metric_func) n c :
  In (n, c) (binary_entries y_true y_pred_proba y_pred sample_weight items) ->
  exists f input,
    In (n, f) items /\ required_input n y_pred_proba y_pred = Some input /\
    c = recorded (f y_true input sample_weight).
Proof.
  unfold binary_entries. intros H. apply in_flat_map in H.
  destruct H as ([n' f] & Hin & H). cbn [fst snd] in H.
  destruct (required_input n' y_pred_proba y_pred) as [input|] eqn:E;
    [|contradiction].
  destruct H as [H|[]]. inversion H; subst. now exists f, input.
Qed.

(** A run of a scoring loop that ends normally met validation failures
    only. *)
Lemma score_binary_loop_ok_validation y_true y_pred_proba y_pred sample_weight
    (items : dict metric_func) :
  forall scores out w,
    score_binary_loop y_true y_pred_proba y_pred sample_weight items scores
      = (Ok out, w) ->
    forall n f input,
      In (n, f) items -> required_input n y_pred_proba y_pred = Some input ->
      fails_validation_only (f y_true input sample_weight).
Proof.
  induction items as [|[n' f'] items IH]; intros scores out w H n f input Hin Hp;
    [contradiction|].
  rewrite score_binary_loop_cons in H.
  destruct Hin as [Heq|Hin].
  - inversion Heq; subst. rewrite Hp in H.
    intros e He. rewrite He in H. destruct e; try discriminate. eauto.
  - destruct (required_input n' y_pred_proba y_pred) as [p|];
      [|now apply (IH _ _ _ H n f input)].
    destruct (f' y_true p sample_weight) as [v|e];
      [now apply (IH _ _ _ H n f input)|].
    destruct e; try discriminate.
    destruct (score_binary_loop _ _ _ _ items (dict_set scores n' NaN))
      as [r w'] eqn:E.
    cbn [fst snd] in H. inversion H; subst.
    now apply (IH _ _ _ E n f input).
Qed.

Lemma score_regression_loop_ok_validation y_true y_pred sample_weight
    (items : dict metric_func) :
  forall metrics out w,
    score_regression_loop y_true y_pred sample_weight items metrics
      = (Ok out, w) ->
    forall n f, In (n, f) items ->
      fails_validation_only (f y_true y_pred sample_weight).
Proof.
  induction items as [|[n' f'] items IH]; intros metrics out w H n f Hin;
    [contradiction|].
  rewrite score_regression_loop_cons in H.
  destruct Hin as [Heq|Hin].
  - inversion Heq; subst.
    intros e He. rewrite He in H. destruct e; try discriminate. eauto.
  - destruct (f' y_true y_pred sample_weight) as [v|e];
      [now apply (IH _ _ _ H n f)|].
    destruct e; try discriminate.
    destruct (score_regression_loop _ _ _ items (dict_set metrics n' NaN))
      as [r w'] eqn:E.
    cbn [fst snd] in H. inversion H; subst.
    now apply (IH _ _ _ E n f).
Qed.

(** X2. The scores of [score_binary_prediction] are typed as objects
    exactly when some metric that was called returned an array; a metric
    that failed validation, recorded as NaN, leaves them floats. *)
Theorem score_binary_prediction_dtype
    (y_true : array) (y_pred_proba y_pred sample_weight : option array)
    (metrics_to_evaluate : option (dict metric_func))
    (only_numeric_metric : bool) (s : ScoreSeries) (w : list string) :
  NoDup (keys (binary_metrics metrics_to_evaluate only_numeric_metric)) ->
  score_binary_prediction y_true y_pred_proba y_pred sample_weight
    metrics_to_evaluate only_numeric_metric = (Ok s, w) ->
  (ss_dtype s = DObject <->
   exists n f input rs,
     called_metric y_pred_proba y_pred
       (binary_metrics metrics_to_evaluate only_numeric_metric) n f input /\
     f y_true input sample_weight = Ok (Array rs)).
Proof.
  intros Hnd H.
  destruct (score_binary_prediction_inv _ _ _ _ _ _ _ _ Hnd H) as [Hs _].
  unfold score_binary_prediction in H.
  fold (binary_metrics metrics_to_evaluate only_numeric_metric) in H.
  apply bind_ok_inv in H. destruct H as (out & w1 & w2 & Hl & Hr & ->).
  inversion Hr; subst. cbn [ss_dtype ss_items] in *. clear Hr.
  destruct (forallb isscalar (map snd out)) eqn:E; split.
  - discriminate.
  - intros (n & f & input & rs & [Hin Hp] & Hf). exfalso.
    rewrite forallb_forall in E.
    assert (Hc : In (Array rs) (map snd out)).
    { rewrite Hs. apply in_map_iff. exists (n, Array rs). split; [reflexivity|].
      pose proof (binary_entries_In y_true y_pred_proba y_pred sample_weight
                    _ n f input Hin Hp) as Hi.
      now rewrite Hf in Hi. }
    apply E in Hc. discriminate.
  - intros _.
    assert (Hex : exists c, In c (map snd out) /\ isscalar c = false).
    { clear Hs Hl. induction (map snd out) as [|c l IH]; [discriminate|].
      cbn in E. destruct (isscalar c) eqn:Ec.
      - destruct (IH E) as (c' & Hin & Hc'). exists c'. split; [now right|exact Hc'].
      - exists c. split; [now left|exact Ec]. }
    destruct Hex as (c & Hin & Hc). apply in_map_iff in Hin.
    destruct Hin as ([n c'] & Heq & Hin). cbn in Heq. subst c'.
    rewrite Hs in Hin. apply binary_entries_In_inv in Hin.
    destruct Hin as (f & input & Hin & Hp & ->).
    destruct (f y_true input sample_weight) as [[r| |rs]|e] eqn:Hf;
      try discriminate.
    exists n, f, input, rs. repeat split; assumption.
  - reflexivity.
Qed.

(** X3. [score_binary_prediction] absorbs validation failures only: when a
    metric that is called raises another exception, the call raises that
    exception, after the warnings of the failed validations before it, and
    no later metric is evaluated. *)
Theorem score_binary_prediction_propagates
    (y_true : array) (y_pred_proba y_pred sample_weight : option array)
    (pre post : dict metric_func) (n : string) (f : metric_func)
    (input : array) (e : exn) (only_numeric_metric : bool) :
  required_input n y_pred_proba y_pred = Some input ->
  f y_true input sample_weight = Raise e ->
  not_validation e ->
  (forall n' f' input',
     In (n', f') pre ->
     required_input n' y_pred_proba y_pred = Some input' ->
     fails_validation_only (f' y_true input' sample_weight)) ->
  forall post',
    score_binary_prediction y_true y_pred_proba y_pred sample_weight
      (Some (pre ++ (n, f) :: post)) only_numeric_metric
    = (Raise e, binary_warnings y_true y_pred_proba y_pred sample_weight pre) /\
    score_binary_prediction y_true y_pred_proba y_pred sample_weight
      (Some (pre ++ (n, f) :: post')) only_numeric_metric
    = score_binary_prediction y_true y_pred_proba y_pred sample_weight
        (Some (pre ++ (n, f) :: post)) only_numeric_metric.
Proof.
  intros Hp Hf He Hpre.
  assert (H : forall post0,
            score_binary_prediction y_true y_pred_proba y_pred sample_weight
              (Some (pre ++ (n, f) :: post0)) only_numeric_metric
            = (Raise e,
               binary_warnings y_true y_pred_proba y_pred sample_weight pre)).
  { intros post0. unfold score_binary_prediction.
    destruct (score_binary_loop_total y_true y_pred_proba y_pred sample_weight
                pre Hpre []) as (mid & w1 & Hl).
    rewrite (score_binary_loop_app _ _ _ _ _ _ _ _ _ Hl).
    destruct (score_binary_loop_inv _ _ _ _ _ _ _ _ Hl) as [_ ->].
    rewrite score_binary_loop_cons, Hp, Hf.
    destruct e; try (cbn; now rewrite app_nil_r).
    exfalso. now apply (He msg). }
  intros post'. split; [apply H|]. now rewrite !H.
Qed.

(** X4. [score_regression_prediction] absorbs validation failures only:
    another exception raised by a metric is raised by the call, after the
    warnings of the failed validations before it, and no later metric is
    evaluated. *)
Theorem score_regression_prediction_propagates
    (y_true y_pred : array) (sample_weight : option array)
    (pre post : dict metric_func) (n : string) (f : metric_func) (e : exn) :
  f y_true y_pred sample_weight = Raise e ->
  not_validation e ->
  (forall n' f',
     In (n', f') pre -> fails_validation_only (f' y_true y_pred sample_weight)) ->
  forall post',
    score_regression_prediction y_true y_pred sample_weight
      (Some (pre ++ (n, f) :: post))
    = (Raise e, regression_warnings y_true y_pred sample_weight pre) /\
    score_regression_prediction y_true y_pred sample_weight
      (Some (pre ++ (n, f) :: post'))
    = score_regression_prediction y_true y_pred sample_weight
        (Some (pre ++ (n, f) :: post)).
Proof.
  intros Hf He Hpre.
  assert (H : forall post0,
            score_regression_prediction y_true y_pred sample_weight
              (Some (pre ++ (n, f) :: post0))
            = (Raise e, regression_warnings y_true y_pred sample_weight pre)).
  { intros post0. unfold score_regression_prediction.
    replace (match pre ++ (n, f) :: post0 with
             | [] => REGRESSION_METRICS
             | _ :: _ => pre ++ (n, f) :: post0
             end) with (pre ++ (n, f) :: post0)
      by (now destruct pre).
    destruct (score_regression_loop_total y_true y_pred sample_weight
                pre Hpre []) as (mid & w1 & Hl).
    rewrite (score_regression_loop_app _ _ _ _ _ _ _ _ Hl).
    destruct (score_regression_loop_inv _ _ _ _ _ _ _ Hl) as [_ ->].
    rewrite score_regression_loop_cons, Hf.
    destruct e; try (cbn; now rewrite app_nil_r).
    exfalso. now apply (He msg). }
  intros post'. split; [apply H|]. now rewrite !H.
Qed.

Lemma regression_warnings_length y_true y_pred sample_weight
    (items : dict metric_func) :
  (forall n f, In (n, f) items ->
     fails_validation_only (f y_true y_pred sample_weight)) ->
  List.length (regression_warnings y_true y_pred sample_weight items)
  = List.length
      (filter (fun kv => call_failed (snd kv y_true y_pred sample_weight)) items).
Proof.
  induction items as [|[n f] items IH]; intros H; [reflexivity|].
  rewrite regression_warnings_cons. cbn [filter snd].
  assert (IH' := IH (fun n' f' Hin => H n' f' (or_intror Hin))).
  pose proof (H n f (or_introl eq_refl)) as Hv.
  destruct (f y_true y_pred sample_weight) as [v|e]; cbn [call_failed];
    [exact IH'|].
  destruct (Hv e eq_refl) as [msg ->]. cbn. now rewrite IH'.
Qed.

(** X5. [score_regression_prediction] has no routing: when it returns,
    the result has exactly the names of the metrics, in their order, each
    with its value or NaN, and there is exactly one warning per metric that
    failed. *)
Theorem score_regression_prediction_records_all
    (y_true y_pred : array) (sample_weight : option array)
    (metrics_to_evaluate : option (dict metric_func))
    (out : dict cell) (w : list string) :
  NoDup (keys (regression_metrics metrics_to_evaluate)) ->
  score_regression_prediction y_true y_pred sample_weight metrics_to_evaluate
    = (Ok out, w) ->
  keys out = keys (regression_metrics metrics_to_evaluate) /\
  (forall n f,
     In (n, f) (regression_metrics metrics_to_evaluate) ->
     dict_get out n = Some (recorded (f y_true y_pred sample_weight))) /\
  List.length w
  = List.length
      (filter (fun kv => call_failed (snd kv y_true y_pred sample_weight))
              (regression_metrics metrics_to_evaluate)).
Proof.
  intros Hnd H.
  destruct (score_regression_prediction_inv _ _ _ _ _ _ Hnd H) as [-> ->].
  split; [apply regression_entries_keys|]. split.
  - intros n f Hin. apply dict_get_In.
    + now rewrite regression_entries_keys.
    + unfold regression_entries. apply in_map_iff. now exists (n, f).
  - apply regression_warnings_length.
    unfold score_regression_prediction in H.
    fold (regression_metrics metrics_to_evaluate) in H.
    intros n f Hin.
    now apply (score_regression_loop_ok_validation _ _ _ _ _ _ _ H n f).
Qed.

(** X6. An empty dictionary of metrics does not mean no metrics to the
    regression scorer: it is falsy, so the default metrics are evaluated,
    as for [None], and the result has the six default names (the median
    absolute error computed without the sample weight); the binary scorer
    given an empty dictionary returns the empty series. *)
Theorem empty_metrics_dictionary
    (y_true y_pred : array) (y_pred_proba y_label : option array)
    (sample_weight : option array) (only_numeric_metric : bool) :
  (forall name, fails_validation_only (sk name y_true y_pred sample_weight)) ->
  fails_validation_only (sk "median_absolute_error" y_true y_pred None) ->
  score_regression_prediction y_true y_pred sample_weight (Some [])
  = score_regression_prediction y_true y_pred sample_weight None /\
  (exists out w,
     score_regression_prediction y_true y_pred sample_weight (Some [])
       = (Ok out, w) /\
     keys out = ["expvar"; "mae"; "mse"; "msle"; "mdae"; "r2"] /\
     dict_get out "mdae"
       = Some (recorded (sk "median_absolute_error" y_true y_pred None))) /\
  score_binary_prediction y_true y_pred_proba y_label sample_weight (Some [])
    only_numeric_metric
  = (Ok (mkScoreSeries DFloat []), []).
Proof.
  intros Hsk Hmd. split; [reflexivity|]. split; [|reflexivity].
  assert (Hnd : NoDup (keys (regression_metrics (Some [])))).
  { repeat constructor; cbn; intuition discriminate. }
  destruct (score_regression_loop_total y_true y_pred sample_weight
              REGRESSION_METRICS) with (metrics := @nil (string * cell))
    as (out & w & Hl).
  { intros n f Hin. cbn in Hin.
    destruct Hin as [H|[H|[H|[H|[H|[H|[]]]]]]]; inversion H; subst;
      try apply Hsk. exact Hmd. }
  exists out, w. split; [exact Hl|].
  assert (Hrun : score_regression_prediction y_true y_pred sample_weight
                   (Some []) = (Ok out, w)) by exact Hl.
  destruct (score_regression_prediction_inv _ _ _ _ _ _ Hnd Hrun) as [-> _].
  split; [reflexivity|].
  apply dict_get_In; [exact Hnd|].
  cbn. right. right. right. right. left. reflexivity.
Qed.

(** ** More on the covariate balance *)

Lemma select_values_where {V} (test : Z -> bool) (x : list V) (a : list Z) :
  select x (map test a) = values_where test x a.
Proof.
  unfold values_where. revert a.
  induction x as [|v x IH]; intros [|z a]; cbn; try reflexivity.
  destruct (test z); cbn; now rewrite IH.
Qed.

Lemma values_where_split {V} (test : Z -> bool) (x : list V) (a : list Z) :
  List.length x = List.length a ->
  (List.length (values_where test x a)
   + List.length (values_where (fun z => negb (test z)) x a) = List.length x)%nat.
Proof.
  unfold values_where. revert a.
  induction x as [|v x IH]; intros [|z a] H; cbn in H |- *; try discriminate;
    [reflexivity|].
  injection H as H. specialize (IH a H).
  destruct (test z); cbn; lia.
Qed.

Lemma loc_mask_same_index {V} (s : Series V) (m : Series bool) :
  s_index m = s_index s ->
  loc_mask s m
  = Ok (mkSeries (s_name s) (select (s_index s) (s_values m))
                 (select (s_values s) (s_values m))).
Proof.
  intros H. unfold loc_mask, aligned_mask. now rewrite H, labels_eqb_refl.
Qed.

(** X7. One level against the rest is a partition of the samples. On
    series that share the index of the assignment, the distance function
    gets the values and the weights of the samples assigned to the level,
    and those of all the other samples: each sample on one side, with its
    own weight, in the order of the data. *)
Theorem one_vs_rest_partition
    (x w : Series R) (a : Series Z) (group_level : Z) (repr : string)
    (f : distance_func) :
  s_index x = s_index a -> s_index w = s_index a ->
  List.length (s_values x) = List.length (s_values a) ->
  List.length (s_values w) = List.length (s_values a) ->
  exists x_treated x_untreated w_treated w_untreated,
    calculate_distribution_distance_for_single_feature x w a group_level
      (MetricCallable repr f)
    = f x_treated x_untreated w_treated w_untreated /\
    s_values x_treated
      = values_where (Z.eqb group_level) (s_values x) (s_values a) /\
    s_values w_treated
      = values_where (Z.eqb group_level) (s_values w) (s_values a) /\
    s_values x_untreated
      = values_where (fun z => negb (Z.eqb group_level z))
          (s_values x) (s_values a) /\
    s_values w_untreated
      = values_where (fun z => negb (Z.eqb group_level z))
          (s_values w) (s_values a) /\
    s_index w_treated = s_index x_treated /\
    s_index w_untreated = s_index x_untreated /\
    (List.length (s_values x_treated) + List.length (s_values x_untreated)
     = List.length (s_values x))%nat.
Proof.
  intros Hx Hw Hlx Hlw.
  unfold calculate_distribution_distance_for_single_feature. cbn [rbind].
  rewrite !loc_mask_same_index by (cbn; congruence).
  cbn [rbind]. eexists _, _, _, _. split; [reflexivity|].
  cbn [s_values s_index series_eq series_not].
  rewrite map_map, !select_values_where.
  repeat split; try congruence.
  now apply values_where_split.
Qed.

Lemma sort_unique_nonempty (l : list Z) :
  l <> [] -> sort_unique l <> [].
Proof.
  destruct l as [|z l]; [congruence|]. intros _ H.
  assert (Hin : In z (sort_unique (z :: l))) by (apply sort_unique_In; now left).
  rewrite H in Hin. contradiction.
Qed.

Lemma balance_tables_no_columns X a w metric :
  x_columns X = [] ->
  forall levels,
    balance_tables X a w metric levels
    = Ok (map (fun tv => (LInt tv, empty_balance_table)) levels).
Proof.
  intros HX. induction levels as [|tv levels IH]; [reflexivity|].
  cbn [balance_tables]. unfold distribution_distance_of_treatment at 1.
  rewrite HX. cbn [balance_loop map rbind]. rewrite IH. reflexivity.
Qed.

(** X8. A distance name that is not in the registry raises [KeyError]
    with the name, before any sample is looked at. The balance table
    raises it as soon as there is a covariate column and a treatment
    level; for covariates without columns the name is never looked up and
    a table without rows is returned. *)
Theorem unknown_distance_name
    (X : Covariates) (a : Series Z) (w : Series R) (name : string) :
  dict_get DISTRIBUTION_DISTANCE_METRICS name = None ->
  s_values a <> [] ->
  (forall x w' a' group_level,
     calculate_distribution_distance_for_single_feature x w' a' group_level
       (MetricName name) = Raise (KeyError name)) /\
  (x_columns X <> [] ->
   calculate_covariate_balance X a w (MetricName name)
     = Raise (KeyError name)) /\
  (x_columns X = [] ->
   exists df,
     calculate_covariate_balance X a w (MetricName name) = Ok df /\
     rows df = []).
Proof.
  intros Hn Ha.
  assert (H1 : forall x w' a' group_level,
            calculate_distribution_distance_for_single_feature x w' a'
              group_level (MetricName name) = Raise (KeyError name)).
  { intros. unfold calculate_distribution_distance_for_single_feature,
      dict_item. now rewrite Hn. }
  split; [exact H1|].
  pose proof (sort_unique_nonempty _ Ha) as Hl.
  unfold calculate_covariate_balance.
  destruct (sort_unique (s_values a)) as [|tv levels]; [congruence|].
  split.
  - intros HX. destruct (x_columns X) as [|[c vs] cols] eqn:Ec; [congruence|].
    cbn [balance_tables]. unfold distribution_distance_of_treatment.
    rewrite Ec. cbn [balance_loop]. now rewrite H1.
  - intros HX. rewrite (balance_tables_no_columns X a w _ HX).
    cbn [rbind]. unfold pd_concat_columns. cbn [map]. rewrite HX.
    cbn [map List.length seq rbind].
    cbn [List.length].
    destruct (Nat.eqb (S (List.length levels)) 2);
      eexists; split; reflexivity.
Qed.

(** X9. An empty treatment assignment has no level to make a table for:
    the balance table raises the [ValueError] of a concatenation of
    nothing, whatever the covariates, the weights and the distance. *)
Theorem covariate_balance_no_samples
    (X : Covariates) (a : Series Z) (w : Series R) (metric : metric_arg) :
  s_values a = [] ->
  calculate_covariate_balance X a w metric
  = Raise (ValueError "No objects to concatenate").
Proof.
  intros Ha. unfold calculate_covariate_balance. rewrite Ha. reflexivity.
Qed.

Lemma balance_tables_shape X a w metric :
  forall levels ts,
    balance_tables X a w metric levels = Ok ts ->
    map fst ts = map LInt levels /\
    Forall (fun kt =>
              columns (snd kt) = balance_columns /\
              map fst (rows (snd kt)) = map (fun c => [fst c]) (x_columns X) /\
              Forall (fun r => List.length (snd r) = 2%nat) (rows (snd kt)))
           ts.
Proof.
  induction levels as [|tv levels IH]; intros ts H; cbn [balance_tables] in H.
  - inversion H; subst. split; [reflexivity|constructor].
  - apply rbind_ok_inv in H. destruct H as (t & Ht & H).
    apply rbind_ok_inv in H. destruct H as (ts' & Hts & H).
    inversion H; subst. destruct (IH ts' Hts) as [Hk Hf].
    destruct (distribution_distance_of_treatment_shape _ _ _ _ _ _ Ht)
      as (_ & Hc & Hr & Hw).
    split; [cbn; now rewrite Hk|]. constructor; [|exact Hf]. now cbn.
Qed.

Lemma balance_tables_total X a w metric :
  forall levels,
    (forall tv c, In tv levels -> In c (x_columns X) ->
       (exists v, calculate_distribution_distance_for_single_feature
                    (column_series X c) w a tv metric = Ok v) /\
       (exists v, calculate_distribution_distance_for_single_feature
                    (column_series X c) (unit_weights w) a tv metric = Ok v)) ->
    exists ts, balance_tables X a w metric levels = Ok ts.
Proof.
  induction levels as [|tv levels IH]; intros H; [now exists []|].
  cbn [balance_tables].
  destruct (distribution_distance_of_treatment_total X a w metric tv)
    as [t ->].
  { intros c Hc. apply H; [now left|exact Hc]. }
  destruct IH as [ts ->].
  { intros tv' c Hin. apply H. now right. }
  eexists. reflexivity.
Qed.

Lemma level_columns_tables (ts : list (label * DataFrame)) levels :
  map fst ts = map LInt levels ->
  Forall (fun kt => columns (snd kt) = balance_columns) ts ->
  flat_map (fun kt => map (cons (fst kt)) (columns (snd kt))) ts
  = level_columns levels.
Proof.
  revert levels. induction ts as [|[k t] ts IH]; intros [|tv levels] Hk Hf;
    try discriminate; [reflexivity|].
  cbn in Hk. inversion Hk; subst. inversion Hf as [|? ? Hc Hf']; subst.
  cbn [flat_map fst snd] in *. cbn [level_columns flat_map].
  rewrite Hc. cbn [snd] in Hc.
  fold (level_columns levels). rewrite <- (IH levels); auto.
Qed.

Lemma pd_concat_columns_inv index tables names res :
  pd_concat_columns index tables names = Ok res ->
  tables <> [] /\
  column_names res = names /\
  columns res
  = flat_map (fun kt => map (cons (fst kt)) (columns (snd kt))) tables /\
  rows res
  = map (fun i =>
           (nth i index [],
            flat_map (fun kt => snd (nth i (rows (snd kt)) ([], []))) tables))
        (seq 0 (List.length index)).
Proof.
  unfold pd_concat_columns. destruct tables as [|t ts]; [discriminate|].
  intros H. inversion H; subst res. cbn [column_names columns rows].
  repeat split. discriminate.
Qed.

(** X10. Only for exactly two treatment levels is a level dropped: for
    one level, or three and more, the balance table keeps them all, in
    ascending order, with the weighted and the unweighted distance under
    each, and still one row per covariate column; it is returned whenever
    the assignment has a sample and the distances of the columns are
    computed for every level. *)
Theorem covariate_balance_keeps_levels
    (X : Covariates) (a : Series Z) (w : Series R) (metric : metric_arg) :
  List.length (sort_unique (s_values a)) <> 2%nat ->
  (forall df,
     calculate_covariate_balance X a w metric = Ok df ->
     columns df = level_columns (sort_unique (s_values a)) /\
     column_names df = [Some (name_or_a a); Some (metric_label metric)] /\
     index_names df = [Some (LStr "covariate")] /\
     map fst (rows df) = map (fun c => [fst c]) (x_columns X) /\
     Forall (fun r =>
               List.length (snd r)
               = (List.length (sort_unique (s_values a)) * 2)%nat)
            (rows df)) /\
  ((forall treatment_value c,
      In treatment_value (sort_unique (s_values a)) -> In c (x_columns X) ->
      (exists v, calculate_distribution_distance_for_single_feature
                   (column_series X c) w a treatment_value metric = Ok v) /\
      (exists v, calculate_distribution_distance_for_single_feature
                   (column_series X c) (unit_weights w) a treatment_value
                   metric = Ok v)) ->
   s_values a <> [] ->
   exists df, calculate_covariate_balance X a w metric = Ok df).
Proof.
  intros Hlen. split.
  - intros df H. unfold calculate_covariate_balance in H.
    apply rbind_ok_inv in H. destruct H as (ts & Hts & H).
    apply rbind_ok_inv in H. destruct H as (res & Hres & H).
    apply Nat.eqb_neq in Hlen. rewrite Hlen in H. inversion H; subst df.
    cbn [columns column_names index_names rows].
    destruct (balance_tables_shape _ _ _ _ _ _ Hts) as [Hk Hf].
    destruct (pd_concat_columns_inv _ _ _ _ Hres) as (_ & Hn & Hc & Hr).
    rewrite Hn, Hc, Hr.
    split.
    { apply level_columns_tables; [exact Hk|].
      eapply Forall_impl; [|exact Hf]. now intros kt (Hc' & _). }
    split; [reflexivity|]. split; [reflexivity|]. split.
    { rewrite map_map. cbn [fst].
      rewrite (map_nth_seq (fun k : key => k)). apply map_id. }
    apply Forall_map. apply Forall_forall. intros i Hi. cbn [snd].
    apply in_seq in Hi. rewrite length_map in Hi.
    assert (Hlt : List.length ts = List.length (sort_unique (s_values a))).
    { rewrite <- (length_map fst ts), Hk. apply length_map. }
    rewrite <- Hlt. apply flat_map_constant_length.
    intros kt Hkt. rewrite Forall_forall in Hf.
    destruct (Hf kt Hkt) as (_ & Hr' & Hw).
    rewrite Forall_forall in Hw. apply Hw. apply nth_In.
    rewrite <- (length_map fst), Hr', length_map. lia.
  - intros Hd Ha.
    unfold calculate_covariate_balance.
    destruct (balance_tables_total X a w metric
                (sort_unique (s_values a)) Hd) as [ts Hts].
    rewrite Hts. cbn [rbind].
    destruct (balance_tables_shape _ _ _ _ _ _ Hts) as [Hk _].
    pose proof (sort_unique_nonempty _ Ha) as Hne.
    destruct ts as [|t0 ts0].
    { destruct (sort_unique (s_values a)); [congruence|discriminate]. }
    cbn [pd_concat_columns rbind].
    destruct (Nat.eqb _ 2); eexists; reflexivity.
Qed.

(** ** The two aggregations *)

Lemma unfold_prediction_scores (scores : dict (list (DataFrame * DataFrame))) :
  unfold_component get_prediction_scores (as_weight_scores scores)
  = Ok (as_score_tables (prediction_score_tables scores)).
Proof.
  unfold unfold_component.
  induction scores as [|[k l] scores IH]; [reflexivity|].
  cbn [as_weight_scores map list_mapM fst snd].
  assert (Hl : list_mapM get_prediction_scores
                 (map (fun p => WeightEvaluatorScores (fst p) (snd p)) l)
               = Ok (map ScoreTable (map fst l))).
  { clear. induction l as [|p l IH]; [reflexivity|].
    cbn [map list_mapM get_prediction_scores rbind]. now rewrite IH. }
  rewrite Hl. cbn [rbind]. fold (as_weight_scores scores). now rewrite IH.
Qed.

Lemma unfold_covariate_balance (scores : dict (list (DataFrame * DataFrame))) :
  unfold_component get_covariate_balance (as_weight_scores scores)
  = Ok (as_score_tables (covariate_balance_tables scores)).
Proof.
  unfold unfold_component.
  induction scores as [|[k l] scores IH]; [reflexivity|].
  cbn [as_weight_scores map list_mapM fst snd].
  assert (Hl : list_mapM get_covariate_balance
                 (map (fun p => WeightEvaluatorScores (fst p) (snd p)) l)
               = Ok (map ScoreTable (map snd l))).
  { clear. induction l as [|p l IH]; [reflexivity|].
    cbn [map list_mapM get_covariate_balance rbind]. now rewrite IH. }
  rewrite Hl. cbn [rbind]. fold (as_weight_scores scores). now rewrite IH.
Qed.

Lemma combine_fold_scores_rows (scores : dict (list DataFrame)) out :
  _combine_fold_scores (as_score_tables scores) = Ok out ->
  map fst (rows out) = map fst (labelled_rows scores) /\
  List.length (rows out) = row_count scores.
Proof.
  intros H.
  destruct (combine_fold_scores_tables_inv scores out H) as (_ & _ & _ & ->).
  split; [apply stacked_phases_keys|].
  rewrite <- labelled_rows_length, <- (length_map fst), stacked_phases_keys.
  apply length_map.
Qed.

(** X11. The aggregate of the scores of a weight model keeps the two
    components apart. It is returned exactly when the prediction scores of
    all folds and their balance tables are both aggregated as score tables
    are, and is the pair of the two aggregates: the first has the rows of
    the prediction scores only, labelled with phase and fold, as many as
    those tables have together, and the second those of the balance
    tables. *)
Theorem weight_aggregate_components
    (scores : dict (list (DataFrame * DataFrame))) :
  (forall r,
     _combine_weight_evaluator_fold_scores (as_weight_scores scores) = Ok r ->
     exists prediction_scores covariate_balance,
       r = WeightEvaluatorScores prediction_scores covariate_balance /\
       _combine_fold_scores (as_score_tables (prediction_score_tables scores))
         = Ok prediction_scores /\
       _combine_fold_scores (as_score_tables (covariate_balance_tables scores))
         = Ok covariate_balance /\
       map fst (rows prediction_scores)
         = map fst (labelled_rows (prediction_score_tables scores)) /\
       List.length (rows prediction_scores)
         = row_count (prediction_score_tables scores) /\
       map fst (rows covariate_balance)
         = map fst (labelled_rows (covariate_balance_tables scores)) /\
       List.length (rows covariate_balance)
         = row_count (covariate_balance_tables scores)) /\
  (forall prediction_scores covariate_balance,
     _combine_fold_scores (as_score_tables (prediction_score_tables scores))
       = Ok prediction_scores ->
     _combine_fold_scores (as_score_tables (covariate_balance_tables scores))
       = Ok covariate_balance ->
     _combine_weight_evaluator_fold_scores (as_weight_scores scores)
       = Ok (WeightEvaluatorScores prediction_scores covariate_balance)).
Proof.
  unfold _combine_weight_evaluator_fold_scores.
  rewrite unfold_prediction_scores, unfold_covariate_balance. cbn [rbind].
  split.
  - intros r H.
    apply rbind_ok_inv in H. destruct H as (ps & Hps & H).
    apply rbind_ok_inv in H. destruct H as (cb & Hcb & H).
    inversion H; subst r. exists ps, cb.
    destruct (combine_fold_scores_rows _ _ Hps) as [Hk1 Hl1].
    destruct (combine_fold_scores_rows _ _ Hcb) as [Hk2 Hl2].
    repeat split; assumption.
  - intros ps cb -> ->. reflexivity.
Qed.

Lemma as_frames_inv objs fs :
  as_frames objs = Ok fs -> objs = keyed_tables fs.
Proof.
  revert fs. induction objs as [|[k [t|ps cb]] objs IH]; intros fs H;
    cbn [as_frames as_frame rbind] in H; try discriminate.
  - now inversion H.
  - apply rbind_ok_inv in H. destruct H as (fs' & Hfs & H).
    inversion H; subst. cbn. now rewrite (IH fs' Hfs).
Qed.

Lemma pd_concat_index_inv objs name t :
  pd_concat_index objs name = Ok t ->
  exists fs, objs = keyed_tables fs.
Proof.
  unfold pd_concat_index. destruct objs as [|o objs]; [discriminate|].
  intros H. apply rbind_ok_inv in H. destruct H as (fs & Hfs & _).
  exists fs. now apply as_frames_inv.
Qed.

Lemma concat_folds_all_tables scores objs :
  concat_folds scores = Ok objs ->
  exists tables, scores = as_score_tables tables.
Proof.
  revert objs. induction scores as [|[k l] scores IH]; intros objs H.
  - now exists [].
  - cbn [concat_folds] in H.
    apply rbind_ok_inv in H. destruct H as (t & Ht & H).
    apply rbind_ok_inv in H. destruct H as (rest & Hrest & _).
    destruct (IH rest Hrest) as [tables ->].
    destruct (pd_concat_index_inv _ _ _ Ht) as [fs Hfs].
    exists ((k, map snd fs) :: tables). cbn. f_equal. f_equal.
    rewrite <- (enumerate_from_snd l 0), Hfs. unfold keyed_tables.
    now rewrite !map_map.
Qed.

Lemma combine_fold_scores_all_tables scores t :
  _combine_fold_scores scores = Ok t ->
  exists tables, scores = as_score_tables tables.
Proof.
  unfold _combine_fold_scores. intros H.
  apply rbind_ok_inv in H. destruct H as (objs & Hobjs & _).
  now apply (concat_folds_all_tables _ objs).
Qed.

Lemma as_score_tables_In tables phase l o :
  In (phase, l) (as_score_tables tables) -> In o l ->
  exists t, o = ScoreTable t.
Proof.
  unfold as_score_tables. intros H Ho.
  apply in_map_iff in H. destruct H as ([k ts] & Heq & _).
  inversion Heq; subst. apply in_map_iff in Ho.
  destruct Ho as (t & <- & _). now exists t.
Qed.

Lemma as_frames_pair (pre : list (label * DataFrame)) k ps cb post :
  as_frames (keyed_tables pre ++ (k, WeightEvaluatorScores ps cb) :: post)
  = Raise (not_concatenable
             "<class 'causallib.evaluation.metrics.WeightEvaluatorScores'>").
Proof.
  induction pre as [|[k' t] pre IH]; [reflexivity|].
  cbn [keyed_tables map app as_frames as_frame rbind fst snd].
  unfold keyed_tables in IH. now rewrite IH.
Qed.

(** X12. The aggregation of score tables accepts nothing else: with the
    pair of a weight model among the fold scores, [_combine_fold_scores]
    raises and returns no table; when the pair is among the fold scores of
    the first phase, after score tables, what it raises is the
    [TypeError] of [pd.concat]. *)
Theorem combine_fold_scores_rejects_pairs
    (scores : dict (list scores_obj)) (phase : string)
    (fold_scores : list scores_obj)
    (prediction_scores covariate_balance : DataFrame) :
  In (phase, fold_scores) scores ->
  In (WeightEvaluatorScores prediction_scores covariate_balance) fold_scores ->
  (exists e, _combine_fold_scores scores = Raise e) /\
  (forall tables after rest,
     scores = (phase, map ScoreTable tables
                        ++ WeightEvaluatorScores prediction_scores
                             covariate_balance :: after) :: rest ->
     _combine_fold_scores scores
     = Raise (not_concatenable
                "<class 'causallib.evaluation.metrics.WeightEvaluatorScores'>")).
Proof.
  intros Hin Ho. split.
  - destruct (_combine_fold_scores scores) as [t|e] eqn:E; [|now exists e].
    destruct (combine_fold_scores_all_tables _ _ E) as [tables ->].
    destruct (as_score_tables_In _ _ _ _ Hin Ho) as (? & ?). discriminate.
  - intros tables after rest ->.
    unfold _combine_fold_scores. cbn [concat_folds].
    set (l := map ScoreTable tables ++ _ :: after).
    assert (Hl : exists k objs,
              enumerate_from 0 l
              = keyed_tables (enumerate_from 0 tables)
                ++ (k, WeightEvaluatorScores prediction_scores
                         covariate_balance) :: objs).
    { subst l. generalize 0%nat. clear.
      induction tables as [|t tables IH]; intros i.
      - cbn. eauto.
      - destruct (IH (S i)) as (k & objs & E). exists k, objs.
        cbn [map app enumerate_from keyed_tables fst snd].
        unfold keyed_tables in E. now rewrite E. }
    destruct Hl as (k & objs & Hl).
    unfold pd_concat_index. rewrite Hl.
    destruct (keyed_tables (enumerate_from 0 tables) ++ _ :: objs) eqn:E.
    { destruct (keyed_tables (enumerate_from 0 tables)); discriminate. }
    rewrite <- E, as_frames_pair. reflexivity.
Qed.

(** ** score_cv: what a run that returns has required *)

Lemma score_estimation_kind p X a y m s w :
  score_estimation p X a y m = (Ok s, w) ->
  is_outcome_prediction p = true /\ exists t, s = ScoreTable t.
Proof.
  destruct p as [q|q|q|t]; unfold score_estimation;
    cbn [score_estimation_given]; intros H; try discriminate.
  apply bind_ok_inv in H. destruct H as (t & w1 & w2 & _ & H & _).
  inversion H. split; [reflexivity|now exists t].
Qed.

Lemma score_fold_phase_inv predictions X a y m i fold phase preds s w :
  NoDup (keys predictions) ->
  In (phase, preds) predictions ->
  score_fold_phase predictions X a y m i fold phase = (Ok s, w) ->
  exists p X_fold a_fold y_fold,
    nth_error preds i = Some p /\
    score_estimation p X_fold a_fold y_fold m = (Ok s, w).
Proof.
  intros Hnd Hin H. unfold score_fold_phase in H.
  apply bind_ok_inv in H. destruct H as (Xf & w1 & w1' & H1 & H & ->).
  apply lift_ok_inv in H1. destruct H1 as [_ ->].
  apply bind_ok_inv in H. destruct H as (af & w2 & w2' & H2 & H & ->).
  apply lift_ok_inv in H2. destruct H2 as [_ ->].
  apply bind_ok_inv in H. destruct H as (yf & w3 & w3' & H3 & H & ->).
  apply lift_ok_inv in H3. destruct H3 as [_ ->].
  apply bind_ok_inv in H. destruct H as (l & w4 & w4' & H4 & H & ->).
  apply lift_ok_inv in H4. destruct H4 as [H4 ->].
  apply bind_ok_inv in H. destruct H as (p & w5 & w5' & H5 & H & ->).
  apply lift_ok_inv in H5. destruct H5 as [H5 ->].
  unfold dict_item in H4. rewrite (dict_get_In _ _ _ Hnd Hin) in H4.
  inversion H4; subst l. unfold list_item in H5.
  destruct (nth_error preds i) as [p'|] eqn:Ep; [|discriminate].
  inversion H5; subst p'. exists p, Xf, af, yf. now split.
Qed.

Lemma score_cv_inv predictions X a y cv m r w :
  NoDup (keys predictions) ->
  score_cv predictions X a y cv m = (Ok r, w) ->
  exists scores last w1,
    score_cv_folds predictions X a y m (keys predictions) 0 cv
      (map (fun phase => (phase, @nil scores_obj)) (keys predictions), None)
    = (Ok (scores, Some last), w1) /\
    collected predictions X a y cv m scores last /\
    aggregate_for last scores = Ok r.
Proof.
  intros Hnd H. rewrite score_cv_unfold in H.
  apply bind_ok_inv in H. destruct H as ([scores fs] & w1 & w2 & Hf & Hagg & _).
  cbn [fst snd] in Hagg.
  pose proof (score_cv_folds_collected _ _ _ _ _ _ _ _ _ Hnd Hf) as Hc.
  destruct fs as [last|]; [|discriminate].
  apply lift_ok_inv in Hagg. destruct Hagg as [Hagg _].
  now exists scores, last, w1.
Qed.

Lemma collected_fold_score predictions X a y cv m scores last phase preds i :
  NoDup (keys predictions) ->
  collected predictions X a y cv m scores last ->
  In (phase, preds) predictions ->
  (i < List.length cv)%nat ->
  (phase = "train" \/ phase = "valid") /\
  exists fold_scores s p X_fold a_fold y_fold wi,
    In (phase, fold_scores) scores /\ In s fold_scores /\
    nth_error preds i = Some p /\
    score_estimation p X_fold a_fold y_fold m = (Ok s, wi).
Proof.
  intros Hnd (Hk & Hrows & _) Hin Hi.
  assert (Hph : In phase (keys predictions)).
  { unfold keys. apply in_map_iff. now exists (phase, preds). }
  destruct (In_nth_error _ _ Hph) as [k Hk'].
  destruct (Hrows k phase Hk') as (fold_scores & Hs & Hlen & Hfold).
  destruct (nth_error cv i) as [fold|] eqn:Ef;
    [|apply nth_error_None in Ef; lia].
  destruct (Hfold i fold Ef) as (Htv & s & wi & Hsi & Hrun).
  split; [exact Htv|].
  destruct (score_fold_phase_inv _ _ _ _ _ _ _ _ _ _ _ Hnd Hin Hrun)
    as (p & Xf & af & yf & Hp & Hest).
  exists fold_scores, s, p, Xf, af, yf, wi.
  split; [now apply nth_error_In with k|].
  split; [now apply nth_error_In with i|]. now split.
Qed.

Lemma collected_last predictions X a y cv m scores last :
  NoDup (keys predictions) ->
  cv <> [] ->
  collected predictions X a y cv m scores last ->
  exists p X_fold a_fold y_fold wi,
    score_estimation p X_fold a_fold y_fold m = (Ok last, wi).
Proof.
  intros Hnd Hcv (Hk & Hrows & phase & fs & Hn & Hl).
  assert (Hph : nth_error (keys predictions) (List.length (keys predictions) - 1)
                = Some phase).
  { rewrite <- Hk at 1. unfold keys at 1. now rewrite nth_error_map, Hn. }
  destruct (Hrows _ _ Hph) as (fs' & Hs & _ & Hfold).
  rewrite Hn in Hs. inversion Hs; subst fs'.
  destruct (nth_error cv (List.length cv - 1)) as [fold|] eqn:Ef.
  2:{ apply nth_error_None in Ef. destruct cv; [congruence|cbn in Ef; lia]. }
  destruct (Hfold _ _ Ef) as (_ & s & wi & Hsi & Hrun).
  rewrite Hl in Hsi. inversion Hsi; subst s.
  apply nth_error_In in Hph. unfold keys in Hph.
  apply in_map_iff in Hph. destruct Hph as ([k preds] & Hkp & Hin).
  cbn [fst] in Hkp. subst k.
  destruct (score_fold_phase_inv _ _ _ _ _ _ _ _ _ _ _ Hnd Hin Hrun)
    as (p & Xf & af & yf & _ & Hest).
  now exists p, Xf, af, yf, wi.
Qed.

(** X13. As [weight_evaluator.py] cannot be imported, [score_cv] returns
    for outcome predictions only: when it returns, the result is a score
    table, never the pair of a weight model, and every prediction it
    scored, under every phase and for every fold, is an outcome
    prediction. *)
Theorem score_cv_outcome_predictions_only
    (predictions : dict (list prediction)) (X : Covariates) (a : Series Z)
    (y : Series R) (cv : cv_folds)
    (metrics_to_evaluate : option (dict metric_func))
    (r : scores_obj) (w : list string) :
  NoDup (keys predictions) ->
  score_cv predictions X a y cv metrics_to_evaluate = (Ok r, w) ->
  (exists t, r = ScoreTable t) /\
  forall phase phase_predictions i p,
    In (phase, phase_predictions) predictions ->
    (i < List.length cv)%nat ->
    nth_error phase_predictions i = Some p ->
    is_outcome_prediction p = true.
Proof.
  intros Hnd H.
  destruct (score_cv_inv _ _ _ _ _ _ _ _ Hnd H)
    as (scores & last & w1 & Hf & Hc & Hagg).
  split.
  - assert (Hcv : cv <> []).
    { intros ->. discriminate. }
    destruct (collected_last _ _ _ _ _ _ _ _ Hnd Hcv Hc)
      as (p & Xf & af & yf & wi & Hest).
    apply score_estimation_kind in Hest. destruct Hest as [_ [t ->]].
    cbn [aggregate_for] in Hagg.
    apply rbind_ok_inv in Hagg. destruct Hagg as (t' & _ & Hr).
    inversion Hr. now exists t'.
  - intros phase preds i p Hin Hi Hp.
    destruct (collected_fold_score _ _ _ _ _ _ _ _ _ _ i Hnd Hc Hin Hi)
      as (_ & fs & s & p' & Xf & af & yf & wi & _ & _ & Hp' & Hest).
    rewrite Hp in Hp'. inversion Hp'; subst p'.
    now apply score_estimation_kind in Hest.
Qed.

Lemma score_cv_folds_slices predictions X a y m phases :
  forall cv i st st' w,
    score_cv_folds predictions X a y m phases i cv st = (Ok st', w) ->
    forall fold, In fold cv ->
      exists data, slice_fold X a y (fst fold) (snd fold) = Ok data.
Proof.
  induction cv as [|[tr va] cv IH]; intros i st st' w H fold Hin;
    [contradiction|].
  cbn [score_cv_folds] in H.
  apply bind_ok_inv in H. destruct H as (data & w1 & w2 & Hd & H & _).
  apply lift_ok_inv in Hd. destruct Hd as [Hd _].
  apply bind_ok_inv in H. destruct H as (st1 & w3 & w4 & _ & H & _).
  destruct Hin as [<-|Hin]; [now exists data|].
  now apply (IH _ _ _ _ H).
Qed.

(** X14. What a call of [score_cv] that returns has required: at least one
    fold and one phase; training and validation indices of every fold
    that slice the data, also when only one phase is predicted; no phase
    other than "train" and "valid"; and under each phase at least as many
    predictions as there are folds. *)
Theorem score_cv_requirements
    (predictions : dict (list prediction)) (X : Covariates) (a : Series Z)
    (y : Series R) (cv : cv_folds)
    (metrics_to_evaluate : option (dict metric_func))
    (r : scores_obj) (w : list string) :
  NoDup (keys predictions) ->
  score_cv predictions X a y cv metrics_to_evaluate = (Ok r, w) ->
  cv <> [] /\ predictions <> [] /\
  (forall fold, In fold cv ->
     exists data, slice_fold X a y (fst fold) (snd fold) = Ok data) /\
  (forall phase phase_predictions,
     In (phase, phase_predictions) predictions ->
     (phase = "train" \/ phase = "valid") /\
     (List.length cv <= List.length phase_predictions)%nat).
Proof.
  intros Hnd H.
  destruct (score_cv_inv _ _ _ _ _ _ _ _ Hnd H)
    as (scores & last & w1 & Hf & Hc & Hagg).
  assert (Hcv : cv <> []).
  { intros ->. discriminate. }
  split; [exact Hcv|]. split.
  { intros ->. destruct Hc as (Hk & _ & ph & fs & Hn & _).
    destruct scores; [|discriminate]. cbn in Hn. discriminate. }
  split; [exact (score_cv_folds_slices _ _ _ _ _ _ _ _ _ _ _ Hf)|].
  intros phase preds Hin.
  assert (Hi : (List.length cv - 1 < List.length cv)%nat).
  { destruct cv; [congruence|cbn; lia]. }
  destruct (collected_fold_score _ _ _ _ _ _ _ _ _ _ _ Hnd Hc Hin Hi)
    as (Htv & fs & s & p & Xf & af & yf & wi & _ & _ & Hp & _).
  split; [exact Htv|].
  assert (Hlt : (List.length cv - 1 < List.length preds)%nat).
  { apply nth_error_Some. congruence. }
  lia.
Qed.

(** ** score_cv: predictions beyond the folds *)

Lemma bind_lift {A B} (r : result A) (f : A -> M B) :
  bind (lift r) f
  = match r with
    | Ok x => f x
    | Raise e => (Raise e, [])
    end.
Proof.
  destruct r as [x|e]; unfold bind, lift; [|reflexivity].
  now destruct (f x).
Qed.

Lemma bind_ext {A B} (m : M A) (f g : A -> M B) :
  (forall x, f x = g x) -> bind m f = bind m g.
Proof.
  intros H. unfold bind. destruct m as [[x|e] w]; [|reflexivity].
  now rewrite H.
Qed.

Lemma dict_item_first_folds n predictions phase :
  dict_item (first_folds n predictions) phase
  = l <~ dict_item predictions phase ;; Ok (firstn n l).
Proof.
  unfold dict_item.
  induction predictions as [|[k l] predictions IH]; [reflexivity|].
  cbn [first_folds map dict_get fst snd].
  destruct (String.eqb k phase); [reflexivity|exact IH].
Qed.

Lemma list_item_firstn {A} (l : list A) :
  forall n i, (i < n)%nat -> list_item (firstn n l) i = list_item l i.
Proof.
  unfold list_item.
  induction l as [|x l IH]; intros [|n] [|i] Hi; try lia; try reflexivity.
  cbn [firstn nth_error]. apply IH. lia.
Qed.

Lemma score_cv_phases_first_folds predictions m data i n :
  (i < n)%nat ->
  forall phases st,
    score_cv_phases (first_folds n predictions) m data i phases st
    = score_cv_phases predictions m data i phases st.
Proof.
  intros Hi. induction phases as [|phase phases IH]; intros st; [reflexivity|].
  cbn [score_cv_phases]. rewrite !bind_lift.
  destruct (data_item data phase) as [[[Xf af] yf]|e]; [|reflexivity].
  rewrite !bind_lift, dict_item_first_folds.
  destruct (dict_item predictions phase) as [l|e]; [|reflexivity].
  cbn [rbind]. rewrite !bind_lift, (list_item_firstn l n i Hi).
  destruct (list_item l i) as [p|e]; [|reflexivity].
  apply bind_ext. intros s. apply bind_ext. intros d. apply IH.
Qed.

Lemma score_cv_folds_first_folds predictions X a y m phases n :
  forall cv i st,
    (i + List.length cv <= n)%nat ->
    score_cv_folds (first_folds n predictions) X a y m phases i cv st
    = score_cv_folds predictions X a y m phases i cv st.
Proof.
  induction cv as [|[tr va] cv IH]; intros i st Hn; [reflexivity|].
  cbn [score_cv_folds]. cbn [List.length] in Hn.
  apply bind_ext. intros data.
  rewrite score_cv_phases_first_folds by lia.
  apply bind_ext. intros st'. apply IH. lia.
Qed.

(** X15. Predictions beyond the folds are never looked at: under every
    phase only the first [len(cv)] predictions count, so cutting the lists
    of predictions anywhere after them changes neither the result nor the
    warnings nor the error raised. *)
Theorem score_cv_ignores_surplus_predictions
    (predictions : dict (list prediction)) (X : Covariates) (a : Series Z)
    (y : Series R) (cv : cv_folds)
    (metrics_to_evaluate : option (dict metric_func)) (k : nat) :
  score_cv (first_folds (List.length cv + k) predictions) X a y cv
    metrics_to_evaluate
  = score_cv predictions X a y cv metrics_to_evaluate.
Proof.
  unfold score_cv.
  assert (Hk : keys (first_folds (List.length cv + k) predictions)
               = keys predictions).
  { unfold keys, first_folds. rewrite map_map. reflexivity. }
  rewrite Hk, score_cv_folds_first_folds by lia. reflexivity.
Qed.

(** ** Performance curves on folds *)

Lemma zip3_length {A B C} (l1 : list A) (l2 : list B) (l3 : list C) :
  List.length (zip3 l1 l2 l3)
  = Nat.min (Nat.min (List.length l1) (List.length l2)) (List.length l3).
Proof.
  revert l2 l3. induction l1 as [|x1 l1 IH]; intros [|x2 l2] [|x3 l3];
    cbn [zip3 List.length]; try rewrite IH; lia.
Qed.

Lemma zip3_maps {A B C} (l : list (A * B * C)) :
  zip3 (map (fun c => fst (fst c)) l) (map (fun c => snd (fst c)) l)
       (map snd l) = l.
Proof.
  induction l as [|[[x y] z] l IH]; [reflexivity|]. cbn. now rewrite IH.
Qed.

Lemma curve_folds_loop_cons am cm pl f folds acc :
  curve_folds_loop am cm pl (f :: folds) acc
  = match curve_of_fold cm pl f with
    | Ok c =>
        area_fold <- area_of_fold am (snd (fst f)) (fst (fst f)) (snd f) ;;
        curve_folds_loop am cm pl folds (extend_folds acc [area_fold] [c])
    | Raise e => (Raise e, [])
    end.
Proof.
  destruct f as [[p t] w], acc as [[[a1 a2] a3] a4].
  cbn [curve_folds_loop]. rewrite bind_lift. unfold curve_of_fold.
  cbn [fst snd]. destruct (cm t p pl w) as [[[c1 c2] c3]|e]; reflexivity.
Qed.

Lemma area_of_fold_cases am f :
  area_of_fold am (snd (fst f)) (fst (fst f)) (snd f)
  = match area_result am f with
    | Ok v => (Ok v, [])
    | Raise (ValueError v) =>
        match area___name__ am with
        | Some name => (Ok NaN, area_warnings am [f])
        | None => (Raise (AttributeError "__name__"), [])
        end
    | Raise e => (Raise e, [])
    end.
Proof.
  unfold area_of_fold, area_warnings, area_result, get___name__.
  cbn [flat_map].
  destruct (area_call am (snd (fst f)) (fst (fst f)) (snd f)) as [v|[]];
    try reflexivity.
  destruct (area___name__ am); reflexivity.
Qed.

Lemma area_of_fold_ok am f v ws :
  area_of_fold am (snd (fst f)) (fst (fst f)) (snd f) = (Ok v, ws) ->
  v = recorded (area_result am f) /\ ws = area_warnings am [f] /\
  fails_validation_only (area_result am f) /\
  (call_failed (area_result am f) = true -> area___name__ am <> None).
Proof.
  rewrite area_of_fold_cases. unfold area_warnings, fails_validation_only.
  cbn [flat_map].
  destruct (area_result am f) as [v'|e] eqn:E.
  - intros H. inversion H; subst. repeat split; try discriminate.
  - destruct e; try discriminate.
    destruct (area___name__ am) as [name|]; [|discriminate].
    intros H. inversion H; subst. cbn [recorded call_failed].
    repeat split; try discriminate.
    intros e He. inversion He. now exists msg.
Qed.

Lemma extend_folds_app acc a1 c1 a2 c2 :
  extend_folds (extend_folds acc a1 c1) a2 c2
  = extend_folds acc (a1 ++ a2) (c1 ++ c2).
Proof.
  destruct acc as [[[x1 x2] x3] x4]. unfold extend_folds.
  now rewrite !map_app, <- !app_assoc.
Qed.

Lemma area_warnings_app am l1 l2 :
  area_warnings am (l1 ++ l2) = area_warnings am l1 ++ area_warnings am l2.
Proof. unfold area_warnings. apply flat_map_app. Qed.

Lemma curve_folds_loop_inv am cm pl :
  forall folds acc out w,
    curve_folds_loop am cm pl folds acc = (Ok out, w) ->
    exists curves,
      map (curve_of_fold cm pl) folds = map Ok curves /\
      out = extend_folds acc (map (fun f => recorded (area_result am f)) folds)
              curves /\
      w = area_warnings am folds /\
      Forall (fun f => fails_validation_only (area_result am f)) folds /\
      (forall f, In f folds -> call_failed (area_result am f) = true ->
         area___name__ am <> None).
Proof.
  induction folds as [|f folds IH]; intros acc out w H.
  - inversion H; subst. exists []. destruct out as [[[x1 x2] x3] x4].
    cbn. rewrite !app_nil_r. repeat split; auto.
  - rewrite curve_folds_loop_cons in H.
    destruct (curve_of_fold cm pl f) as [c|e] eqn:Ec; [|discriminate].
    apply bind_ok_inv in H. destruct H as (v & w1 & w2 & Ha & H & ->).
    apply area_of_fold_ok in Ha. destruct Ha as (-> & -> & Hv & Hn).
    destruct (IH _ _ _ H) as (curves & Hc & -> & -> & Hf & Hns).
    exists (c :: curves). cbn [map]. rewrite Ec, Hc, extend_folds_app.
    split; [reflexivity|]. split; [reflexivity|].
    split; [exact (eq_sym (area_warnings_app am [f] folds))|].
    split; [now constructor|].
    intros g [<-|Hg]; [exact Hn|now apply Hns].
Qed.

Lemma curve_folds_loop_run am cm pl :
  forall folds acc,
    (forall f, In f folds ->
       (exists c, curve_of_fold cm pl f = Ok c) /\
       fails_validation_only (area_result am f) /\
       (call_failed (area_result am f) = true -> area___name__ am <> None)) ->
    exists out,
      curve_folds_loop am cm pl folds acc = (Ok out, area_warnings am folds).
Proof.
  induction folds as [|f folds IH]; intros acc H.
  - now exists acc.
  - rewrite curve_folds_loop_cons.
    destruct (H f (or_introl eq_refl)) as ([c ->] & Hv & Hn).
    rewrite area_of_fold_cases.
    change (f :: folds) with ([f] ++ folds). rewrite area_warnings_app.
    destruct (area_result am f) as [v|e] eqn:E.
    + destruct (IH (extend_folds acc [v] [c])) as [out Hout].
      { intros g Hg. apply H. now right. }
      exists out. unfold bind. rewrite Hout.
      unfold area_warnings at 2. cbn [flat_map]. now rewrite E.
    + destruct (Hv e eq_refl) as [msg ->].
      destruct (area___name__ am) as [name|] eqn:En;
        [|exfalso; now apply Hn].
      destruct (IH (extend_folds acc [NaN] [c])) as [out Hout].
      { intros g Hg. apply H. now right. }
      exists out. unfold bind. now rewrite Hout.
Qed.

Lemma area_warnings_length am folds :
  (forall f, In f folds -> call_failed (area_result am f) = true ->
     area___name__ am <> None) ->
  Forall (fun f => fails_validation_only (area_result am f)) folds ->
  List.length (area_warnings am folds)
  = (2 * List.length (filter (fun f => call_failed (area_result am f)) folds))%nat.
Proof.
  induction folds as [|f folds IH]; intros Hn Hf; [reflexivity|].
  inversion Hf as [|? ? Hv Hf']; subst.
  change (f :: folds) with ([f] ++ folds).
  rewrite area_warnings_app, length_app, IH; auto.
  2:{ intros g Hg. apply Hn. now right. }
  unfold area_warnings. cbn [flat_map app filter].
  pose proof (Hn f (or_introl eq_refl)) as Hn'.
  destruct (area_result am f) as [v|e] eqn:E; cbn [call_failed].
  - cbn. lia.
  - destruct (Hv e eq_refl) as [msg ->].
    destruct (area___name__ am); [cbn; lia|].
    exfalso. now apply Hn'.
Qed.

(** X18. When the curves of the folds are returned, the folds are those of
    the three lists zipped, down to the shortest (the predictions standing
    in for missing weights); the four result lists have one entry per
    fold, in order: the three vectors of the curve metric, and the area,
    or NaN where the area metric failed its validation, with two warnings
    for each such fold. *)
Theorem performance_curves_per_fold
    (folds_predictions folds_targets : list array)
    (sample_weights : option (list array))
    (area_metric : area_func) (curve_metric : curve_func)
    (pos_label : option label)
    (area_folds : list cell)
    (first_ret_folds second_ret_folds threshold_folds : list (list R))
    (w : list string) :
  calculate_performance_curve_data_on_folds folds_predictions folds_targets
    sample_weights area_metric curve_metric pos_label
  = (Ok (area_folds, first_ret_folds, second_ret_folds, threshold_folds), w) ->
  let folds :=
    zip3 folds_predictions folds_targets
         (weights_of_folds folds_predictions sample_weights) in
  List.length folds
  = Nat.min (Nat.min (List.length folds_predictions)
                     (List.length folds_targets))
            (match sample_weights with
             | None => List.length folds_predictions
             | Some ws => List.length ws
             end) /\
  area_folds = map (fun f => recorded (area_result area_metric f)) folds /\
  map (curve_of_fold curve_metric pos_label) folds
  = map Ok (zip3 first_ret_folds second_ret_folds threshold_folds) /\
  List.length first_ret_folds = List.length folds /\
  List.length second_ret_folds = List.length folds /\
  List.length threshold_folds = List.length folds /\
  List.length w
  = (2 * List.length
           (filter (fun f => call_failed (area_result area_metric f)) folds))%nat.
Proof.
  intros H folds. unfold calculate_performance_curve_data_on_folds in H.
  fold folds in H.
  destruct (curve_folds_loop_inv _ _ _ _ _ _ _ H)
    as (curves & Hc & Hout & -> & Hf & Hn).
  cbn [extend_folds app] in Hout. inversion Hout; subst.
  assert (Hlen : List.length curves = List.length folds).
  { rewrite <- (length_map Ok curves), <- Hc. apply length_map. }
  split.
  { unfold folds. rewrite zip3_length. f_equal.
    unfold weights_of_folds. destruct sample_weights;
      [apply length_map|apply repeat_length]. }
  split; [reflexivity|]. split; [now rewrite zip3_maps|].
  rewrite !length_map. repeat (split; [exact Hlen|]).
  now apply area_warnings_length.
Qed.

(** X19. An error of the curve metric is never absorbed, a [ValueError]
    neither: at the first fold where the curve metric fails, that error is
    raised, after the warnings of the folds before it; the area metric is
    not called on that fold, and no later fold is looked at. *)
Theorem curve_metric_error_propagates
    (folds_predictions folds_targets : list array)
    (sample_weights : option (list array))
    (area_metric : area_func) (curve_metric : curve_func)
    (pos_label : option label)
    (pre post : list (array * array * option array))
    (f : array * array * option array) (e : exn) :
  zip3 folds_predictions folds_targets
       (weights_of_folds folds_predictions sample_weights)
  = pre ++ f :: post ->
  (forall g, In g pre ->
     (exists c, curve_of_fold curve_metric pos_label g = Ok c) /\
     fails_validation_only (area_result area_metric g) /\
     (call_failed (area_result area_metric g) = true ->
      area___name__ area_metric <> None)) ->
  curve_of_fold curve_metric pos_label f = Raise e ->
  forall area_metric',
    (forall g, In g pre ->
       area_result area_metric' g = area_result area_metric g) ->
    area___name__ area_metric' = area___name__ area_metric ->
    calculate_performance_curve_data_on_folds folds_predictions folds_targets
      sample_weights area_metric' curve_metric pos_label
    = (Raise e, area_warnings area_metric pre).
Proof.
  intros Hz Hpre He am' Hsame Hname.
  unfold calculate_performance_curve_data_on_folds. rewrite Hz.
  generalize (@nil cell, @nil (list R), @nil (list R), @nil (list R)).
  clear Hz. induction pre as [|g pre IH]; intros acc.
  - cbn [app]. rewrite curve_folds_loop_cons, He. reflexivity.
  - cbn [app]. rewrite curve_folds_loop_cons.
    destruct (Hpre g (or_introl eq_refl)) as ([c ->] & Hv & Hn).
    rewrite area_of_fold_cases, (Hsame g (or_introl eq_refl)), Hname.
    change (g :: pre) with ([g] ++ pre). rewrite area_warnings_app.
    assert (IH' : forall acc,
              curve_folds_loop am' curve_metric pos_label (pre ++ f :: post) acc
              = (Raise e, area_warnings area_metric pre)).
    { apply IH.
      - intros h Hh. apply Hpre. now right.
      - intros h Hh. apply Hsame. now right. }
    destruct (area_result area_metric g) as [v|e'] eqn:E.
    + unfold bind. rewrite IH'. unfold area_warnings at 2.
      cbn [flat_map]. now rewrite E.
    + destruct (Hv e' eq_refl) as [msg ->].
      destruct (area___name__ area_metric) as [name|] eqn:En;
        [|exfalso; now apply Hn].
      unfold bind. rewrite IH'.
      assert (Hw : area_warnings am' [g] = area_warnings area_metric [g]).
      { unfold area_warnings. cbn [flat_map].
        now rewrite (Hsame g (or_introl eq_refl)), Hname, En. }
      now rewrite Hw.
Qed.

(** X20. The curves of the folds are returned whenever the curve metric
    succeeds on every zipped fold and the area metric, which has a name if
    it fails at all, fails by validation only; the warnings are then those
    of the folds without an area, two for each, in the order of the
    folds. *)
Theorem performance_curves_returned
    (folds_predictions folds_targets : list array)
    (sample_weights : option (list array))
    (area_metric : area_func) (curve_metric : curve_func)
    (pos_label : option label) :
  (forall f,
     In f (zip3 folds_predictions folds_targets
             (weights_of_folds folds_predictions sample_weights)) ->
     (exists c, curve_of_fold curve_metric pos_label f = Ok c) /\
     fails_validation_only (area_result area_metric f) /\
     (call_failed (area_result area_metric f) = true ->
      area___name__ area_metric <> None)) ->
  exists out,
    calculate_performance_curve_data_on_folds folds_predictions folds_targets
      sample_weights area_metric curve_metric pos_label
    = (Ok out,
       area_warnings area_metric
         (zip3 folds_predictions folds_targets
            (weights_of_folds folds_predictions sample_weights))).
Proof.
  intros H. unfold calculate_performance_curve_data_on_folds.
  now apply curve_folds_loop_run.
Qed.

(** ** Renaming the keys of the curves *)

Section CurveData.
Context {V : Type}.

Lemma dict_get_set (d : dict V) k v k' :
  dict_get (dict_set d k v) k'
  = if String.eqb k k' then Some v else dict_get d k'.
Proof.
  induction d as [|[k0 v0] d IH]; cbn [dict_set dict_get]; [reflexivity|].
  destruct (String.eqb_spec k0 k) as [->|Hne]; cbn [dict_get].
  - now destruct (String.eqb k k').
  - rewrite IH. destruct (String.eqb_spec k0 k') as [->|Hne'];
      [|reflexivity].
    destruct (String.eqb_spec k k'); [congruence|reflexivity].
Qed.

Lemma dict_get_remove (d : dict V) k k' :
  dict_get (dict_remove d k) k'
  = if String.eqb k k' then None else dict_get d k'.
Proof.
  unfold dict_remove.
  induction d as [|[k0 v0] d IH]; cbn [filter dict_get fst].
  - now destruct (String.eqb k k').
  - destruct (String.eqb_spec k0 k) as [->|Hne]; cbn [negb dict_get].
    + rewrite IH. now destruct (String.eqb k k').
    + rewrite IH. destruct (String.eqb_spec k0 k') as [->|Hne'];
        [|reflexivity].
      destruct (String.eqb_spec k k'); [congruence|reflexivity].
Qed.

Lemma dict_set_set {A} (d : dict A) k v v' :
  dict_set (dict_set d k v) k v' = dict_set d k v'.
Proof.
  induction d as [|[k0 v0] d IH]; cbn [dict_set].
  - now rewrite String.eqb_refl.
  - destruct (String.eqb_spec k0 k) as [->|Hne]; cbn [dict_set].
    + now rewrite String.eqb_refl.
    + destruct (String.eqb_spec k0 k); [congruence|]. now rewrite IH.
Qed.

Lemma keys_dict_set {A} (d : dict A) k v x :
  dict_get d k = Some x -> keys (dict_set d k v) = keys d.
Proof.
  induction d as [|[k0 v0] d IH]; cbn [dict_set dict_get]; [discriminate|].
  destruct (String.eqb_spec k0 k) as [->|Hne]; [reflexivity|].
  intros H. cbn. f_equal. now apply IH.
Qed.

Lemma dict_get_set_entry (cd : dict (curve_entry V)) k v k' :
  dict_get (dict_set cd k v) k'
  = if String.eqb k k' then Some v else dict_get cd k'.
Proof.
  induction cd as [|[k0 v0] cd IH]; cbn [dict_set dict_get]; [reflexivity|].
  destruct (String.eqb_spec k0 k) as [->|Hne]; cbn [dict_get].
  - now destruct (String.eqb k k').
  - rewrite IH. destruct (String.eqb_spec k0 k') as [->|Hne'];
      [|reflexivity].
    destruct (String.eqb_spec k k'); [congruence|reflexivity].
Qed.

Lemma move_key_ok curve_name new old (cd cd' : dict (curve_entry V)) :
  move_key curve_name new old cd = (cd', None) ->
  exists d v,
    dict_get cd curve_name = Some (CurveDict d) /\
    dict_get d old = Some v /\
    cd' = dict_set cd curve_name
            (CurveDict (dict_set (dict_remove d old) new v)).
Proof.
  unfold move_key.
  destruct (dict_get cd curve_name) as [[d|r]|]; try discriminate.
  destruct (dict_get d old) as [v|] eqn:Ev; [|discriminate].
  intros H. inversion H. now exists d, v.
Qed.

Lemma and_then_ok {S} (f g : in_place S) s s' :
  and_then f g s = (s', None) ->
  exists s1, f s = (s1, None) /\ g s1 = (s', None).
Proof.
  unfold and_then. destruct (f s) as [s1 [e|]]; [discriminate|].
  intros H. now exists s1.
Qed.

Lemma move_curve_keys_ok first second area curve_name
    (cd cd' : dict (curve_entry V)) :
  move_curve_keys first second area curve_name cd = (cd', None) ->
  exists d v1 v2 v3,
    dict_get cd curve_name = Some (CurveDict d) /\
    dict_get d "first_ret_value" = Some v1 /\
    dict_get (dict_set (dict_remove d "first_ret_value") first v1)
      "second_ret_value" = Some v2 /\
    dict_get
      (dict_set
         (dict_remove
            (dict_set (dict_remove d "first_ret_value") first v1)
            "second_ret_value") second v2) "area" = Some v3 /\
    cd' = dict_set cd curve_name
            (CurveDict
               (dict_set
                  (dict_remove
                     (dict_set
                        (dict_remove
                           (dict_set (dict_remove d "first_ret_value")
                              first v1)
                           "second_ret_value") second v2)
                     "area") area v3)).
Proof.
  unfold move_curve_keys. intros H.
  apply and_then_ok in H. destruct H as (cd1 & H1 & H).
  apply and_then_ok in H. destruct H as (cd2 & H2 & H3).
  apply move_key_ok in H1. destruct H1 as (d & v1 & Hd & Hv1 & ->).
  apply move_key_ok in H2. destruct H2 as (d1 & v2 & Hd1 & Hv2 & ->).
  apply move_key_ok in H3. destruct H3 as (d2 & v3 & Hd2 & Hv3 & ->).
  rewrite dict_get_set_entry, String.eqb_refl in Hd1.
  inversion Hd1; subst d1.
  rewrite dict_set_set, dict_get_set_entry, String.eqb_refl in Hd2.
  inversion Hd2; subst d2.
  exists d, v1, v2, v3. rewrite !dict_set_set. now repeat split.
Qed.

End CurveData.

Ltac dict_lookups :=
  repeat (rewrite dict_get_set || rewrite dict_get_remove).

Ltac moved_keys_tac Hv1 Hv2 Hv3 :=
  repeat (rewrite dict_get_set in Hv2 || rewrite dict_get_remove in Hv2);
  cbn in Hv2;
  repeat (rewrite dict_get_set in Hv3 || rewrite dict_get_remove in Hv3);
  cbn in Hv3;
  unfold moved_keys;
  repeat match goal with
  | |- _ /\ _ => split
  end;
  try congruence;
  try (dict_lookups; cbn; congruence);
  let k := fresh "k" in
  let Hk := fresh "Hk" in
  intros k Hk; dict_lookups;
  repeat match goal with
  | |- context [String.eqb ?x k] =>
      destruct (String.eqb_spec x k);
      [exfalso; apply Hk; subst k; cbn; tauto|]
  end;
  reflexivity.

Lemma roc_keys_moved {V} curve_name (cd cd' : dict (curve_entry V)) :
  move_curve_keys "FPR" "TPR" "AUC" curve_name cd = (cd', None) ->
  exists d d',
    dict_get cd curve_name = Some (CurveDict d) /\
    cd' = dict_set cd curve_name (CurveDict d') /\
    moved_keys "FPR" "TPR" "AUC" d d'.
Proof.
  clear sk outcome_calculate_metrics.
  intros H. apply move_curve_keys_ok in H.
  destruct H as (d & v1 & v2 & v3 & Hd & Hv1 & Hv2 & Hv3 & ->).
  eexists d, _. split; [exact Hd|]. split; [reflexivity|].
  moved_keys_tac Hv1 Hv2 Hv3.
Qed.

Lemma pr_keys_moved {V} curve_name (cd cd' : dict (curve_entry V)) :
  move_curve_keys "Precision" "Recall" "AP" curve_name cd = (cd', None) ->
  exists d d',
    dict_get cd curve_name = Some (CurveDict d) /\
    cd' = dict_set cd curve_name (CurveDict d') /\
    moved_keys "Precision" "Recall" "AP" d d'.
Proof.
  clear sk outcome_calculate_metrics.
  intros H. apply move_curve_keys_ok in H.
  destruct H as (d & v1 & v2 & v3 & Hd & Hv1 & Hv2 & Hv3 & ->).
  eexists d, _. split; [exact Hd|]. split; [reflexivity|].
  moved_keys_tac Hv1 Hv2 Hv3.
Qed.

Lemma for_each_moved {V} (body : string -> in_place (dict (curve_entry V)))
    (Rel : dict V -> dict V -> Prop) :
  (forall cn cd cd',
     body cn cd = (cd', None) ->
     exists d d',
       dict_get cd cn = Some (CurveDict d) /\
       cd' = dict_set cd cn (CurveDict d') /\ Rel d d') ->
  forall names cd cd',
    NoDup names ->
    for_each names body cd = (cd', None) ->
    keys cd' = keys cd /\
    (forall n, ~ In n names -> dict_get cd' n = dict_get cd n) /\
    (forall n, In n names ->
       exists d d',
         dict_get cd n = Some (CurveDict d) /\
         dict_get cd' n = Some (CurveDict d') /\ Rel d d').
Proof.
  intros Hbody. induction names as [|n names IH]; intros cd cd' Hnd H.
  - inversion H; subst. repeat split; auto. intros n [].
  - cbn [for_each] in H. apply and_then_ok in H.
    destruct H as (cd1 & H1 & H2).
    inversion Hnd as [|? ? Hn Hnd']; subst.
    destruct (Hbody _ _ _ H1) as (d & d' & Hd & -> & Hrel).
    destruct (IH _ _ Hnd' H2) as (Hk & Hout & Hin).
    split; [rewrite Hk; now apply keys_dict_set with (CurveDict d)|].
    split.
    + intros m Hm. rewrite Hout by (intros Hm'; apply Hm; now right).
      rewrite dict_get_set_entry.
      destruct (String.eqb_spec n m) as [->|]; [|reflexivity].
      exfalso. apply Hm. now left.
    + intros m [<-|Hm].
      * exists d, d'. split; [exact Hd|]. split; [|exact Hrel].
        rewrite (Hout n Hn), dict_get_set_entry. now rewrite String.eqb_refl.
      * destruct (Hin m Hm) as (dm & dm' & Hdm & Hdm' & Hr).
        exists dm, dm'. split; [|now split].
        rewrite dict_get_set_entry in Hdm.
        destruct (String.eqb_spec n m) as [->|]; [contradiction|exact Hdm].
Qed.

(** X21. When [calculate_roc_curve] returns, [curve_data] has the same
    curves in the same order, and in the dictionary of each one the values
    of "first_ret_value", "second_ret_value" and "area" are under "FPR",
    "TPR" and "AUC", the three old keys are gone, and every other key has
    the value it had. *)
Theorem roc_curve_keys_renamed {V : Type}
    (curve_data curve_data' : dict (curve_entry V)) :
  NoDup (keys curve_data) ->
  calculate_roc_curve curve_data = (curve_data', None) ->
  keys curve_data' = keys curve_data /\
  forall curve_name,
    In curve_name (keys curve_data) ->
    exists d d',
      dict_get curve_data curve_name = Some (CurveDict d) /\
      dict_get curve_data' curve_name = Some (CurveDict d') /\
      moved_keys "FPR" "TPR" "AUC" d d'.
Proof.
  intros Hnd H. unfold calculate_roc_curve in H.
  destruct (for_each_moved _ _ roc_keys_moved _ _ _ Hnd H) as (Hk & _ & Hin).
  now split.
Qed.

Lemma values_max_In (vs : list Z) : vs <> [] -> In (values_max vs) vs.
Proof.
  destruct vs as [|z vs]; [congruence|]. intros _. cbn [values_max].
  revert z. induction vs as [|v vs IH]; intros z; [now left|].
  cbn [fold_left]. destruct (IH (Z.max z v)) as [H|H].
  - rewrite <- H. destruct (Z.max_spec z v) as [[_ ->]|[_ ->]];
      [right; now left|now left].
  - right. now right.
Qed.

Lemma prevalence_of_range targets p :
  prevalence_of targets = Ok p ->
  s_values targets <> [] /\
  (0 < p <= 1)%R /\
  (p * INR (List.length (s_values targets))
   = INR (count_occ Z.eq_dec (s_values targets)
            (values_max (s_values targets))))%R.
Proof.
  unfold prevalence_of. destruct (s_values targets) as [|v vs];
    [discriminate|].
  cbn beta iota. set (l := v :: vs).
  assert (Hne : l <> []) by discriminate. clearbody l.
  intros H. inversion H; subst p. clear H.
  pose proof (values_max_In _ Hne) as Hin.
  apply (count_occ_In Z.eq_dec) in Hin.
  pose proof (count_occ_bound Z.eq_dec (values_max l) l) as Hb.
  set (c := count_occ Z.eq_dec l (values_max l)) in *.
  assert (Hl : (0 < List.length l)%nat) by (destruct l; [congruence|cbn; lia]).
  set (n := List.length l) in *.
  assert (Hc : (0 < INR c)%R) by (apply lt_0_INR; lia).
  assert (Hn : (0 < INR n)%R) by (apply lt_0_INR; lia).
  assert (Hcn : (INR c <= INR n)%R) by (apply le_INR; lia).
  split; [exact Hne|]. split.
  - split.
    + now apply Rdiv_lt_0_compat.
    + apply Rmult_le_reg_r with (INR n); [exact Hn|].
      unfold Rdiv. rewrite Rmult_assoc, Rinv_l by lra. lra.
  - unfold Rdiv. rewrite Rmult_assoc, Rinv_l by lra. lra.
Qed.

(** X22. When [calculate_pr_curve] returns, the targets were not empty,
    "prevalence" holds the share of the largest target label, a number
    above 0 and at most 1, and in the dictionary of every curve not named
    "prevalence" the three values are under "Precision", "Recall" and
    "AP"; for empty targets the same call raises [KeyError] only after
    the curves were renamed in place. *)
Theorem pr_curve_keys_renamed {V : Type}
    (curve_data curve_data' : dict (curve_entry V)) (targets : Series Z) :
  NoDup (keys curve_data) ->
  calculate_pr_curve targets curve_data = (curve_data', None) ->
  s_values targets <> [] /\
  exists p renamed,
    curve_data' = dict_set renamed "prevalence" (Number p) /\
    (0 < p <= 1)%R /\
    (p * INR (List.length (s_values targets))
     = INR (count_occ Z.eq_dec (s_values targets)
              (values_max (s_values targets))))%R /\
    keys renamed = keys curve_data /\
    (forall curve_name,
       In curve_name (keys curve_data) ->
       curve_name <> "prevalence" ->
       exists d d',
         dict_get curve_data curve_name = Some (CurveDict d) /\
         dict_get curve_data' curve_name = Some (CurveDict d') /\
         moved_keys "Precision" "Recall" "AP" d d') /\
    (forall no_targets,
       s_values no_targets = [] ->
       calculate_pr_curve no_targets curve_data
       = (renamed, Some (KeyError "nan"))).
Proof.
  intros Hnd H. unfold calculate_pr_curve in H.
  apply and_then_ok in H. destruct H as (renamed & Hloop & H).
  destruct (prevalence_of targets) as [p|e] eqn:Ep; [|discriminate].
  inversion H; subst curve_data'. clear H.
  destruct (prevalence_of_range _ _ Ep) as (Hne & Hp & Hcount).
  split; [exact Hne|]. exists p, renamed.
  destruct (for_each_moved _ _ pr_keys_moved _ _ _ Hnd Hloop)
    as (Hk & _ & Hin).
  split; [reflexivity|]. split; [exact Hp|]. split; [exact Hcount|].
  split; [exact Hk|]. split.
  - intros cn Hcn Hpv. destruct (Hin cn Hcn) as (d & d' & Hd & Hd' & Hr).
    exists d, d'. split; [exact Hd|]. split; [|exact Hr].
    rewrite dict_get_set_entry.
    destruct (String.eqb_spec "prevalence" cn); [congruence|exact Hd'].
  - intros t0 Ht0. unfold calculate_pr_curve, and_then. rewrite Hloop.
    unfold prevalence_of. now rewrite Ht0.
Qed.

Lemma spent_stops {V} first second area names (cd : dict (curve_entry V)) n :
  match dict_get cd n with
  | Some (CurveDict d) => dict_get d "first_ret_value" = None
  | Some (Number _) => True
  | None => False
  end ->
  stops_at_once cd
    (for_each (n :: names) (move_curve_keys first second area) cd).
Proof.
  intros H. cbn [for_each]. unfold and_then, move_curve_keys, and_then, move_key.
  destruct (dict_get cd n) as [[d|r]|]; [|now right|contradiction].
  rewrite H. now left.
Qed.

Lemma moved_is_spent {V} first second area (cd cd' : dict (curve_entry V)) :
  NoDup (keys cd) ->
  (forall cn (s s' : dict (curve_entry V)),
     move_curve_keys first second area cn s = (s', None) ->
     exists d d',
       dict_get s cn = Some (CurveDict d) /\
       s' = dict_set s cn (CurveDict d') /\
       moved_keys first second area d d') ->
  for_each (keys cd) (move_curve_keys first second area) cd = (cd', None) ->
  keys cd' = keys cd /\
  forall n, In n (keys cd) ->
    match dict_get cd' n with
    | Some (CurveDict d) => dict_get d "first_ret_value" = None
    | Some (Number _) => True
    | None => False
    end.
Proof.
  clear sk outcome_calculate_metrics.
  intros Hnd Hbody H.
  destruct (for_each_moved _ _ Hbody _ _ _ Hnd H) as (Hk & _ & Hin).
  split; [exact Hk|]. intros n Hn.
  destruct (Hin n Hn) as (d & d' & _ & -> & Hr).
  unfold moved_keys in Hr. tauto.
Qed.

(** X23. Both functions use up their input: once either has returned, the
    renamed [curve_data] can be given to neither again (a result of
    [calculate_roc_curve] without curves apart); the call raises on the
    first entry, [KeyError] for "first_ret_value" or, on the prevalence,
    [AttributeError], and leaves [curve_data] as it was. *)
Theorem curve_data_used_up {V : Type}
    (curve_data curve_data' : dict (curve_entry V)) (targets : Series Z) :
  NoDup (keys curve_data) ->
  (calculate_roc_curve curve_data = (curve_data', None) /\ curve_data <> []) \/
  calculate_pr_curve targets curve_data = (curve_data', None) ->
  forall targets',
    stops_at_once curve_data' (calculate_roc_curve curve_data') /\
    stops_at_once curve_data' (calculate_pr_curve targets' curve_data').
Proof.
  intros Hnd H targets'.
  assert (Hfirst : exists n names,
            keys curve_data' = n :: names /\
            match dict_get curve_data' n with
            | Some (CurveDict d) => dict_get d "first_ret_value" = None
            | Some (Number _) => True
            | None => False
            end).
  { destruct H as [[H Hne]|H].
    - destruct (moved_is_spent _ _ _ _ _ Hnd roc_keys_moved H) as [Hk Hs].
      destruct curve_data as [|[n e] rest]; [congruence|].
      exists n, (keys rest). split; [exact Hk|]. apply Hs. now left.
    - unfold calculate_pr_curve in H.
      apply and_then_ok in H. destruct H as (renamed & Hloop & H).
      destruct (prevalence_of targets) as [p|e]; [|discriminate].
      inversion H; subst curve_data'. clear H.
      destruct (moved_is_spent _ _ _ _ _ Hnd pr_keys_moved Hloop) as [Hk Hs].
      destruct curve_data as [|[n e] rest].
      + destruct renamed; [|discriminate].
        exists "prevalence", []. split; reflexivity.
      + destruct renamed as [|[n' e'] renamed']; [discriminate|].
        cbn in Hk. inversion Hk; subst n'.
        pose proof (Hs n (or_introl eq_refl)) as Hn.
        exists n, (keys (tl (dict_set ((n, e') :: renamed') "prevalence"
                               (Number p)))).
        split.
        * cbn [dict_set]. now destruct (String.eqb n "prevalence").
        * rewrite dict_get_set_entry.
          destruct (String.eqb "prevalence" n); [exact I|exact Hn]. }
  destruct Hfirst as (n & names & Hk & Hs).
  split.
  - unfold calculate_roc_curve. rewrite Hk. now apply spent_stops.
  - unfold calculate_pr_curve.
    pose proof (spent_stops "Precision" "Recall" "AP" names _ _ Hs) as Hst.
    rewrite <- Hk in Hst. unfold and_then.
    destruct Hst as [-> | ->]; [now left|now right].
Qed.

End Evaluation.

Arguments CurveDict {V} d.
Arguments Number {V} r.

(** * Instances *)

(** ** The scorers on the sample data *)

Lemma sample_metrics_NoDup :
  NoDup (keys (binary_metrics sample_sk (Some sample_metrics) true)).
Proof.
  repeat constructor; cbn; intuition discriminate.
Defined.

Lemma sample_regression_metrics_NoDup :
  NoDup (keys (regression_metrics sample_sk (Some sample_regression_metrics))).
Proof.
  repeat constructor; cbn; intuition discriminate.
Defined.

Lemma sample_metrics_validation (y_true : array) (y_pred_proba y_pred : option array) :
  forall n f input,
    In (n, f) (binary_metrics sample_sk (Some sample_metrics) true) ->
    required_input n y_pred_proba y_pred = Some input ->
    fails_validation_only (f y_true input None).
Proof.
  intros n f input [H|[H|[]]] _ e He; inversion H; subst;
    inversion He; subst; eauto.
Defined.

Lemma sample_regression_metrics_validation (y_true y_pred : array) :
  forall n f,
    In (n, f) (regression_metrics sample_sk (Some sample_regression_metrics)) ->
    fails_validation_only (f y_true y_pred None).
Proof.
  intros n f [H|[H|[]]] e He; inversion H; subst;
    inversion He; subst; eauto.
Defined.

(** With the continuous score alone, the metric of the discrete prediction
    is left out and the failed metric of the continuous score is NaN. *)
Lemma score_binary_prediction_routing_witness :
  NoDup (keys (binary_metrics sample_sk (Some sample_metrics) true)) /\
  exists s w,
    score_binary_prediction sample_sk (IntSeries sample_a)
      (Some (FloatSeries sample_w)) None None (Some sample_metrics) true
    = (Ok s, w) /\
    keys (ss_items s) = ["roc_auc"] /\
    dict_get (ss_items s) "roc_auc" = Some NaN /\
    dict_get (ss_items s) "accuracy" = None.
Proof.
  split; [exact sample_metrics_NoDup|].
  destruct (score_binary_prediction_routing sample_sk (IntSeries sample_a)
              (Some (FloatSeries sample_w)) None None (Some sample_metrics)
              true sample_metrics_NoDup) as [_ [Hinv Htot]].
  destruct (Htot (sample_metrics_validation _ _ _)) as (s & w & Hrun).
  exists s, w. split; [exact Hrun|].
  destruct (Hinv s w Hrun) as [Hget Hkeys].
  split; [exact Hkeys|]. split.
  - exact (Hget "roc_auc" _ (or_intror (or_introl eq_refl))).
  - exact (Hget "accuracy" _ (or_introl eq_refl)).
Defined.

(** Both scorers return on the sample data, with NaN and a warning for the
    metric that fails validation. *)
Lemma scorers_absorb_validation_failures_witness :
  NoDup (keys (binary_metrics sample_sk (Some sample_metrics) true)) /\
  NoDup (keys (regression_metrics sample_sk (Some sample_regression_metrics))) /\
  (exists s w,
     score_binary_prediction sample_sk (IntSeries sample_a)
       (Some (FloatSeries sample_w)) (Some (IntSeries sample_a)) None
       (Some sample_metrics) true = (Ok s, w) /\
     dict_get (ss_items s) "accuracy" = Some (Scalar 1) /\
     dict_get (ss_items s) "roc_auc" = Some NaN /\
     In "metric roc_auc could not be evaluated" w) /\
  (exists out w,
     score_regression_prediction sample_sk (FloatSeries sample_y)
       (FloatSeries sample_x) None (Some sample_regression_metrics)
     = (Ok out, w) /\
     dict_get out "mse" = Some (Scalar 0) /\
     dict_get out "msle" = Some NaN /\
     In "While evaluating msle: Targets contain negative values." w).
Proof.
  split; [exact sample_metrics_NoDup|].
  split; [exact sample_regression_metrics_NoDup|].
  destruct (scorers_absorb_validation_failures sample_sk
              (IntSeries sample_a) (Some (FloatSeries sample_w))
              (Some (IntSeries sample_a)) None (Some sample_metrics) true
              (FloatSeries sample_y) (FloatSeries sample_x) None
              (Some sample_regression_metrics)
              sample_metrics_NoDup sample_regression_metrics_NoDup
              (sample_metrics_validation _ _ _)
              (sample_regression_metrics_validation _ _))
    as [(s & w & Hrun & Hb) (out & w' & Hrun' & Hr)].
  split.
  - exists s, w. split; [exact Hrun|].
    pose proof (Hb "accuracy" _ (IntSeries sample_a) (or_introl eq_refl) eq_refl)
      as H1.
    pose proof (Hb "roc_auc" _ (FloatSeries sample_w)
                  (or_intror (or_introl eq_refl)) eq_refl) as H2.
    cbn in H1, H2. destruct H2 as (H2 & H3 & _). auto.
  - exists out, w'. split; [exact Hrun'|].
    pose proof (Hr "mse" _ (or_introl eq_refl)) as H1.
    pose proof (Hr "msle" _ (or_intror (or_introl eq_refl))) as H2.
    cbn in H1, H2. destruct H2 as (H2 & H3). split; [exact H1|].
    split; [exact H2|]. exact (H3 _ eq_refl).
Defined.

(** ** The modules that cannot be imported *)

(** A dictionary handed over as predictions does not reach the error that
    names its type. *)
Example score_estimation_on_a_dictionary :
  score_estimation sample_sk sample_smd sample_ks sample_outcome_metrics
    (OtherPrediction "<class 'dict'>") sample_X sample_a sample_y None
  = (Raise (ImportError "Scorer"), []).
Proof. reflexivity. Qed.

(** The predictions of a weight model are not scored, by themselves or
    fold by fold. *)
Example calculate_metrics_on_the_sample :
  calculate_metrics sample_sk sample_smd sample_ks
    (sample_weight_prediction 0 2) sample_X sample_a None
  = (Raise (ImportError "Scorer"), []) /\
  score_cv sample_sk sample_smd sample_ks sample_outcome_metrics
    sample_weight_predictions sample_X sample_a sample_y sample_cv None
  = (Raise (ImportError "Scorer"), []).
Proof. split; reflexivity. Qed.

(** Neither an outcome model nor an object that is no estimator gets
    results. *)
Example make_on_the_sample_models :
  make (ScoreTable (sample_table 0))
    (ModelsDict [("train", [sample_outcome_model])])
    [("train", [sample_outcome_prediction false;
                sample_outcome_prediction true])]
    sample_cv sample_X sample_a sample_y
  = Raise (AttributeError "PlotAllMixin") /\
  make (ScoreTable (sample_table 0)) (ModelsList [sample_unknown_model])
    sample_predictions sample_cv sample_X sample_a sample_y
  = Raise (AttributeError "PlotAllMixin").
Proof. split; reflexivity. Qed.

(** ** Covariate balance on the sample data *)

Lemma sample_smd_swap (x y wx wy : Series R) :
  sample_smd y x wy wx = result_map cell_opp (sample_smd x y wx wy).
Proof.
  unfold sample_smd. cbn [result_map cell_opp]. f_equal. f_equal. lra.
Defined.

(** The sample assignment has the two levels 0 and 1. With a signed
    distance the two levels get opposite values, which differ, and the
    absolute values agree. *)
Lemma two_level_distances_witness :
  sort_unique (s_values sample_a) = [0; 1]%Z /\
  calculate_distribution_distance_for_single_feature sample_smd sample_ks
    sample_x sample_w sample_a 0 (MetricName "smd")
  = result_map cell_opp
      (calculate_distribution_distance_for_single_feature sample_smd
         sample_ks sample_x sample_w sample_a 1 (MetricName "smd")) /\
  calculate_distribution_distance_for_single_feature sample_smd sample_ks
    sample_x sample_w sample_a 0 (MetricName "smd")
  <> calculate_distribution_distance_for_single_feature sample_smd sample_ks
       sample_x sample_w sample_a 1 (MetricName "smd") /\
  calculate_distribution_distance_for_single_feature sample_smd sample_ks
    sample_x sample_w sample_a 0 (MetricName "abs_smd")
  = calculate_distribution_distance_for_single_feature sample_smd sample_ks
      sample_x sample_w sample_a 1 (MetricName "abs_smd").
Proof.
  split; [reflexivity|].
  destruct (two_level_distances sample_smd sample_ks sample_x sample_w
              sample_a 0 1 eq_refl) as (_ & _ & _ & Hsmd & _).
  destruct (Hsmd sample_smd_swap) as [Hopp Habs].
  split; [exact Hopp|]. split; [|exact Habs].
  rewrite Hopp.
  assert (H1 : calculate_distribution_distance_for_single_feature sample_smd
                 sample_ks sample_x sample_w sample_a 1 (MetricName "smd")
               = Ok (Scalar (weighted_total (mkSeries (Some (LStr "x0"))
                                               [LInt 0; LInt 1] [1; 5]%R)
                                            (mkSeries None
                                               [LInt 0; LInt 1] [1; 1]%R)
                             - weighted_total (mkSeries (Some (LStr "x0"))
                                                 [LInt 2; LInt 3] [0; 2]%R)
                                              (mkSeries None
                                                 [LInt 2; LInt 3] [1; 1]%R))))
    by reflexivity.
  rewrite H1. cbn [result_map cell_opp]. unfold weighted_total. cbn.
  intros H. injection H as H. lra.
Defined.

(** The balance table of the sample data has the two balance columns and
    the two covariates as rows. *)
Lemma covariate_balance_two_levels_witness :
  List.length (sort_unique (s_values sample_a)) = 2%nat /\
  exists df,
    calculate_covariate_balance sample_smd sample_ks sample_X sample_a
      sample_w (MetricName "abs_smd") = Ok df /\
    columns df = [[LStr "weighted"]; [LStr "unweighted"]] /\
    map fst (rows df) = [[LStr "x0"]; [LStr "x1"]].
Proof.
  split; [reflexivity|].
  destruct (covariate_balance_two_levels sample_smd sample_ks sample_X
              sample_a sample_w (MetricName "abs_smd") eq_refl)
    as (Hinv & Htot).
  destruct Htot as [df Hdf].
  { intros treatment_value c [<-|[<-|[]]] [<-|[<-|[]]];
      split; eexists; reflexivity. }
  exists df. split; [exact Hdf|].
  destruct (Hinv df Hdf) as (_ & Hc & Hk & _).
  split; [exact Hc|exact Hk].
Defined.

(** ** Aggregation on the sample tables *)



(** What the aggregation requires of the tables: without a phase, with
    row labels of different depth, or with a column repeated in a table
    whose columns are not those of the others, there is no aggregate. *)
Example combine_fold_scores_no_aggregate :
  _combine_fold_scores (as_score_tables [])
    = Raise (ValueError "No objects to concatenate") /\
  _combine_fold_scores
    (as_score_tables [("train", [sample_table 1; sample_deep_table])])
    = Raise (AssertionError
        "Cannot concat indices that do not have the same number of levels") /\
  _combine_fold_scores
    (as_score_tables [("train", [sample_table 1; sample_repeated_table])])
    = Raise InvalidIndexError.
Proof. repeat split. Qed.

(** ** score_cv on the sample data *)


(** ** The edges of the scorers *)

(** A confusion matrix among the scores makes the series one of objects. *)
Lemma score_binary_prediction_dtype_witness :
  NoDup (keys (binary_metrics sample_sk
                 (Some [("confusion_matrix", sample_matrix_metric)]) false)) /\
  exists s w,
    score_binary_prediction sample_sk (IntSeries sample_a) None
      (Some (IntSeries sample_a)) None
      (Some [("confusion_matrix", sample_matrix_metric)]) false = (Ok s, w) /\
    ss_dtype s = DObject.
Proof.
  assert (Hnd : NoDup (keys (binary_metrics sample_sk
                 (Some [("confusion_matrix", sample_matrix_metric)]) false))).
  { repeat constructor; cbn; intuition discriminate. }
  split; [exact Hnd|].
  assert (Hrun : exists s w,
            score_binary_prediction sample_sk (IntSeries sample_a) None
              (Some (IntSeries sample_a)) None
              (Some [("confusion_matrix", sample_matrix_metric)]) false
            = (Ok s, w)).
  { eexists. eexists. vm_compute. reflexivity. }
  destruct Hrun as (s & w & Hrun). exists s, w. split; [exact Hrun|].
  apply (proj2 (score_binary_prediction_dtype sample_sk _ _ _ _ _ _ _ _
                  Hnd Hrun)).
  exists "confusion_matrix", sample_matrix_metric, (IntSeries sample_a),
    [1; 0; 0; 1]%R.
  split; [split; [now left|reflexivity]|reflexivity].
Defined.

(** A [TypeError] of the second metric ends the call; the third metric
    plays no part. *)
Lemma score_binary_prediction_propagates_witness :
  required_input "hinge" (Some (FloatSeries sample_w))
    (Some (IntSeries sample_a)) = Some (FloatSeries sample_w) /\
  not_validation (TypeError "unsupported operand type(s)") /\
  score_binary_prediction sample_sk (IntSeries sample_a)
    (Some (FloatSeries sample_w)) (Some (IntSeries sample_a)) None
    (Some (("accuracy", fun _ _ _ => Ok (Scalar 1))
             :: ("hinge", sample_broken_metric) :: sample_metrics)) true
  = (Raise (TypeError "unsupported operand type(s)"), []).
Proof.
  assert (Hnv : not_validation (TypeError "unsupported operand type(s)")).
  { intros msg H. discriminate. }
  split; [reflexivity|]. split; [exact Hnv|].
  refine (proj1 (score_binary_prediction_propagates sample_sk
                   (IntSeries sample_a) (Some (FloatSeries sample_w))
                   (Some (IntSeries sample_a)) None
                   [("accuracy", fun _ _ _ => Ok (Scalar 1))] sample_metrics
                   "hinge" sample_broken_metric (FloatSeries sample_w)
                   (TypeError "unsupported operand type(s)") true
                   eq_refl eq_refl Hnv _ [])).
  intros n' f' input' [H|[]] _ e He. inversion H; subst. discriminate.
Defined.

Lemma score_regression_prediction_propagates_witness :
  not_validation (TypeError "unsupported operand type(s)") /\
  score_regression_prediction sample_sk (FloatSeries sample_y)
    (FloatSeries sample_x) None
    (Some (sample_regression_metrics ++ [("r2", sample_broken_metric)]))
  = (Raise (TypeError "unsupported operand type(s)"),
     ["While evaluating msle: Targets contain negative values."]).
Proof.
  assert (Hnv : not_validation (TypeError "unsupported operand type(s)")).
  { intros msg H. discriminate. }
  split; [exact Hnv|].
  refine (proj1 (score_regression_prediction_propagates sample_sk
                   (FloatSeries sample_y) (FloatSeries sample_x) None
                   sample_regression_metrics [] "r2" sample_broken_metric
                   (TypeError "unsupported operand type(s)")
                   eq_refl Hnv _ [])).
  intros n' f'. apply sample_regression_metrics_validation.
Defined.

(** Both sample metrics are recorded, with one warning for the one that
    failed. *)
Lemma score_regression_prediction_records_all_witness :
  NoDup (keys (regression_metrics sample_sk (Some sample_regression_metrics))) /\
  exists out w,
    score_regression_prediction sample_sk (FloatSeries sample_y)
      (FloatSeries sample_x) None (Some sample_regression_metrics)
    = (Ok out, w) /\
    keys out = ["mse"; "msle"] /\ List.length w = 1%nat.
Proof.
  split; [exact sample_regression_metrics_NoDup|].
  assert (Hrun : exists out w,
            score_regression_prediction sample_sk (FloatSeries sample_y)
              (FloatSeries sample_x) None (Some sample_regression_metrics)
            = (Ok out, w)).
  { eexists. eexists. vm_compute. reflexivity. }
  destruct Hrun as (out & w & Hrun). exists out, w. split; [exact Hrun|].
  destruct (score_regression_prediction_records_all sample_sk _ _ _ _ _ _
              sample_regression_metrics_NoDup Hrun) as (Hk & _ & Hw).
  split; [exact Hk|exact Hw].
Defined.

(** With the stand-in library the empty dictionary gives the six default
    regression scores. *)
Lemma empty_metrics_dictionary_witness :
  (forall name,
     fails_validation_only
       (sample_sk name (FloatSeries sample_y) (FloatSeries sample_x) None)) /\
  exists out w,
    score_regression_prediction sample_sk (FloatSeries sample_y)
      (FloatSeries sample_x) None (Some []) = (Ok out, w) /\
    keys out = ["expvar"; "mae"; "mse"; "msle"; "mdae"; "r2"].
Proof.
  assert (Hv : forall name,
            fails_validation_only
              (sample_sk name (FloatSeries sample_y) (FloatSeries sample_x)
                 None)).
  { intros name e He. discriminate. }
  split; [exact Hv|].
  destruct (empty_metrics_dictionary sample_sk (FloatSeries sample_y)
              (FloatSeries sample_x) None None None true Hv
              (Hv "median_absolute_error"))
    as (_ & (out & w & Hrun & Hk & _) & _).
  exists out, w. split; [exact Hrun|exact Hk].
Defined.

(** ** Covariate balance: the edges *)

(** The treated samples of the sample data are the first two. *)
Lemma one_vs_rest_partition_witness :
  s_index sample_x = s_index sample_a /\
  s_index sample_w = s_index sample_a /\
  exists x_treated x_untreated w_treated w_untreated,
    calculate_distribution_distance_for_single_feature sample_smd sample_ks
      sample_x sample_w sample_a 1 (MetricCallable "<lambda>" sample_distance)
    = sample_distance x_treated x_untreated w_treated w_untreated /\
    s_values x_treated = [1; 5]%R /\
    s_values x_untreated = [0; 2]%R.
Proof.
  split; [reflexivity|]. split; [reflexivity|].
  destruct (one_vs_rest_partition sample_smd sample_ks sample_x sample_w
              sample_a 1 "<lambda>" sample_distance
              eq_refl eq_refl eq_refl eq_refl)
    as (xt & xu & wt & wu & Hrun & Hxt & _ & Hxu & _).
  exists xt, xu, wt, wu. split; [exact Hrun|].
  split; [exact Hxt|exact Hxu].
Defined.

(** A name that the registry of distances does not have. *)
Lemma unknown_distance_name_witness :
  dict_get (DISTRIBUTION_DISTANCE_METRICS sample_smd sample_ks) "euclid"
    = None /\
  s_values sample_a <> [] /\
  calculate_covariate_balance sample_smd sample_ks sample_X sample_a sample_w
    (MetricName "euclid")
  = Raise (KeyError "euclid").
Proof.
  assert (Ha : s_values sample_a <> []) by discriminate.
  split; [reflexivity|]. split; [exact Ha|].
  destruct (unknown_distance_name sample_smd sample_ks sample_X sample_a
              sample_w "euclid" eq_refl Ha) as (_ & H & _).
  apply H. discriminate.
Defined.

Lemma covariate_balance_no_samples_witness :
  s_values sample_no_a = [] /\
  calculate_covariate_balance sample_smd sample_ks sample_X sample_no_a
    sample_w (MetricName "abs_smd")
  = Raise (ValueError "No objects to concatenate").
Proof.
  split; [reflexivity|].
  exact (covariate_balance_no_samples sample_smd sample_ks sample_X
           sample_no_a sample_w (MetricName "abs_smd") eq_refl).
Defined.

(** Three levels give six columns. *)
Lemma covariate_balance_keeps_levels_witness :
  List.length (sort_unique (s_values sample_a3)) <> 2%nat /\
  exists df,
    calculate_covariate_balance sample_smd sample_ks sample_X sample_a3
      sample_w (MetricName "abs_smd") = Ok df /\
    columns df
    = [ [LInt 0; LStr "weighted"]; [LInt 0; LStr "unweighted"];
        [LInt 1; LStr "weighted"]; [LInt 1; LStr "unweighted"];
        [LInt 2; LStr "weighted"]; [LInt 2; LStr "unweighted"] ] /\
    map fst (rows df) = [[LStr "x0"]; [LStr "x1"]].
Proof.
  assert (Hlen : List.length (sort_unique (s_values sample_a3)) <> 2%nat).
  { vm_compute. discriminate. }
  split; [exact Hlen|].
  destruct (covariate_balance_keeps_levels sample_smd sample_ks sample_X
              sample_a3 sample_w (MetricName "abs_smd") Hlen)
    as (Hinv & Htot).
  assert (Ha : s_values sample_a3 <> []) by discriminate.
  destruct Htot as [df Hdf]; [|exact Ha|].
  { intros treatment_value c [<-|[<-|[<-|[]]]] [<-|[<-|[]]];
      split; eexists; reflexivity. }
  exists df. split; [exact Hdf|].
  destruct (Hinv df Hdf) as (Hc & _ & _ & Hk & _).
  split; [exact Hc|exact Hk].
Defined.

(** ** Aggregation: the edges *)

(** The pair of a weight model after a score table. *)
Lemma combine_fold_scores_rejects_pairs_witness :
  In (WeightEvaluatorScores (sample_table 1) (sample_table 2))
     [ScoreTable (sample_table 1);
      WeightEvaluatorScores (sample_table 1) (sample_table 2)] /\
  _combine_fold_scores
    [("train", [ScoreTable (sample_table 1);
                WeightEvaluatorScores (sample_table 1) (sample_table 2)])]
  = Raise (not_concatenable
             "<class 'causallib.evaluation.metrics.WeightEvaluatorScores'>").
Proof.
  split; [right; now left|].
  exact (proj2 (combine_fold_scores_rejects_pairs
                  [("train", [ScoreTable (sample_table 1);
                              WeightEvaluatorScores (sample_table 1)
                                (sample_table 2)])]
                  "train" _ (sample_table 1) (sample_table 2)
                  (or_introl eq_refl) (or_intror (or_introl eq_refl)))
               [sample_table 1] [] [] eq_refl).
Defined.

(** ** score_cv on the sample data: what the run required *)

(** The sample run scores outcome predictions and returns a table. *)
Lemma score_cv_outcome_predictions_only_witness :
  NoDup (keys sample_predictions) /\
  exists r w,
    score_cv sample_sk sample_smd sample_ks sample_outcome_metrics
      sample_predictions sample_X sample_a sample_y sample_cv
      (Some sample_metrics) = (Ok r, w) /\
    exists t, r = ScoreTable t.
Proof.
  assert (Hnd : NoDup (keys sample_predictions)).
  { repeat constructor; cbn; intuition discriminate. }
  split; [exact Hnd|].
  assert (Hex : exists r w,
            score_cv sample_sk sample_smd sample_ks sample_outcome_metrics
              sample_predictions sample_X sample_a sample_y sample_cv
              (Some sample_metrics)
            = (Ok r, w)).
  { eexists. eexists. vm_compute. reflexivity. }
  destruct Hex as (r & w & Hrun). exists r, w. split; [exact Hrun|].
  exact (proj1 (score_cv_outcome_predictions_only sample_sk sample_smd
                  sample_ks sample_outcome_metrics sample_predictions
                  sample_X sample_a sample_y sample_cv (Some sample_metrics)
                  r w Hnd Hrun)).
Defined.

Lemma score_cv_requirements_witness :
  NoDup (keys sample_predictions) /\
  exists r w,
    score_cv sample_sk sample_smd sample_ks sample_outcome_metrics
      sample_predictions sample_X sample_a sample_y sample_cv
      (Some sample_metrics) = (Ok r, w) /\
    forall fold, In fold sample_cv ->
      exists data,
        slice_fold sample_X sample_a sample_y (fst fold) (snd fold) = Ok data.
Proof.
  assert (Hnd : NoDup (keys sample_predictions)).
  { repeat constructor; cbn; intuition discriminate. }
  split; [exact Hnd|].
  assert (Hex : exists r w,
            score_cv sample_sk sample_smd sample_ks sample_outcome_metrics
              sample_predictions sample_X sample_a sample_y sample_cv
              (Some sample_metrics)
            = (Ok r, w)).
  { eexists. eexists. vm_compute. reflexivity. }
  destruct Hex as (r & w & Hrun). exists r, w. split; [exact Hrun|].
  destruct (score_cv_requirements sample_sk sample_smd sample_ks
              sample_outcome_metrics sample_predictions sample_X sample_a
              sample_y sample_cv (Some sample_metrics) r w Hnd Hrun)
    as (_ & _ & Hs & _).
  exact Hs.
Defined.

(** ** The curves of the folds *)

(** Two predictions and one target make one fold; its area is NaN, with
    two warnings. *)
Lemma performance_curves_per_fold_witness :
  exists area_folds first_ret_folds second_ret_folds threshold_folds w,
    calculate_performance_curve_data_on_folds
      [FloatSeries sample_w; FloatSeries sample_w] [IntSeries sample_a] None
      sample_area sample_curve None
    = (Ok (area_folds, first_ret_folds, second_ret_folds, threshold_folds), w) /\
    area_folds = [NaN] /\
    List.length first_ret_folds = 1%nat /\
    List.length w = 2%nat.
Proof.
  assert (Hex : exists a f s t w,
            calculate_performance_curve_data_on_folds
              [FloatSeries sample_w; FloatSeries sample_w]
              [IntSeries sample_a] None sample_area sample_curve None
            = (Ok (a, f, s, t), w)).
  { do 5 eexists. vm_compute. reflexivity. }
  destruct Hex as (a & f & s & t & w & Hrun). exists a, f, s, t, w.
  split; [exact Hrun|].
  destruct (performance_curves_per_fold _ _ _ _ _ _ _ _ _ _ _ Hrun)
    as (_ & Ha & _ & Hf & _ & _ & Hw).
  split; [exact Ha|]. split; [exact Hf|exact Hw].
Defined.

(** The curve metric fails on the second fold: its [ValueError] is
    raised, after the two warnings of the first fold. *)
Lemma curve_metric_error_propagates_witness :
  zip3 [FloatSeries sample_w; FloatSeries sample_w]
       [IntSeries sample_a; FloatSeries sample_y]
       (weights_of_folds [FloatSeries sample_w; FloatSeries sample_w] None)
  = [(FloatSeries sample_w, IntSeries sample_a, None)]
      ++ (FloatSeries sample_w, FloatSeries sample_y, None) :: [] /\
  calculate_performance_curve_data_on_folds
    [FloatSeries sample_w; FloatSeries sample_w]
    [IntSeries sample_a; FloatSeries sample_y] None
    sample_area sample_curve None
  = (Raise (ValueError "continuous format is not supported"),
     ["metric roc_auc_score could not be evaluated";
      "Only one class present in y_true."]).
Proof.
  split; [reflexivity|].
  refine (curve_metric_error_propagates
            [FloatSeries sample_w; FloatSeries sample_w]
            [IntSeries sample_a; FloatSeries sample_y] None
            sample_area sample_curve None
            [(FloatSeries sample_w, IntSeries sample_a, None)] []
            (FloatSeries sample_w, FloatSeries sample_y, None)
            (ValueError "continuous format is not supported")
            eq_refl _ eq_refl sample_area (fun _ _ => eq_refl) eq_refl).
  intros g [<-|[]]. split; [eexists; reflexivity|]. split.
  - intros e He. inversion He. eauto.
  - intros _. discriminate.
Defined.

Lemma performance_curves_returned_witness :
  (forall f,
     In f (zip3 [FloatSeries sample_w] [IntSeries sample_a]
             (weights_of_folds [FloatSeries sample_w] None)) ->
     exists c, curve_of_fold sample_curve None f = Ok c) /\
  exists out,
    calculate_performance_curve_data_on_folds [FloatSeries sample_w]
      [IntSeries sample_a] None sample_area sample_curve None
    = (Ok out,
       ["metric roc_auc_score could not be evaluated";
        "Only one class present in y_true."]).
Proof.
  assert (H : forall f,
            In f (zip3 [FloatSeries sample_w] [IntSeries sample_a]
                    (weights_of_folds [FloatSeries sample_w] None)) ->
            (exists c, curve_of_fold sample_curve None f = Ok c) /\
            fails_validation_only (area_result sample_area f) /\
            (call_failed (area_result sample_area f) = true ->
             area___name__ sample_area <> None)).
  { intros f [<-|[]]. split; [eexists; reflexivity|]. split.
    - intros e He. inversion He. eauto.
    - intros _. discriminate. }
  split; [intros f Hf; exact (proj1 (H f Hf))|].
  exact (performance_curves_returned [FloatSeries sample_w]
           [IntSeries sample_a] None sample_area sample_curve None H).
Defined.

(** ** The keys of the curves *)

Lemma sample_curve_data_NoDup : NoDup (keys sample_curve_data).
Proof.
  repeat constructor; cbn; intuition discriminate.
Defined.

(** The area of the sample curve is found under "AUC". *)
Lemma roc_curve_keys_renamed_witness :
  NoDup (keys sample_curve_data) /\
  exists curve_data' d',
    calculate_roc_curve sample_curve_data = (curve_data', None) /\
    dict_get curve_data' "unweighted" = Some (CurveDict d') /\
    dict_get d' "AUC" = Some [1]%R /\
    dict_get d' "area" = None.
Proof.
  split; [exact sample_curve_data_NoDup|].
  assert (Hex : exists cd',
            calculate_roc_curve sample_curve_data = (cd', None)).
  { eexists. vm_compute. reflexivity. }
  destruct Hex as (cd' & Hrun).
  destruct (roc_curve_keys_renamed sample_curve_data cd'
              sample_curve_data_NoDup Hrun) as (_ & H).
  destruct (H "unweighted" (or_introl eq_refl))
    as (d & d' & Hd & Hd' & Hm).
  exists cd', d'. split; [exact Hrun|]. split; [exact Hd'|].
  cbn in Hd. inversion Hd; subst d.
  destruct Hm as (_ & _ & _ & _ & _ & Hauc & _ & _ & Harea & _).
  split; [exact Hauc|exact Harea].
Defined.

(** Two of the four sample targets have the largest label. *)
Lemma pr_curve_keys_renamed_witness :
  NoDup (keys sample_curve_data) /\
  exists curve_data' p,
    calculate_pr_curve sample_a sample_curve_data = (curve_data', None) /\
    dict_get curve_data' "prevalence" = Some (Number p) /\
    (p * 4 = 2)%R.
Proof.
  split; [exact sample_curve_data_NoDup|].
  assert (Hex : exists cd',
            calculate_pr_curve sample_a sample_curve_data = (cd', None)).
  { eexists. vm_compute. reflexivity. }
  destruct Hex as (cd' & Hrun).
  destruct (pr_curve_keys_renamed sample_curve_data cd' sample_a
              sample_curve_data_NoDup Hrun)
    as (_ & p & renamed & -> & _ & Hp & _).
  eexists. exists p. split; [exact Hrun|].
  split; [rewrite dict_get_set_entry; reflexivity|].
  cbn in Hp. lra.
Defined.

(** The renamed sample curves cannot be renamed again. *)
Lemma curve_data_used_up_witness :
  NoDup (keys sample_curve_data) /\
  exists curve_data',
    calculate_roc_curve sample_curve_data = (curve_data', None) /\
    calculate_roc_curve curve_data'
    = (curve_data', Some (KeyError "first_ret_value")).
Proof.
  split; [exact sample_curve_data_NoDup|].
  assert (Hex : exists cd',
            calculate_roc_curve sample_curve_data = (cd', None)).
  { eexists. vm_compute. reflexivity. }
  destruct Hex as (cd' & Hrun). exists cd'. split; [exact Hrun|].
  assert (Hne : sample_curve_data <> []) by discriminate.
  destruct (curve_data_used_up sample_curve_data cd' sample_a
              sample_curve_data_NoDup (or_introl (conj Hrun Hne)) sample_a)
    as ([H|H] & _); [exact H|].
  vm_compute in Hrun. inversion Hrun; subst cd'.
  vm_compute in H. discriminate.
Defined.
